(** * pricecypher: the Datasets API and the ScopeScript contract

    A shallow embedding of [pricecypher/datasets.py] (class [Datasets]) and of
    [pricecypher/contracts/ScopeScript.py] (class [ScopeScript]), with the
    properties of the resolve / build / fetch / assemble pipeline.

    Python values are dynamically typed, so columns, user input and the request
    payload are dictionaries from strings to a universe [pyval] of Python
    values.  Methods of [Datasets] run in a state-and-exception monad [M]: the
    state holds the instance attribute [_all_meta], the trace of requests sent
    to the remote services, the asyncio tasks that were created and not yet
    run, and the invocations of the caller's page callback. *)

From Stdlib Require Import ZArith.
From stdpp Require Import base gmap strings list pretty.

Set Warnings "-register-all".
Open Scope string_scope.
Open Scope Z_scope.
Open Scope list_scope.

(** ** Models ([pricecypher.models]): the attributes the code reads *)

Module Dataset.
Record t := { id : Z; dss_url : string }.
End Dataset.

Module Scope.
Record t := { id : Z; representation : string; name_dataset : string }.
End Scope.

Module ScopeValue.
Record t := { id : Z; scope_id : Z; value : string }.
End ScopeValue.

(** ** Python values *)

(** A coroutine object: the result of calling an [async def] without awaiting
    it.  The only one the code leaves un-awaited and stores is the call of
    [get_scope_values] in [_add_scope_values]. *)
Inductive coroutine :=
| co_get_scope_values (dataset_id scope_id : Z) (bc_id : string).

Inductive pyval :=
| PyNone
| PyBool (b : bool)
| PyInt (z : Z)
| PyStr (s : string)
| PyList (l : list pyval)
| PyDict (d : list (string * pyval))
| PyDatetime (t : Z)
| PyScope (s : Scope.t)
| PyScopeValues (l : list ScopeValue.t)
| PyCoroutine (c : coroutine).

(** Python truth value testing ([if x], [not x]): [None], [False], zero and
    empty containers are false; any other object, a coroutine object among
    them, is true. *)
Definition truthy (v : pyval) : bool :=
  match v with
  | PyNone => false
  | PyBool b => b
  | PyInt z => negb (z =? 0)
  | PyStr s => if s is EmptyString then false else true
  | PyList l => if l is [] then false else true
  | PyDict d => if d is [] then false else true
  | PyDatetime _ => true
  | PyScope _ => true
  | PyScopeValues l => if l is [] then false else true
  | PyCoroutine _ => true
  end.

(** [dict.get(d, k)]: the value, or [None] when the key is absent. *)
Definition dict_get (d : gmap string pyval) (k : string) : pyval :=
  default PyNone (d !! k).

(** [k in d], and the integer Python adds up in [add_scope]. *)
Definition contains (d : gmap string pyval) (k : string) : bool :=
  if d !! k is Some _ then true else false.

Definition has_key (d : gmap string pyval) (k : string) : Z :=
  if contains d k then 1 else 0.

(** [isinstance(v, datetime)]. *)
Definition is_datetime (v : pyval) : bool :=
  if v is PyDatetime _ then true else false.

(** ** Exceptions and results *)

Inductive exn :=
| ValueError (msg : string)
| AttributeError (msg : string)
| KeyError (key : string)
| NotImplementedError
| Exception (msg : string).

Inductive result (A : Type) :=
| Ok (a : A)
| Raise (e : exn).
Arguments Ok {A} a.
Arguments Raise {A} e.

Definition is_raise {A} (r : result A) : Prop :=
  match r with Ok _ => False | Raise _ => True end.

Definition is_ValueError {A} (r : result A) : Prop :=
  match r with Raise (ValueError _) => True | _ => False end.

#[global] Instance result_ret : MRet result := λ A a, Ok a.
#[global] Instance result_bind : MBind result := λ A B f r,
  match r with Ok a => f a | Raise e => Raise e end.

(** [d[k]]: [KeyError] when the key is absent. *)
Definition getitem (d : gmap string pyval) (k : string) : result pyval :=
  match d !! k with Some v => Ok v | None => Raise (KeyError k) end.

(** The two attribute errors the pipeline runs into. *)
Definition NoneType_has_no_id : exn :=
  AttributeError "'NoneType' object has no attribute 'id'".

Definition coroutine_has_no_where_in : exn :=
  AttributeError "'coroutine' object has no attribute 'where_in'".

(** [v.id] on the objects the code reads it from: a scope has an [id]; [None]
    and the other values have no such attribute. *)
Definition getattr_id (v : pyval) : result Z :=
  match v with
  | PyScope s => Ok (Scope.id s)
  | PyNone => Raise NoneType_has_no_id
  | _ => Raise (AttributeError "object has no attribute 'id'")
  end.

(** ** Collections ([pricecypher.collections]) *)

(** Modelled from the spec: [ScopeCollection.find_by_id], [find_by_repr] and
    [find_by_name_dataset] are not among the sources.  "Lookup by identifier,
    by representation, or by dataset-native name must each return exactly one
    match or None": the first scope of the collection whose attribute equals
    the given value, [None] when there is none. *)
Definition find_by_id (all_scopes : list Scope.t) (v : pyval) : pyval :=
  match v with
  | PyInt z => from_option PyScope PyNone (find (λ s, Scope.id s =? z) all_scopes)
  | _ => PyNone
  end.

Definition find_by_repr (all_scopes : list Scope.t) (v : pyval) : pyval :=
  match v with
  | PyStr r =>
      from_option PyScope PyNone
        (find (λ s, String.eqb (Scope.representation s) r) all_scopes)
  | _ => PyNone
  end.

Definition find_by_name_dataset (all_scopes : list Scope.t) (v : pyval) : pyval :=
  match v with
  | PyStr n =>
      from_option PyScope PyNone
        (find (λ s, String.eqb (Scope.name_dataset s) n) all_scopes)
  | _ => PyNone
  end.

(** Modelled from the spec: [ScopeValueCollection.where_in] and [pluck] are not
    among the sources.  The scope values are kept "using a value is a member
    of the filter set test before extracting identifiers"; the filter is a
    "single value or set of values". *)
Definition in_filter (filt : pyval) (sv : ScopeValue.t) : bool :=
  match filt with
  | PyList l =>
      existsb (λ x, if x is PyStr s then String.eqb s (ScopeValue.value sv) else false) l
  | PyStr s => String.eqb s (ScopeValue.value sv)
  | _ => false
  end.

Definition where_in (scope_values : list ScopeValue.t) (filt : pyval)
  : list ScopeValue.t :=
  filter (λ sv, in_filter filt sv = true) scope_values.

Definition pluck_id (scope_values : list ScopeValue.t) : list pyval :=
  map (λ sv, PyInt (ScopeValue.id sv)) scope_values.

(** ** Data frames ([pandas]) *)

(** A record handed to [DataFrame.from_records] is a dict from column label to
    value. *)
Abbreviation Row := (list (pyval * pyval)).

(** [pandas] is not among the sources, and [DataFrame.from_records] is kept as
    the code calls it: a frame is the frame of the records it was built from,
    in their order.  What pandas makes of the records is not said here: the
    frame need not have a row for each record (records without any key give a
    frame without rows), and a cell that a record lacks is filled in. *)
Inductive DataFrame :=
| from_records (records : list Row).

(** The one thing the code reads off a frame is what iterating over it gives,
    the column labels.  They are the keys of the records: a frame has a column
    as soon as one record has a key. *)
Definition has_columns (df : DataFrame) : bool :=
  match df with
  | from_records records => existsb (λ r, if r is [] then false else true) records
  end.

(** ** The world a [Datasets] instance runs in *)

Section Datasets.

(** [Transaction] and its method [to_dict(scope_keys)] belong to
    [pricecypher.models]; the code only calls [to_dict]. *)
Context {Transaction : Type}.
Variable to_dict : Transaction → gmap Z pyval → Row.

(** What [_transactions_to_df] is given to iterate over: the raw records of
    the endpoint, or a data frame. *)
Inductive page_data :=
| Records (transactions : list Transaction)
| Frame (df : DataFrame).

(** The callables that get bound to the name [page_cb] in
    [get_transactions]: the function the caller passed, and the nested
    [async def page_cb] of line 231.  The nested function has two free
    variables: [scope_keys], never rebound, and [page_cb], which it reads
    from the cell [frame] of the enclosing call when it runs. *)
Inductive callable :=
| caller_page_cb
| nested_page_cb (frame : nat) (scope_keys : gmap Z pyval).

Record Task := {
  callee : callable;
  arg_page : page_data;
  arg_page_nr : Z;
  arg_last_page : pyval
}.

Inductive Request :=
| GET_datasets (users_base : string)
| GET_scopes (dss_base : string) (dataset_id : Z) (bc_id : string)
| GET_scope_values (dss_base : string) (dataset_id : Z) (bc_id : string) (scope_id : Z)
| POST_transactions (dss_base : string) (dataset_id : Z) (bc_id : string)
    (request_data : gmap string pyval).

Record World := {
  _all_meta : option (list Dataset.t);   (* the attribute [self._all_meta] *)
  requests : list Request;               (* requests sent so far, oldest first *)
  cells : list (option callable);        (* the local [page_cb] of each call of [get_transactions] *)
  tasks : list Task;                     (* coroutines given to [asyncio.create_task], not yet run *)
  page_cb_calls : list (page_data * Z * pyval)  (* invocations of the caller's page callback *)
}.

(** The attributes [__init__] sets and nothing changes afterwards, with the
    class attribute [default_dss_intake_status]. *)
Record Self := {
  _bearer : string;
  _users_base : string;
  _dss_base : option string;
  default_dss_intake_status : pyval
}.

(** [__init__]: [self._all_meta = None]; nothing has been sent or scheduled. *)
Definition __init__ : World :=
  {| _all_meta := None; requests := []; cells := []; tasks := []; page_cb_calls := [] |}.

Record Page := {
  page_records : list Transaction;
  page_nr : Z;
  last_page : pyval
}.

(** The remote services.  An answer may depend on the request and on the
    number of requests sent before it, so the services may answer the same
    request differently later on.  The paginated transaction query may fail:
    [dss_transactions] are the pages that arrive, and
    [dss_transactions_failure] is the exception that ends the pagination after
    them, when there is one. *)
Record Remote := {
  users_datasets : nat → string → list Dataset.t;
  dss_scopes : nat → string → Z → string → list Scope.t;
  dss_scope_values : nat → string → Z → string → Z → list ScopeValue.t;
  dss_transactions : nat → string → Z → string → gmap string pyval → list Page;
  dss_transactions_failure : nat → string → Z → string → gmap string pyval → option exn
}.

Variable remote : Remote.
Variable self : Self.

(** *** The monad of the methods *)

Definition M (A : Type) : Type := World → result A * World.

#[global] Instance M_ret : MRet M := λ A a w, (Ok a, w).
#[global] Instance M_bind : MBind M := λ A B f m w,
  match m w with
  | (Ok a, w') => f a w'
  | (Raise e, w') => (Raise e, w')
  end.

Definition raise {A} (e : exn) : M A := λ w, (Raise e, w).

(** A computation without effects, run in place. *)
Definition lift {A} (r : result A) : M A := λ w, (r, w).

Definition get_all_meta : M (option (list Dataset.t)) := λ w, (Ok (_all_meta w), w).

Definition set_all_meta (v : option (list Dataset.t)) : M unit := λ w,
  (Ok (), {| _all_meta := v; requests := requests w; cells := cells w;
             tasks := tasks w; page_cb_calls := page_cb_calls w |}).

(** Send a request; the result is the number of requests sent before it. *)
Definition send (r : Request) : M nat := λ w,
  (Ok (length (requests w)),
   {| _all_meta := _all_meta w; requests := requests w ++ [r]; cells := cells w;
      tasks := tasks w; page_cb_calls := page_cb_calls w |}).

(** Binding the parameter [page_cb] on entry of [get_transactions]. *)
Definition new_cell (v : option callable) : M nat := λ w,
  (Ok (length (cells w)),
   {| _all_meta := _all_meta w; requests := requests w; cells := cells w ++ [v];
      tasks := tasks w; page_cb_calls := page_cb_calls w |}).

Definition store_cell (frame : nat) (v : option callable) : M unit := λ w,
  (Ok (),
   {| _all_meta := _all_meta w; requests := requests w; cells := <[frame := v]> (cells w);
      tasks := tasks w; page_cb_calls := page_cb_calls w |}).

Definition load_cell (frame : nat) : M (option callable) := λ w,
  (Ok (default None (cells w !! frame)), w).

(** [asyncio.create_task(f(page, page_nr, last_page))]: the coroutine is
    queued; nothing of [f] has run yet. *)
Definition create_task (f : callable) (page : page_data) (nr : Z) (last : pyval)
  : M unit := λ w,
  (Ok (),
   {| _all_meta := _all_meta w; requests := requests w; cells := cells w;
      tasks := tasks w ++ [{| callee := f; arg_page := page; arg_page_nr := nr;
                              arg_last_page := last |}];
      page_cb_calls := page_cb_calls w |}).

(** The body of the caller's callback is not ours: its invocation is
    recorded with the arguments it received. *)
Definition record_page_cb_call (page : page_data) (nr : Z) (last : pyval) : M unit := λ w,
  (Ok (),
   {| _all_meta := _all_meta w; requests := requests w; cells := cells w;
      tasks := tasks w; page_cb_calls := page_cb_calls w ++ [(page, nr, last)] |}).

(** *** [index] and [get_meta] (lines 67-87) *)

(** Modelled from the spec: [UsersEndpoint(...).datasets().index()] is not
    among the sources; one request to the user service that answers with the
    "ordered sequence of Dataset". *)
Definition UsersEndpoint_datasets_index (users_base : string) : M (list Dataset.t) :=
  clock ← send (GET_datasets users_base);
  mret (users_datasets remote clock users_base).

Definition index : M (list Dataset.t) :=
  all_meta ← get_all_meta;
  match all_meta with
  | None =>
      fetched ← UsersEndpoint_datasets_index (_users_base self);
      _ ← set_all_meta (Some fetched);
      mret fetched
  | Some memo => mret memo
  end.

Definition get_meta (dataset_id : Z) : M (option Dataset.t) :=
  datasets ← index;
  mret (find (λ d, Dataset.id d =? dataset_id) datasets).

(** *** [_get_dss_base], [get_scopes], [get_scope_values] (lines 51-124) *)

Definition _get_dss_base (dataset_id : Z) : M string :=
  match _dss_base self with
  | Some base => mret base
  | None =>
      meta ← get_meta dataset_id;
      match meta with
      | Some d => mret (Dataset.dss_url d)
      | None => raise (AttributeError "'NoneType' object has no attribute 'dss_url'")
      end
  end.

(** Modelled from the spec: [DatasetsEndpoint(...).business_cell(bc_id)
    .scopes().index()] is not among the sources; "the one underlying listing
    call per (dataset, business-cell) pair". *)
Definition DatasetsEndpoint_scopes_index (dss_base : string) (dataset_id : Z)
    (bc_id : string) : M (list Scope.t) :=
  clock ← send (GET_scopes dss_base dataset_id bc_id);
  mret (dss_scopes remote clock dss_base dataset_id bc_id).

Definition get_scopes (dataset_id : Z) (bc_id : string) : M (list Scope.t) :=
  dss_base ← _get_dss_base dataset_id;
  DatasetsEndpoint_scopes_index dss_base dataset_id bc_id.

(** Modelled from the spec: [...scopes().scope_values(scope_id)] is not among
    the sources; it "fetches scope values for a scope". *)
Definition DatasetsEndpoint_scope_values (dss_base : string) (dataset_id : Z)
    (bc_id : string) (scope_id : Z) : M (list ScopeValue.t) :=
  clock ← send (GET_scope_values dss_base dataset_id bc_id scope_id);
  mret (dss_scope_values remote clock dss_base dataset_id bc_id scope_id).

(** The body of the coroutine: it runs only when the coroutine is awaited. *)
Definition get_scope_values (dataset_id scope_id : Z) (bc_id : string)
  : M (list ScopeValue.t) :=
  dss_base ← _get_dss_base dataset_id;
  DatasetsEndpoint_scope_values dss_base dataset_id bc_id scope_id.

(** *** [_transactions_to_df] (lines 250-260) *)

(** [DataFrame.from_records([t.to_dict(scope_keys) for t in transactions])].
    Iterating over raw records gives the transactions.  Iterating over a data
    frame gives its column labels, and a label has no [to_dict]; a frame
    without columns gives nothing to iterate over. *)
Definition _transactions_to_df (transactions : page_data) (scope_keys : gmap Z pyval)
  : result DataFrame :=
  match transactions with
  | Records ts => Ok (from_records (map (λ t, to_dict t scope_keys) ts))
  | Frame df =>
      if has_columns df
      then Raise (AttributeError "column label has no attribute 'to_dict'")
      else Ok (from_records [])
  end.

(** *** [_add_scopes] (lines 262-292) *)

Definition add_scope (all_scopes : list Scope.t) (column : gmap string pyval)
  : result (gmap string pyval) :=
  if bool_decide (has_key column "scope_id" + has_key column "representation"
                  + has_key column "name_dataset" ≠ 1)
  then Raise (ValueError
    "Not exactly one of `scope_id`, `representation` or `name_dataset` provided for column")
  else
    scope ←
      match column !! "scope_id", column !! "representation", column !! "name_dataset" with
      | Some scope_id, _, _ => Ok (find_by_id all_scopes scope_id)
      | None, Some representation, _ => Ok (find_by_repr all_scopes representation)
      | None, None, Some name_dataset => Ok (find_by_name_dataset all_scopes name_dataset)
      | None, None, None => Raise (ValueError "No scope could be found for column")
      end;
    Ok (<["scope" := scope]> column).

Definition _add_scopes (dataset_id : Z) (columns : list (gmap string pyval))
    (bc_id : string) : M (list (gmap string pyval)) :=
  all_scopes ← get_scopes dataset_id bc_id;
  lift (mapM (add_scope all_scopes) columns).

(** *** [_add_scope_values] (lines 294-311) *)

(** Not an [async def], and [get_scope_values] is called without [await]: the
    value stored under [scope_values] is the coroutine object of the call. *)
Definition _add_scope_values (dataset_id : Z) (column : gmap string pyval)
    (bc_id : string) : result (gmap string pyval) :=
  scope ← getitem column "scope";
  scope_id ← getattr_id scope;
  let scope_values := PyCoroutine (co_get_scope_values dataset_id scope_id bc_id) in
  Ok (<["scope_values" := scope_values]> column).

(** *** [_find_scope_value_filters] (lines 313-335) *)

(** [scope_values.where_in(filt).pluck('id')]: only a scope value collection
    has the method [where_in]. *)
Definition where_in_pluck_id (scope_values filt : pyval) : result (list pyval) :=
  match scope_values with
  | PyScopeValues l => Ok (pluck_id (where_in l filt))
  | PyCoroutine _ => Raise coroutine_has_no_where_in
  | _ => Raise (AttributeError "object has no attribute 'where_in'")
  end.

Fixpoint _find_scope_value_filters_loop (filters : list pyval)
    (columns : list (gmap string pyval)) : result (list pyval) :=
  match columns with
  | [] => Ok filters
  | column :: rest =>
      let filt := dict_get column "filter" in
      let scope_values := dict_get column "scope_values" in
      if negb (truthy filt) || negb (truthy scope_values)
      then _find_scope_value_filters_loop filters rest
      else
        ids ← where_in_pluck_id scope_values filt;
        _find_scope_value_filters_loop (filters ++ ids) rest
  end.

Definition _find_scope_value_filters (columns : list (gmap string pyval))
  : result (list pyval) :=
  _find_scope_value_filters_loop [] columns.

(** *** [_find_aggregation_methods] (lines 337-362) *)

Fixpoint _find_aggregation_methods_loop (aggregation_methods : list pyval)
    (columns : list (gmap string pyval)) : result (list pyval) :=
  match columns with
  | [] => Ok aggregation_methods
  | column :: rest =>
      let aggregate := dict_get column "aggregate" in
      let scope := dict_get column "scope" in
      if negb (truthy aggregate) || negb (truthy scope)
      then _find_aggregation_methods_loop aggregation_methods rest
      else
        scope_id ← getattr_id scope;
        _find_aggregation_methods_loop
          (aggregation_methods
             ++ [PyDict [("scope_id", PyInt scope_id); ("method", aggregate)]])
          rest
  end.

Definition _find_aggregation_methods (columns : list (gmap string pyval))
  : result (list pyval) :=
  _find_aggregation_methods_loop [] columns.

(** *** [_find_scope_keys] (lines 364-380) *)

(** [f'scope_{scope.id}'] *)
Definition default_key (scope_id : Z) : pyval := PyStr ("scope_" +:+ pretty scope_id).

(** The default of [dict.get(column, 'key', f'scope_{scope.id}')] is evaluated
    before the call, so [scope.id] is read whether or not the column has a
    key. *)
Fixpoint _find_scope_keys_loop (scope_keys : gmap Z pyval)
    (columns : list (gmap string pyval)) : result (gmap Z pyval) :=
  match columns with
  | [] => Ok scope_keys
  | column :: rest =>
      scope ← getitem column "scope";
      scope_id ← getattr_id scope;
      let key := default (default_key scope_id) (column !! "key") in
      _find_scope_keys_loop (<[scope_id := key]> scope_keys) rest
  end.

Definition _find_scope_keys (columns : list (gmap string pyval))
  : result (gmap Z pyval) :=
  _find_scope_keys_loop ∅ columns.

(** *** Page callbacks and the event loop *)

(** The nested [async def page_cb(page, page_nr, last_page)] of lines 231-235.
    Its free variable [page_cb] is the local of the enclosing call, read when
    the body runs. *)
Definition nested_page_cb_body (frame : nat) (scope_keys : gmap Z pyval)
    (page : page_data) (page_nr : Z) (last_page : pyval) : M unit :=
  page_cb ← load_cell frame;
  match page_cb with
  | Some f =>
      df ← lift (_transactions_to_df page scope_keys);
      create_task f (Frame df) page_nr last_page
  | None => mret ()
  end.

(** Running the body of a callable on its arguments. *)
Definition call (f : callable) (page : page_data) (page_nr : Z) (last_page : pyval)
  : M unit :=
  match f with
  | caller_page_cb => record_page_cb_call page page_nr last_page
  | nested_page_cb frame scope_keys =>
      nested_page_cb_body frame scope_keys page page_nr last_page
  end.

Definition set_tasks (ts : list Task) (w : World) : World :=
  {| _all_meta := _all_meta w; requests := requests w; cells := cells w;
     tasks := ts; page_cb_calls := page_cb_calls w |}.

(** The event loop runs the queued tasks, oldest first, at most [fuel] of
    them.  Nobody awaits a task, so an exception that ends one is dropped. *)
Fixpoint run_tasks (fuel : nat) (w : World) : World :=
  match fuel with
  | O => w
  | S fuel' =>
      match tasks w with
      | [] => w
      | t :: rest =>
          run_tasks fuel'
            (call (callee t) (arg_page t) (arg_page_nr t) (arg_last_page t)
               (set_tasks rest w)).2
      end
  end.

(** Modelled from the spec: [DatasetsEndpoint(...).business_cell(bc_id)
    .transactions().index(request_data, page_cb)] is not among the sources.
    It "drives the remote paginated transaction query", calls the sink "with
    signature (page data, page number, total/last-page indicator)" "once per
    page as pages arrive", and returns "the complete, ordered collection of raw
    records the remote endpoint returns across all pages"; "if the remote
    pagination source fails, the fetch operation fails as a whole", with the
    exception of the source, after the pages that arrived were handed over. *)
Definition DatasetsEndpoint_transactions_index (dss_base : string) (dataset_id : Z)
    (bc_id : string) (request_data : gmap string pyval) (page_cb : option callable)
  : M (list Transaction) :=
  clock ← send (POST_transactions dss_base dataset_id bc_id request_data);
  let pages := dss_transactions remote clock dss_base dataset_id bc_id request_data in
  _ ← mapM (λ p,
         match page_cb with
         | Some f => call f (Records (page_records p)) (page_nr p) (last_page p)
         | None => mret ()
         end) pages;
  match dss_transactions_failure remote clock dss_base dataset_id bc_id request_data with
  | Some e => raise e
  | None => mret (concat (page_records <$> pages))
  end.

(** *** [get_transactions] (lines 145-248) *)

(** [isinstance(v, datetime)]: attach; [None]: leave out; else [ValueError]. *)
Definition attach_date_time (name : string) (v : pyval) (request_data : gmap string pyval)
  : result (gmap string pyval) :=
  if is_datetime v then Ok (<[name := v]> request_data)
  else if v is PyNone then Ok request_data
  else Raise (ValueError (name +:+ " should be an instance of datetime.")).

Definition get_transactions (dataset_id : Z) (aggregate : pyval)
    (columns : list (gmap string pyval)) (start_date_time end_date_time : pyval)
    (bc_id : string) (intake_status filter_transaction_ids : pyval)
    (page_cb : option callable) : M DataFrame :=
  (* the parameter [page_cb] is a local of this call *)
  frame ← new_cell page_cb;
  dss_base ← _get_dss_base dataset_id;
  columns_with_scopes ← _add_scopes dataset_id columns bc_id;
  scope_keys ← lift (_find_scope_keys columns_with_scopes);
  select_scopes ←
    lift (mapM (λ c, scope ← getitem c "scope"; getattr_id scope) columns_with_scopes);
  columns_with_values ←
    lift (mapM (λ c, _add_scope_values dataset_id c bc_id)
            (filter (λ c, truthy (dict_get c "filter") = true) columns_with_scopes));
  filters ← lift (_find_scope_value_filters columns_with_values);
  aggregation_methods ← lift (_find_aggregation_methods columns_with_scopes);
  let request_data : gmap string pyval :=
    <["select_scopes" := PyList (PyInt <$> select_scopes)]> {["aggregate" := aggregate]} in
  let intake_status :=
    if intake_status is PyNone then default_dss_intake_status self else intake_status in
  let request_data :=
    if intake_status is PyNone then request_data
    else <["intake_status" := intake_status]> request_data in
  let request_data :=
    if filter_transaction_ids is PyNone then request_data
    else <["filter_transaction_ids" := filter_transaction_ids]> request_data in
  let request_data :=
    if filters is [] then request_data
    else <["filter_scope_values" := PyList filters]> request_data in
  let request_data :=
    if aggregation_methods is [] then request_data
    else <["aggregation_methods" := PyList aggregation_methods]> request_data in
  request_data ← lift (attach_date_time "start_date_time" start_date_time request_data);
  request_data ← lift (attach_date_time "end_date_time" end_date_time request_data);
  (* line 231: [async def page_cb] rebinds the local [page_cb] *)
  _ ← store_cell frame (Some (nested_page_cb frame scope_keys));
  (* line 241: the name [page_cb] is read again for the call *)
  page_cb ← load_cell frame;
  transactions ←
    DatasetsEndpoint_transactions_index dss_base dataset_id bc_id request_data page_cb;
  lift (_transactions_to_df (Records transactions) scope_keys).

(** *** Sequences of calls of [index] and [get_meta] on one instance *)

Inductive cache_call :=
| call_index
| call_get_meta (dataset_id : Z).

Inductive cache_answer :=
| answer_index (datasets : list Dataset.t)
| answer_get_meta (meta : option Dataset.t).

Definition do_call (c : cache_call) : M cache_answer :=
  match c with
  | call_index => datasets ← index; mret (answer_index datasets)
  | call_get_meta dataset_id => meta ← get_meta dataset_id; mret (answer_get_meta meta)
  end.

End Datasets.

(** ** [ScopeScript.execute] (ScopeScript.py, lines 14-20) *)

Section ScopeScript.

(** The abstract method [execute_scope_script] is what a subclass provides; it
    may return a value or raise. *)
Context {R : Type}.
Variable execute_scope_script : option Z → string → pyval → result R.

(** The body of the abstract method itself (line 37): what an implementation
    that hands over to it runs. *)
Definition abstract_execute_scope_script (business_cell_id : option Z)
    (bearer_token : string) (transaction_ids : pyval) : result R :=
  Raise NotImplementedError.

Definition execute (business_cell_id : option Z) (bearer_token : string)
    (user_input : gmap string pyval) : result R :=
  if negb (contains user_input "transaction_ids")
  then Raise (Exception "Expected input key 'transaction_ids' not present.")
  else
    transaction_ids ← getitem user_input "transaction_ids";
    execute_scope_script business_cell_id bearer_token transaction_ids.

End ScopeScript.

(** ** What the properties are stated with *)

(** [meta] is the first dataset of [datasets] with identifier [dataset_id], or
    absent when no dataset of [datasets] has it. *)
Definition first_with_id (datasets : list Dataset.t) (dataset_id : Z)
    (meta : option Dataset.t) : Prop :=
  match meta with
  | Some d =>
      ∃ before after, datasets = before ++ d :: after
        ∧ Dataset.id d = dataset_id
        ∧ ∀ d', d' ∈ before → Dataset.id d' ≠ dataset_id
  | None => ∀ d', d' ∈ datasets → Dataset.id d' ≠ dataset_id
  end.

(** The answer a call must give when the listing is [datasets]. *)
Definition answers (datasets : list Dataset.t) (c : cache_call) (a : cache_answer)
  : Prop :=
  match c, a with
  | call_index, answer_index l => l = datasets
  | call_get_meta dataset_id, answer_get_meta meta => first_with_id datasets dataset_id meta
  | _, _ => False
  end.

(** The scope a column is resolved to: the [scope] entry, when it holds a
    scope. *)
Definition resolved_scope (column : gmap string pyval) : option Scope.t :=
  match column !! "scope" with
  | Some (PyScope s) => Some s
  | _ => None
  end.

Definition resolves_to (column : gmap string pyval) (scope_id : Z) : Prop :=
  ∃ s, resolved_scope column = Some s ∧ Scope.id s = scope_id.

(** The key a column carries for the scope [scope_id]: its [key] entry, and
    the default name of the scope when it has none. *)
Definition key_of (column : gmap string pyval) (scope_id : Z) : pyval :=
  default (default_key scope_id) (column !! "key").

(** How many of the three selectors a column has. *)
Definition selector_count (column : gmap string pyval) : Z :=
  has_key column "scope_id" + has_key column "representation"
  + has_key column "name_dataset".

(** What the selector of a column finds among [all_scopes]: a scope, or
    [None] when nothing matches. *)
Definition lookup_scope (all_scopes : list Scope.t) (column : gmap string pyval)
  : pyval :=
  match column !! "scope_id", column !! "representation", column !! "name_dataset" with
  | Some v, _, _ => find_by_id all_scopes v
  | None, Some v, _ => find_by_repr all_scopes v
  | None, None, Some v => find_by_name_dataset all_scopes v
  | None, None, None => PyNone
  end.

(** A column with its resolution, as [add_scope] returns it. *)
Definition resolve (all_scopes : list Scope.t) (column : gmap string pyval)
  : gmap string pyval :=
  <["scope" := lookup_scope all_scopes column]> column.

(** The selector of the column matches a scope of [all_scopes]. *)
Definition matches_scope (all_scopes : list Scope.t) (column : gmap string pyval)
  : Prop :=
  ∃ s, lookup_scope all_scopes column = PyScope s.

(** A column declares a filter, or an aggregation method, when it has the
    entry with a value that is not empty. *)
Definition declares_filter (column : gmap string pyval) : Prop :=
  truthy (dict_get column "filter") = true.

Definition declares_aggregate (column : gmap string pyval) : Prop :=
  truthy (dict_get column "aggregate") = true.

(** [entry] is the pair of the identifier of the scope the column resolves to
    and of the aggregation method the column declares. *)
Definition aggregation_pair (all_scopes : list Scope.t) (column : gmap string pyval)
    (entry : pyval) : Prop :=
  ∃ s, lookup_scope all_scopes column = PyScope s
    ∧ entry = PyDict [("scope_id", PyInt (Scope.id s));
                      ("method", dict_get column "aggregate")].

(** A time boundary that was supplied and is not a [datetime]. *)
Definition malformed_date_time (v : pyval) : bool :=
  match v with
  | PyNone | PyDatetime _ => false
  | _ => true
  end.

(** The request payload, entry by entry: [aggregate] and [select_scopes]
    always, the others under their conditions. *)
Definition attach_unless_None (name : string) (v : pyval)
    (request_data : gmap string pyval) : gmap string pyval :=
  if v is PyNone then request_data else <[name := v]> request_data.

Definition attach_unless_empty (name : string) (l : list pyval)
    (request_data : gmap string pyval) : gmap string pyval :=
  if l is [] then request_data else <[name := PyList l]> request_data.

Definition request_data_of (default_intake_status aggregate : pyval)
    (select_scopes : list Z) (intake_status filter_transaction_ids : pyval)
    (filters aggregation_methods : list pyval) : gmap string pyval :=
  attach_unless_empty "aggregation_methods" aggregation_methods
    (attach_unless_empty "filter_scope_values" filters
       (attach_unless_None "filter_transaction_ids" filter_transaction_ids
          (attach_unless_None "intake_status"
             (if intake_status is PyNone then default_intake_status else intake_status)
             (<["select_scopes" := PyList (PyInt <$> select_scopes)]>
                {["aggregate" := aggregate]})))).

(** Lines 184-229 of [get_transactions] once the scopes are fetched: they send
    nothing and read nothing of the world, so they are a function of the
    arguments and of the fetched scopes, to the scope-key map and the request
    payload, or to the exception that ends the call. *)
Definition prepare_request (default_intake_status : pyval) (all_scopes : list Scope.t)
    (dataset_id : Z) (aggregate : pyval) (columns : list (gmap string pyval))
    (start_date_time end_date_time : pyval) (bc_id : string)
    (intake_status filter_transaction_ids : pyval)
  : result (gmap Z pyval * gmap string pyval) :=
  columns_with_scopes ← mapM (add_scope all_scopes) columns;
  scope_keys ← _find_scope_keys columns_with_scopes;
  select_scopes ←
    mapM (λ c, scope ← getitem c "scope"; getattr_id scope) columns_with_scopes;
  columns_with_values ←
    mapM (λ c, _add_scope_values dataset_id c bc_id)
      (filter (λ c, truthy (dict_get c "filter") = true) columns_with_scopes);
  filters ← _find_scope_value_filters columns_with_values;
  aggregation_methods ← _find_aggregation_methods columns_with_scopes;
  request_data ←
    attach_date_time "start_date_time" start_date_time
      (request_data_of default_intake_status aggregate select_scopes intake_status
         filter_transaction_ids filters aggregation_methods);
  request_data ← attach_date_time "end_date_time" end_date_time request_data;
  Ok (scope_keys, request_data).

Section Worlds.

Context {Transaction : Type}.
Variable to_dict : Transaction → gmap Z pyval → Row.
Variable remote : Remote (Transaction := Transaction).
Variable self : Self.
Implicit Types (w : World (Transaction := Transaction)).

(** The worlds the primitives of [M] lead to. *)
Definition sent (r : Request) w : World :=
  {| _all_meta := _all_meta w; requests := requests w ++ [r]; cells := cells w;
     tasks := tasks w; page_cb_calls := page_cb_calls w |}.

Definition push_cell (v : option callable) w : World :=
  {| _all_meta := _all_meta w; requests := requests w; cells := cells w ++ [v];
     tasks := tasks w; page_cb_calls := page_cb_calls w |}.

(** The world after the one fetch of the dataset listing. *)
Definition after_fetch w : World :=
  {| _all_meta := Some (users_datasets remote (length (requests w)) (_users_base self));
     requests := requests w ++ [GET_datasets (_users_base self)];
     cells := cells w; tasks := tasks w; page_cb_calls := page_cb_calls w |}.

(** The listing [index] returns and the world it leaves: the memoized
    listing, or the fetched one. *)
Definition listed w : list Dataset.t * World (Transaction := Transaction) :=
  match _all_meta w with
  | Some memo => (memo, w)
  | None => (users_datasets remote (length (requests w)) (_users_base self), after_fetch w)
  end.

(** The base address [_get_dss_base] finds with a listing. *)
Definition dss_base_in (datasets : list Dataset.t) (dataset_id : Z) : result string :=
  match _dss_base self with
  | Some base => Ok base
  | None =>
      match find (λ d, Dataset.id d =? dataset_id) datasets with
      | Some d => Ok (Dataset.dss_url d)
      | None => Raise (AttributeError "'NoneType' object has no attribute 'dss_url'")
      end
  end.

(** The task line 235 creates for a page. *)
Definition page_task (frame : nat) (scope_keys : gmap Z pyval)
    (p : Page (Transaction := Transaction)) : Task (Transaction := Transaction) :=
  {| callee := nested_page_cb frame scope_keys;
     arg_page := Frame (from_records (map (λ t, to_dict t scope_keys) (page_records p)));
     arg_page_nr := page_nr p;
     arg_last_page := last_page p |}.

(** The world after the transactions were fetched from world [w]: the query
    is sent, the local [page_cb] of the call holds the nested function, and a
    task is queued for each page. *)
Definition fetched (frame : nat) (scope_keys : gmap Z pyval) (query : Request)
    (pages : list (Page (Transaction := Transaction))) w : World :=
  {| _all_meta := _all_meta w;
     requests := requests w ++ [query];
     cells := <[frame := Some (nested_page_cb frame scope_keys)]> (cells w);
     tasks := tasks w ++ map (page_task frame scope_keys) pages;
     page_cb_calls := page_cb_calls w |}.

(** Every queued task calls a nested [page_cb] whose enclosing local [page_cb]
    holds a nested [page_cb] of the same call. *)
Definition only_nested_tasks w : Prop :=
  ∀ t, t ∈ tasks w →
    ∃ frame scope_keys scope_keys',
      callee t = nested_page_cb frame scope_keys
      ∧ cells w !! frame = Some (Some (nested_page_cb frame scope_keys')).

End Worlds.

(** ** [get_transaction_summary] (lines 126-143) *)

Section TransactionSummary.

Context {Transaction Summary : Type}.
Variable remote : Remote (Transaction := Transaction).
Variable self : Self.

(** [DatasetsEndpoint(...).business_cell(bc_id).transactions()
    .summary(intake_status)] is not among the sources: it is left open, free
    to send requests, to return a summary or to raise. *)
Variable DatasetsEndpoint_transactions_summary :
  string → Z → string → pyval → M (Transaction := Transaction) Summary.

Definition get_transaction_summary (dataset_id : Z) (bc_id : string)
    (intake_status : pyval) : M Summary :=
  let intake_status :=
    if intake_status is PyNone then default_dss_intake_status self else intake_status in
  dss_base ← _get_dss_base remote self dataset_id;
  DatasetsEndpoint_transactions_summary dss_base dataset_id bc_id intake_status.

End TransactionSummary.

(** ** More to state the properties with *)

(** [id] is the identifier of the scope the selector of the column finds. *)
Definition resolves_id (all_scopes : list Scope.t) (column : gmap string pyval)
    (id : Z) : Prop :=
  ∃ s, lookup_scope all_scopes column = PyScope s ∧ id = Scope.id s.

(** The keys a request payload may have. *)
Definition payload_keys : list string :=
  ["aggregate"; "select_scopes"; "intake_status"; "filter_transaction_ids";
   "aggregation_methods"; "start_date_time"; "end_date_time"].

(** An entry of the payload that is there unless the value is [None]. *)
Definition unless_None (v : pyval) : option pyval :=
  if v is PyNone then None else Some v.

(** The columns and the time boundaries from which the request can be
    prepared with the scopes [all_scopes]: every column has exactly one
    selector, which finds a scope, and declares no filter, and each time
    boundary is a [datetime] or [None]. *)
Definition queryable (all_scopes : list Scope.t) (columns : list (gmap string pyval))
    (start_date_time end_date_time : pyval) : Prop :=
  Forall (λ c, selector_count c = 1) columns
  ∧ Forall (matches_scope all_scopes) columns
  ∧ Forall (λ c, ¬ declares_filter c) columns
  ∧ malformed_date_time start_date_time = false
  ∧ malformed_date_time end_date_time = false.

Section Tasks.

Context {Transaction : Type}.
Implicit Types (w : World (Transaction := Transaction)).
Implicit Types (t : Task (Transaction := Transaction)).

(** When the last request of [w] is a transaction query, its pagination did
    not fail. *)
Definition last_query_answered (remote : Remote (Transaction := Transaction)) w : Prop :=
  ∀ sent_before dss_base dataset_id bc_id request_data,
    requests w
    = sent_before ++ [POST_transactions dss_base dataset_id bc_id request_data] →
    dss_transactions_failure remote (length sent_before) dss_base dataset_id bc_id
      request_data
    = None.

(** The task was given a data frame with a column. *)
Definition on_frame_with_columns t : Prop :=
  ∃ df, arg_page t = Frame df ∧ has_columns df = true.

(** The task is a call of a nested [page_cb], whose enclosing local [page_cb]
    holds a nested [page_cb], on a data frame without columns. *)
Definition respawning w t : Prop :=
  ∃ frame scope_keys scope_keys' df,
    callee t = nested_page_cb frame scope_keys
    ∧ arg_page t = Frame df
    ∧ has_columns df = false
    ∧ cells w !! frame = Some (Some (nested_page_cb frame scope_keys')).

End Tasks.

(** ** A small dataset service, for the examples *)

(** A transaction as the list of its scope values, and a [to_dict] that gives
    every scope of the scope-key map its key and the value of the record. *)
Definition demo_to_dict (t : list (Z * pyval)) (scope_keys : gmap Z pyval) : Row :=
  omap (λ '(scope_id, v), (λ key, (key, v)) <$> scope_keys !! scope_id) t.

Definition demo_revenue : Scope.t :=
  {| Scope.id := 1; Scope.representation := "rev"; Scope.name_dataset := "Revenue" |}.

Definition demo_cost : Scope.t :=
  {| Scope.id := 2; Scope.representation := "cost"; Scope.name_dataset := "Cost" |}.

Definition demo_cost_values : list ScopeValue.t :=
  [ {| ScopeValue.id := 10; ScopeValue.scope_id := 2; ScopeValue.value := "A" |};
    {| ScopeValue.id := 11; ScopeValue.scope_id := 2; ScopeValue.value := "B" |};
    {| ScopeValue.id := 12; ScopeValue.scope_id := 2; ScopeValue.value := "C" |} ].

(** Dataset 7 with two scopes; every transaction query is answered in two
    pages of one transaction each. *)
Definition demo_remote : Remote (Transaction := list (Z * pyval)) :=
  {| users_datasets := λ _ _,
       [ {| Dataset.id := 7; Dataset.dss_url := "https://dss.example" |} ];
     dss_scopes := λ _ _ _ _, [demo_revenue; demo_cost];
     dss_scope_values := λ _ _ _ _ _, demo_cost_values;
     dss_transactions := λ _ _ _ _ _,
       [ {| page_records := [[(1, PyInt 100); (2, PyStr "A")]];
            page_nr := 1; last_page := PyInt 2 |};
         {| page_records := [[(1, PyInt 250); (2, PyStr "B")]];
            page_nr := 2; last_page := PyInt 2 |} ];
     dss_transactions_failure := λ _ _ _ _ _, None |}.

(** An instance with the base address of the dataset service configured, and
    one that looks it up in the dataset listing. *)
Definition demo_self : Self :=
  {| _bearer := "token"; _users_base := "https://users.pricecypher.com";
     _dss_base := Some "https://dss.example"; default_dss_intake_status := PyNone |}.

Definition demo_self_no_base : Self :=
  {| _bearer := "token"; _users_base := "https://users.pricecypher.com";
     _dss_base := None; default_dss_intake_status := PyNone |}.

(** Columns: [{scope_id: 1, key: 'rev'}], [{representation: 'cost',
    aggregate: 'sum'}], the latter with [filter: ['A', 'B']], a column without
    selector, and a column whose selector matches no scope. *)
Definition demo_col_rev : gmap string pyval :=
  <["key" := PyStr "rev"]> {["scope_id" := PyInt 1]}.

Definition demo_col_cost : gmap string pyval :=
  <["aggregate" := PyStr "sum"]> {["representation" := PyStr "cost"]}.

Definition demo_col_cost_filtered : gmap string pyval :=
  <["filter" := PyList [PyStr "A"; PyStr "B"]]> demo_col_cost.

Definition demo_col_no_selector : gmap string pyval := {["key" := PyStr "x"]}.

Definition demo_col_unknown : gmap string pyval := {["scope_id" := PyInt 99]}.

(** The world of a fresh instance. *)
Definition demo_world : World (Transaction := list (Z * pyval)) := __init__.

(** A call on dataset 7 with aggregation, no end of the time window, all
    business cells, and neither intake status nor transaction filter. *)
Definition demo_run (columns : list (gmap string pyval)) (start_date_time : pyval)
    (page_cb : option callable) :=
  get_transactions demo_to_dict demo_remote demo_self 7 (PyBool true) columns
    start_date_time PyNone "all" PyNone PyNone page_cb demo_world.

(** A column as [_add_scopes] leaves it: resolved to [s], with or without a
    key. *)
Definition demo_resolved (s : Scope.t) (key : option string) : gmap string pyval :=
  let c : gmap string pyval := {["scope" := PyScope s]} in
  if key is Some k then <["key" := PyStr k]> c else c.

(** Goals over the columns of an example, settled by evaluation. *)
Ltac each_column tac :=
  repeat first [apply Forall_nil_2 | apply Forall_cons_2]; tac.

(** A dataset service that answers every transaction query with one page of
    one transaction and one page without any. *)
Definition demo_remote_empty_page : Remote (Transaction := list (Z * pyval)) :=
  {| users_datasets := users_datasets demo_remote;
     dss_scopes := dss_scopes demo_remote;
     dss_scope_values := dss_scope_values demo_remote;
     dss_transactions := λ _ _ _ _ _,
       [ {| page_records := [[(1, PyInt 100); (2, PyStr "A")]];
            page_nr := 1; last_page := PyInt 2 |};
         {| page_records := []; page_nr := 2; last_page := PyInt 2 |} ];
     dss_transactions_failure := λ _ _ _ _ _, None |}.

(** A dataset service whose pagination fails after the first of the two
    pages. *)
Definition demo_remote_failing : Remote (Transaction := list (Z * pyval)) :=
  {| users_datasets := users_datasets demo_remote;
     dss_scopes := dss_scopes demo_remote;
     dss_scope_values := dss_scope_values demo_remote;
     dss_transactions := λ _ _ _ _ _,
       [ {| page_records := [[(1, PyInt 100); (2, PyStr "A")]];
            page_nr := 1; last_page := PyInt 2 |} ];
     dss_transactions_failure := λ _ _ _ _ _, Some (Exception "502 Bad Gateway") |}.

(** A call with every optional argument: a time window, a business cell, an
    intake status and a list of transactions. *)
Definition demo_full_run :=
  get_transactions demo_to_dict demo_remote demo_self 7 (PyBool false)
    [demo_col_rev; demo_col_cost] (PyDatetime 100) (PyDatetime 200) "bc1"
    (PyStr "approved") (PyList [PyInt 5; PyInt 6]) None demo_world.

(** Its payload. *)
Definition demo_full_payload : gmap string pyval :=
  <["end_date_time" := PyDatetime 200]>
    (<["start_date_time" := PyDatetime 100]>
       (<["aggregation_methods" :=
            PyList [PyDict [("scope_id", PyInt 2); ("method", PyStr "sum")]]]>
          (<["filter_transaction_ids" := PyList [PyInt 5; PyInt 6]]>
             (<["intake_status" := PyStr "approved"]>
                (<["select_scopes" := PyList [PyInt 1; PyInt 2]]>
                   {["aggregate" := PyBool false]}))))).

(** A summary endpoint that answers with the intake status it was asked
    for. *)
Definition demo_summary (dss_base : string) (dataset_id : Z) (bc_id : string)
    (intake_status : pyval) : M (Transaction := list (Z * pyval)) pyval :=
  mret intake_status.

(** ** Properties *)

Section MetadataCache.

Context {Transaction : Type}.
Variable remote : Remote (Transaction := Transaction).
Variable self : Self.

Lemma find_first_with_id datasets dataset_id :
  first_with_id datasets dataset_id (find (λ d, Dataset.id d =? dataset_id) datasets).
Proof.
  induction datasets as [|d ds IH]; simpl.
  - intros d' Hd'. by apply elem_of_nil in Hd'.
  - destruct (Z.eqb_spec (Dataset.id d) dataset_id) as [Heq|Hne].
    + exists [], ds. split_and!; [done | done |].
      intros d' Hd'. by apply elem_of_nil in Hd'.
    + destruct (find _ ds) as [d0|] eqn:Hfind; simpl in *.
      * destruct IH as (before & after & -> & Hid & Hbefore).
        exists (d :: before), after. split_and!; [done | done |].
        intros d' [->|Hd']%elem_of_cons; auto.
      * intros d' [->|Hd']%elem_of_cons; auto.
Qed.

(** Once the listing is memoized, a call answers from it and leaves the world
    as it is: nothing is sent. *)
Lemma do_call_memoized c datasets w :
  _all_meta w = Some datasets →
  ∃ a, do_call remote self c w = (Ok a, w) ∧ answers datasets c a.
Proof.
  intros Hmemo. destruct c as [|dataset_id].
  - exists (answer_index datasets).
    unfold do_call, index, get_all_meta, mbind, M_bind, mret, M_ret. by rewrite Hmemo.
  - exists (answer_get_meta (find (λ d, Dataset.id d =? dataset_id) datasets)).
    unfold do_call, get_meta, index, get_all_meta, mbind, M_bind, mret, M_ret.
    rewrite Hmemo. split; [done | apply find_first_with_id].
Qed.

Lemma do_calls_memoized cs datasets w :
  _all_meta w = Some datasets →
  ∃ ans, mapM (do_call remote self) cs w = (Ok ans, w) ∧ Forall2 (answers datasets) cs ans.
Proof.
  intros Hmemo. induction cs as [|c cs IH].
  - exists []. split; [done | constructor].
  - destruct (do_call_memoized c datasets w Hmemo) as (a & Ha & Hans).
    destruct IH as (ans & Hrun & Hall).
    exists (a :: ans). split; [| by constructor].
    cbn [mapM]. unfold mbind, M_bind at 1. rewrite Ha.
    unfold mbind, M_bind at 1. by rewrite Hrun.
Qed.

Lemma do_call_first c w :
  _all_meta w = None →
  ∃ a, do_call remote self c w = (Ok a, after_fetch remote self w)
    ∧ answers (users_datasets remote (length (requests w)) (_users_base self)) c a.
Proof.
  intros Hnone. destruct c as [|dataset_id].
  - eexists. unfold do_call, index, get_all_meta, mbind, M_bind, mret, M_ret.
    rewrite Hnone. by cbn.
  - eexists. unfold do_call, get_meta, index, get_all_meta, mbind, M_bind, mret, M_ret.
    rewrite Hnone. cbn. split; [reflexivity | apply find_first_with_id].
Qed.

(** C7. On an instance that has not listed the datasets yet, every sequence of
    one or more calls of [index] and [get_meta] sends exactly one request for
    the dataset listing, the first call's; every [index] returns the list that
    request answered, and every [get_meta] returns the first dataset of that
    list with the given identifier, or [None] when the list has none. *)
Theorem metadata_fetched_once c cs (w : World (Transaction := Transaction)) :
  _all_meta w = None →
  ∃ ans w',
    mapM (do_call remote self) (c :: cs) w = (Ok ans, w')
    ∧ requests w' = requests w ++ [GET_datasets (_users_base self)]
    ∧ Forall2 (answers (users_datasets remote (length (requests w)) (_users_base self)))
        (c :: cs) ans.
Proof.
  intros Hnone.
  destruct (do_call_first c w Hnone) as (a & Ha & Hans).
  destruct (do_calls_memoized cs _ (after_fetch remote self w) eq_refl) as (ans & Hrun & Hall).
  exists (a :: ans), (after_fetch remote self w). split_and!; [| done | by constructor].
  cbn [mapM]. unfold mbind, M_bind at 1. rewrite Ha.
  unfold mbind, M_bind at 1. by rewrite Hrun.
Qed.

End MetadataCache.

Section ScopeKeys.

Implicit Types (column c : gmap string pyval) (columns : list (gmap string pyval)).
Implicit Types (scope_keys : gmap Z pyval) (scope_id : Z).

Lemma _find_scope_keys_loop_resolved scope_keys c s rest :
  resolved_scope c = Some s →
  _find_scope_keys_loop scope_keys (c :: rest)
  = _find_scope_keys_loop (<[Scope.id s := key_of c (Scope.id s)]> scope_keys) rest.
Proof.
  unfold resolved_scope. intros Hs. cbn [_find_scope_keys_loop]. unfold getitem.
  destruct (c !! "scope") as [[]|]; simplify_eq. done.
Qed.

Lemma _find_scope_keys_loop_total scope_keys columns :
  Forall (λ c, is_Some (resolved_scope c)) columns →
  ∃ scope_keys', _find_scope_keys_loop scope_keys columns = Ok scope_keys'.
Proof.
  intros Hall. revert scope_keys.
  induction Hall as [|c rest [s Hs] _ IH]; intros scope_keys.
  - by exists scope_keys.
  - rewrite (_find_scope_keys_loop_resolved _ _ _ _ Hs). apply IH.
Qed.

Lemma _find_scope_keys_loop_app scope_keys columns1 columns2 :
  _find_scope_keys_loop scope_keys (columns1 ++ columns2)
  = scope_keys' ← _find_scope_keys_loop scope_keys columns1;
    _find_scope_keys_loop scope_keys' columns2.
Proof.
  revert scope_keys. induction columns1 as [|c rest IH]; intros scope_keys; [done|].
  cbn [app _find_scope_keys_loop].
  destruct (getitem c "scope") as [scope|]; [|done]. cbn.
  destruct (getattr_id scope) as [scope_id|]; [|done]. cbn. apply IH.
Qed.

(** Columns resolved to other scopes leave the entry of [scope_id] alone. *)
Lemma _find_scope_keys_loop_other scope_keys columns scope_keys' scope_id :
  _find_scope_keys_loop scope_keys columns = Ok scope_keys' →
  Forall (λ c, ¬ resolves_to c scope_id) columns →
  scope_keys' !! scope_id = scope_keys !! scope_id.
Proof.
  intros Hrun Hother. revert scope_keys Hrun.
  induction Hother as [|c rest Hc _ IH]; intros scope_keys Hrun.
  - cbn in Hrun. by simplify_eq.
  - cbn [_find_scope_keys_loop] in Hrun. unfold getitem in Hrun.
    destruct (c !! "scope") as [scope|] eqn:Hscope; [|done]. cbn in Hrun.
    destruct scope as [| | | | | | |s| |]; try done. cbn in Hrun.
    rewrite (IH _ Hrun). apply lookup_insert_ne.
    intros <-. apply Hc. exists s. unfold resolved_scope. by rewrite Hscope.
Qed.

(** The entry of a scope is the key of the last column resolved to it. *)
Lemma _find_scope_keys_last before c after s :
  Forall (λ c, is_Some (resolved_scope c)) (before ++ c :: after) →
  resolved_scope c = Some s →
  Forall (λ c', ¬ resolves_to c' (Scope.id s)) after →
  ∃ scope_keys,
    _find_scope_keys (before ++ c :: after) = Ok scope_keys
    ∧ scope_keys !! Scope.id s = Some (key_of c (Scope.id s)).
Proof.
  intros [Hbefore [_ Hafter]%Forall_cons]%Forall_app Hs Hother.
  unfold _find_scope_keys. rewrite _find_scope_keys_loop_app.
  destruct (_find_scope_keys_loop_total ∅ before Hbefore) as [m1 ->]. cbn [mbind result_bind].
  rewrite (_find_scope_keys_loop_resolved _ _ _ _ Hs).
  destruct (_find_scope_keys_loop_total (<[Scope.id s := key_of c (Scope.id s)]> m1)
              after Hafter) as [m2 Hm2].
  exists m2. split; [done|].
  rewrite (_find_scope_keys_loop_other _ _ _ _ Hm2 Hother). apply lookup_insert_eq.
Qed.

(** C6. In a column list where two columns are resolved to the same scope
    identifier, and no column after the later of the two is, the scope-key map
    is built without an error and gives that identifier the key of the later
    column, whatever key the earlier one carried. *)
Theorem later_key_wins before c1 between c2 after scope_id :
  Forall (λ c, is_Some (resolved_scope c)) (before ++ c1 :: between ++ c2 :: after) →
  resolves_to c1 scope_id →
  resolves_to c2 scope_id →
  Forall (λ c, ¬ resolves_to c scope_id) after →
  ∃ scope_keys,
    _find_scope_keys (before ++ c1 :: between ++ c2 :: after) = Ok scope_keys
    ∧ scope_keys !! scope_id = Some (key_of c2 scope_id).
Proof.
  intros Hall _ (s2 & Hs2 & <-) Hafter.
  replace (before ++ c1 :: between ++ c2 :: after)
    with ((before ++ c1 :: between) ++ c2 :: after) in * by by rewrite <- app_assoc.
  by apply _find_scope_keys_last.
Qed.

(** C9, as the code has it. A column resolved to a scope that carries no [key]
    gives that scope the name [scope_] followed by the scope's identifier in
    the scope-key map, provided no later column of the list is resolved to the
    same scope identifier. *)
Theorem default_key_unless_overwritten before c after s :
  Forall (λ c, is_Some (resolved_scope c)) (before ++ c :: after) →
  resolved_scope c = Some s →
  c !! "key" = None →
  Forall (λ c', ¬ resolves_to c' (Scope.id s)) after →
  ∃ scope_keys,
    _find_scope_keys (before ++ c :: after) = Ok scope_keys
    ∧ scope_keys !! Scope.id s = Some (PyStr ("scope_" +:+ pretty (Scope.id s))).
Proof.
  intros Hall Hs Hkey Hafter.
  destruct (_find_scope_keys_last before c after s Hall Hs Hafter) as (m & Hm & Hlookup).
  exists m. split; [done|]. rewrite Hlookup. unfold key_of. by rewrite Hkey.
Qed.

End ScopeKeys.

Section Resolution.

Implicit Types (column c : gmap string pyval) (columns : list (gmap string pyval)).

Lemma add_scope_invalid all_scopes c :
  selector_count c ≠ 1 →
  add_scope all_scopes c = Raise (ValueError
    "Not exactly one of `scope_id`, `representation` or `name_dataset` provided for column").
Proof.
  intros Hcount. unfold add_scope. fold (selector_count c).
  by rewrite bool_decide_eq_true_2.
Qed.

(** With exactly one selector the column comes back with what the lookup
    found: the branch that raises for a column without scope is never taken,
    and a lookup that finds nothing stores [None]. *)
Lemma add_scope_valid all_scopes c :
  selector_count c = 1 →
  add_scope all_scopes c = Ok (<["scope" := lookup_scope all_scopes c]> c).
Proof.
  intros Hcount. unfold add_scope. fold (selector_count c).
  rewrite bool_decide_eq_false_2 by (intros H; by apply H).
  revert Hcount. unfold selector_count, has_key, contains, lookup_scope.
  destruct (c !! "scope_id"), (c !! "representation"), (c !! "name_dataset");
    intros; try done; lia.
Qed.

Lemma mapM_add_scope_valid all_scopes columns :
  Forall (λ c, selector_count c = 1) columns →
  mapM (add_scope all_scopes) columns
  = Ok (map (λ c, <["scope" := lookup_scope all_scopes c]> c) columns).
Proof.
  induction 1 as [|c rest Hc _ IH]; [done|].
  cbn [mapM map]. rewrite (add_scope_valid _ _ Hc). cbn. by rewrite IH.
Qed.

Lemma mapM_add_scope_invalid all_scopes columns :
  Exists (λ c, selector_count c ≠ 1) columns →
  mapM (add_scope all_scopes) columns = Raise (ValueError
    "Not exactly one of `scope_id`, `representation` or `name_dataset` provided for column").
Proof.
  induction columns as [|c rest IH]; intros Hex; [by apply Exists_nil in Hex|].
  cbn [mapM]. destruct (decide (selector_count c = 1)) as [Hc|Hc].
  - rewrite (add_scope_valid _ _ Hc). cbn.
    apply Exists_cons in Hex as [Hex|Hex]; [done|]. by rewrite IH.
  - by rewrite (add_scope_invalid _ _ Hc).
Qed.

End Resolution.

Section Preparation.

Implicit Types (column c : gmap string pyval) (columns : list (gmap string pyval)).
Implicit Types (all_scopes : list Scope.t).

Lemma dict_get_insert_eq c k v : dict_get (<[k := v]> c) k = v.
Proof. unfold dict_get. by rewrite lookup_insert_eq. Qed.

Lemma dict_get_insert_ne c k k' v : k ≠ k' → dict_get (<[k := v]> c) k' = dict_get c k'.
Proof. intros Hk. unfold dict_get. by rewrite lookup_insert_ne. Qed.

Lemma lookup_scope_cases all_scopes c :
  lookup_scope all_scopes c = PyNone ∨ matches_scope all_scopes c.
Proof.
  unfold matches_scope, lookup_scope, find_by_id, find_by_repr, find_by_name_dataset,
    from_option.
  repeat case_match; cbn; eauto.
Qed.

Lemma resolved_scope_resolve all_scopes c s :
  lookup_scope all_scopes c = PyScope s → resolved_scope (resolve all_scopes c) = Some s.
Proof.
  intros Hs. unfold resolved_scope, resolve. by rewrite lookup_insert_eq, Hs.
Qed.

Lemma dict_get_resolve all_scopes c k :
  k ≠ "scope" → dict_get (resolve all_scopes c) k = dict_get c k.
Proof. intros Hk. unfold dict_get, resolve. by rewrite lookup_insert_ne. Qed.

Lemma Forall_resolved all_scopes columns :
  Forall (matches_scope all_scopes) columns →
  Forall (λ c, is_Some (resolved_scope c)) (map (resolve all_scopes) columns).
Proof.
  intros Hall. apply Forall_map. eapply Forall_impl; [exact Hall|].
  intros c [s Hs]. exists s. by apply resolved_scope_resolve.
Qed.

(** A column whose [scope] is [None] ends [_find_scope_keys] at [scope.id]. *)
Lemma _find_scope_keys_loop_unmatched scope_keys cws :
  Forall (λ c, c !! "scope" = Some PyNone ∨ is_Some (resolved_scope c)) cws →
  Exists (λ c, c !! "scope" = Some PyNone) cws →
  _find_scope_keys_loop scope_keys cws = Raise NoneType_has_no_id.
Proof.
  intros Hall. revert scope_keys.
  induction Hall as [|c rest Hc _ IH]; intros scope_keys Hex;
    [by apply Exists_nil in Hex|].
  destruct Hc as [Hnone|[s Hs]].
  - cbn [_find_scope_keys_loop]. unfold getitem. by rewrite Hnone.
  - rewrite (_find_scope_keys_loop_resolved _ _ _ _ Hs). apply IH.
    apply Exists_cons in Hex as [Hnone|]; [|done].
    unfold resolved_scope in Hs. by rewrite Hnone in Hs.
Qed.

Lemma select_scopes_resolved cws :
  Forall (λ c, is_Some (resolved_scope c)) cws →
  ∃ select_scopes,
    mapM (λ c, scope ← getitem c "scope"; getattr_id scope) cws = Ok select_scopes.
Proof.
  induction 1 as [|c rest [s Hs] _ [ids IH]]; [by exists []|].
  exists (Scope.id s :: ids). cbn [mapM]. rewrite IH. unfold resolved_scope in Hs.
  unfold getitem. destruct (c !! "scope") as [[]|]; by simplify_eq.
Qed.

(** The columns with a filter get the coroutine object as their scope
    values. *)
Lemma _add_scope_values_resolved dataset_id bc_id cws :
  Forall (λ c, is_Some (resolved_scope c)) cws →
  ∃ cwv,
    mapM (λ c, _add_scope_values dataset_id c bc_id) cws = Ok cwv
    ∧ Forall2 (λ c cv, ∃ co, cv = <["scope_values" := PyCoroutine co]> c) cws cwv.
Proof.
  induction 1 as [|c rest [s Hs] _ (cwv & IH & Hcwv)]; [exists []; by split|].
  eexists (_ :: cwv). cbn [mapM]. rewrite IH. unfold resolved_scope in Hs.
  unfold _add_scope_values, getitem. destruct (c !! "scope") as [[]|]; simplify_eq.
  cbn. split; [done|]. constructor; eauto.
Qed.

(** The first column with a filter ends [_find_scope_value_filters]: the
    coroutine object is true and has no [where_in]. *)
Lemma _find_scope_value_filters_coroutine c co rest :
  truthy (dict_get c "filter") = true →
  _find_scope_value_filters (<["scope_values" := PyCoroutine co]> c :: rest)
  = Raise coroutine_has_no_where_in.
Proof.
  intros Hfilter. unfold _find_scope_value_filters. cbn [_find_scope_value_filters_loop].
  rewrite dict_get_insert_eq, dict_get_insert_ne by done. by rewrite Hfilter.
Qed.

Lemma _find_aggregation_methods_loop_resolved all_scopes acc columns :
  Forall (matches_scope all_scopes) columns →
  ∃ aggs,
    _find_aggregation_methods_loop acc (map (resolve all_scopes) columns) = Ok (acc ++ aggs)
    ∧ Forall2 (aggregation_pair all_scopes) (filter declares_aggregate columns) aggs.
Proof.
  intros Hall. revert acc.
  induction Hall as [|c rest [s Hs] _ IH]; intros acc.
  { exists []. rewrite app_nil_r. by split. }
  cbn [map _find_aggregation_methods_loop].
  rewrite dict_get_resolve by done.
  assert (dict_get (resolve all_scopes c) "scope" = PyScope s) as ->.
  { unfold dict_get, resolve. by rewrite lookup_insert_eq, Hs. }
  destruct (decide (declares_aggregate c)) as [Hagg|Hagg].
  - rewrite filter_cons_True by done. unfold declares_aggregate in Hagg.
    rewrite Hagg. cbn.
    destruct (IH (acc ++ [PyDict [("scope_id", PyInt (Scope.id s));
                                   ("method", dict_get c "aggregate")]]))
      as (aggs & -> & Haggs).
    eexists (_ :: aggs). rewrite <- app_assoc. split; [done|].
    constructor; [|done]. by exists s.
  - rewrite filter_cons_False by done. unfold declares_aggregate in Hagg.
    apply not_true_is_false in Hagg. rewrite Hagg. cbn.
    destruct (IH acc) as (aggs & -> & Haggs). by exists aggs.
Qed.

Lemma filter_resolve all_scopes columns :
  filter (λ c, truthy (dict_get c "filter") = true) (map (resolve all_scopes) columns)
  = map (resolve all_scopes) (filter declares_filter columns).
Proof.
  induction columns as [|c rest IH]; [done|]. cbn [map].
  rewrite !filter_cons, IH. unfold declares_filter at 1.
  rewrite dict_get_resolve by done. by destruct (decide _).
Qed.

Lemma attach_date_time_malformed name v request_data :
  malformed_date_time v = true →
  attach_date_time name v request_data
  = Raise (ValueError (name +:+ " should be an instance of datetime.")).
Proof. by destruct v. Qed.

Lemma attach_date_time_Ok name v request_data request_data' :
  attach_date_time name v request_data = Ok request_data' →
  malformed_date_time v = false
  ∧ ∀ k, k ≠ name → request_data' !! k = request_data !! k.
Proof.
  intros Hrun. split.
  - destruct (malformed_date_time v) eqn:Hbad; [|done].
    by rewrite attach_date_time_malformed in Hrun.
  - intros k Hk. unfold attach_date_time in Hrun.
    destruct v; cbn in Hrun; simplify_eq; by rewrite ?lookup_insert_ne.
Qed.

Lemma attach_date_time_wellformed name v request_data :
  malformed_date_time v = false →
  ∃ request_data', attach_date_time name v request_data = Ok request_data'.
Proof. destruct v; try done; intros _; by eexists. Qed.

Lemma attach_unless_None_lookup name v request_data k :
  k ≠ name → attach_unless_None name v request_data !! k = request_data !! k.
Proof. intros Hk. unfold attach_unless_None. destruct v; by rewrite ?lookup_insert_ne. Qed.

Lemma attach_unless_empty_lookup name l request_data k :
  k ≠ name → attach_unless_empty name l request_data !! k = request_data !! k.
Proof. intros Hk. unfold attach_unless_empty. destruct l; by rewrite ?lookup_insert_ne. Qed.

Lemma request_data_of_aggregation_methods dis aggregate ss intake ftids filters aggs :
  request_data_of dis aggregate ss intake ftids filters aggs !! "aggregation_methods"
  = if aggs is [] then None else Some (PyList aggs).
Proof.
  unfold request_data_of. destruct aggs as [|a aggs].
  - cbn [attach_unless_empty]. rewrite attach_unless_empty_lookup by done.
    by rewrite !attach_unless_None_lookup by done.
  - cbn [attach_unless_empty]. by rewrite lookup_insert_eq.
Qed.

Lemma request_data_of_filter_scope_values dis aggregate ss intake ftids filters aggs :
  request_data_of dis aggregate ss intake ftids filters aggs !! "filter_scope_values"
  = if filters is [] then None else Some (PyList filters).
Proof.
  unfold request_data_of. rewrite attach_unless_empty_lookup by done.
  destruct filters as [|f filters].
  - cbn [attach_unless_empty]. by rewrite !attach_unless_None_lookup by done.
  - cbn [attach_unless_empty]. by rewrite lookup_insert_eq.
Qed.

Section Prepare.

Variables (dis : pyval) (all_scopes : list Scope.t) (dataset_id : Z) (aggregate : pyval).
Variables (columns : list (gmap string pyval)) (start_date_time end_date_time : pyval).
Variables (bc_id : string) (intake_status filter_transaction_ids : pyval).

Let prepared :=
  prepare_request dis all_scopes dataset_id aggregate columns start_date_time
    end_date_time bc_id intake_status filter_transaction_ids.

Lemma prepare_request_invalid :
  Exists (λ c, selector_count c ≠ 1) columns →
  prepared = Raise (ValueError
    "Not exactly one of `scope_id`, `representation` or `name_dataset` provided for column").
Proof.
  intros Hex. unfold prepared, prepare_request. by rewrite mapM_add_scope_invalid.
Qed.

Lemma prepare_request_unmatched :
  Forall (λ c, selector_count c = 1) columns →
  Exists (λ c, lookup_scope all_scopes c = PyNone) columns →
  prepared = Raise NoneType_has_no_id.
Proof.
  intros Hvalid Hex. unfold prepared, prepare_request.
  rewrite mapM_add_scope_valid by done. cbn [mbind result_bind].
  fold (resolve all_scopes). unfold _find_scope_keys.
  rewrite _find_scope_keys_loop_unmatched; [done| |].
  - apply Forall_map, Forall_forall. intros c _.
    destruct (lookup_scope_cases all_scopes c) as [Hnone|[s Hs]].
    + left. unfold resolve. by rewrite lookup_insert_eq, Hnone.
    + right. exists s. by apply resolved_scope_resolve.
  - apply Exists_exists in Hex as (c & Hc & Hnone). apply Exists_exists.
    exists (resolve all_scopes c). split; [by apply list_elem_of_fmap_2|].
    unfold resolve. by rewrite lookup_insert_eq, Hnone.
Qed.

Lemma prepare_request_filter :
  Forall (λ c, selector_count c = 1) columns →
  Forall (matches_scope all_scopes) columns →
  Exists declares_filter columns →
  prepared = Raise coroutine_has_no_where_in.
Proof.
  intros Hvalid Hmatch Hex. unfold prepared, prepare_request.
  rewrite mapM_add_scope_valid by done. cbn [mbind result_bind].
  fold (resolve all_scopes).
  pose proof (Forall_resolved _ _ Hmatch) as Hres.
  destruct (_find_scope_keys_loop_total ∅ _ Hres) as [sk Hsk].
  unfold _find_scope_keys at 1. rewrite Hsk. cbn [mbind result_bind].
  destruct (select_scopes_resolved _ Hres) as [ss ->]. cbn [mbind result_bind].
  rewrite filter_resolve.
  destruct (_add_scope_values_resolved dataset_id bc_id
              (map (resolve all_scopes) (filter declares_filter columns)))
    as (cwv & -> & Hcwv).
  { apply Forall_resolved, Forall_forall. intros c [_ Hc]%list_elem_of_filter.
    by eapply Forall_forall in Hmatch. }
  cbn [mbind result_bind].
  apply Exists_exists in Hex as (c & Hc & Hfilter).
  assert (c ∈ filter declares_filter columns) as Hin by by apply list_elem_of_filter.
  destruct (filter declares_filter columns) as [|c0 rest] eqn:Hfiltered;
    [by apply elem_of_nil in Hin|].
  assert (declares_filter c0) as Hc0.
  { eapply (list_elem_of_filter declares_filter). rewrite Hfiltered. by left. }
  cbn [map] in Hcwv. inversion Hcwv as [|? cv ? cwv' [co ->] _]; subst.
  rewrite _find_scope_value_filters_coroutine; [done|].
  by rewrite dict_get_resolve.
Qed.

(** Without a filter the preparation comes down to the time boundaries. *)
Lemma prepare_request_no_filter :
  Forall (λ c, selector_count c = 1) columns →
  Forall (matches_scope all_scopes) columns →
  Forall (λ c, ¬ declares_filter c) columns →
  ∃ scope_keys select_scopes aggs,
    _find_scope_keys (map (resolve all_scopes) columns) = Ok scope_keys
    ∧ Forall2 (aggregation_pair all_scopes) (filter declares_aggregate columns) aggs
    ∧ prepared
      = (request_data ←
           attach_date_time "start_date_time" start_date_time
             (request_data_of dis aggregate select_scopes intake_status
                filter_transaction_ids [] aggs);
         request_data ← attach_date_time "end_date_time" end_date_time request_data;
         Ok (scope_keys, request_data)).
Proof.
  intros Hvalid Hmatch Hnofilter. unfold prepared, prepare_request.
  rewrite mapM_add_scope_valid by done. cbn [mbind result_bind].
  fold (resolve all_scopes).
  pose proof (Forall_resolved _ _ Hmatch) as Hres.
  destruct (_find_scope_keys_loop_total ∅ _ Hres) as [sk Hsk].
  unfold _find_scope_keys at 1 2. rewrite Hsk. cbn [mbind result_bind].
  destruct (select_scopes_resolved _ Hres) as [ss ->]. cbn [mbind result_bind].
  rewrite filter_resolve.
  assert (filter declares_filter columns = []) as ->.
  { clear -Hnofilter. induction Hnofilter as [|c rest Hc _ IH]; [done|].
    by rewrite filter_cons_False. }
  cbn [map mapM mret result_ret mbind result_bind _find_scope_value_filters
         _find_scope_value_filters_loop].
  destruct (_find_aggregation_methods_loop_resolved all_scopes [] columns Hmatch)
    as (aggs & Haggs & Hpairs).
  unfold _find_aggregation_methods. rewrite Haggs. cbn [app mbind result_bind].
  by exists sk, ss, aggs.
Qed.

Lemma prepare_request_Ok scope_keys request_data :
  prepared = Ok (scope_keys, request_data) →
  Forall (λ c, selector_count c = 1) columns
  ∧ Forall (matches_scope all_scopes) columns
  ∧ Forall (λ c, ¬ declares_filter c) columns.
Proof.
  intros Hrun.
  assert (Forall (λ c, selector_count c = 1) columns) as Hvalid.
  { apply Forall_forall. intros c Hc.
    destruct (decide (selector_count c = 1)) as [|Hne]; [done|].
    rewrite prepare_request_invalid in Hrun; [done|]. apply Exists_exists. eauto. }
  assert (Forall (matches_scope all_scopes) columns) as Hmatch.
  { apply Forall_forall. intros c Hc.
    destruct (lookup_scope_cases all_scopes c) as [Hnone|]; [|done].
    rewrite prepare_request_unmatched in Hrun; [done..|]. apply Exists_exists. eauto. }
  split_and!; [done..|].
  apply Forall_forall. intros c Hc Hfilter.
  rewrite prepare_request_filter in Hrun; [done..|]. apply Exists_exists. eauto.
Qed.

End Prepare.

End Preparation.

Section Pipeline.

Context {Transaction : Type}.
Variable to_dict : Transaction → gmap Z pyval → Row.
Variable remote : Remote (Transaction := Transaction).
Variable self : Self.
Implicit Types (w : World (Transaction := Transaction)).
Implicit Types (column c : gmap string pyval) (columns : list (gmap string pyval)).

Lemma lift_bind {A B} (r : result A) (k : A → M B) w :
  (x ← lift r; k x) w
  = match r with Ok a => k a w | Raise e => (Raise e, w) end.
Proof. by destruct r. Qed.

Lemma index_run w :
  index remote self w = (Ok (listed remote self w).1, (listed remote self w).2).
Proof.
  unfold index, listed, get_all_meta, mbind, M_bind, mret, M_ret.
  by destruct (_all_meta w).
Qed.

Lemma listed_push_cell v w :
  listed remote self (push_cell v w)
  = ((listed remote self w).1, push_cell v (listed remote self w).2).
Proof. unfold listed. cbn. by destruct (_all_meta w). Qed.

Lemma listed_idem w : listed remote self (listed remote self w).2 = listed remote self w.
Proof. unfold listed. by destruct (_all_meta w) eqn:Hmemo; cbn; [rewrite Hmemo|]. Qed.

Lemma _get_dss_base_run dataset_id w :
  _get_dss_base remote self dataset_id w
  = (dss_base_in self (listed remote self w).1 dataset_id,
     if _dss_base self is Some _ then w else (listed remote self w).2).
Proof.
  unfold _get_dss_base, dss_base_in. destruct (_dss_base self) as [base|]; [done|].
  unfold get_meta, mbind, M_bind. rewrite index_run. cbn.
  by destruct (find _ _).
Qed.

(** The lookup of the base address does not look at the locals of the calls,
    and gives the same answer again, without sending anything, when it is
    repeated. *)
Lemma _get_dss_base_push_cell dataset_id v w r w0 :
  _get_dss_base remote self dataset_id w = (r, w0) →
  _get_dss_base remote self dataset_id (push_cell v w) = (r, push_cell v w0).
Proof.
  rewrite !_get_dss_base_run, listed_push_cell. cbn. intros [= <- <-].
  by destruct (_dss_base self).
Qed.

Lemma _get_dss_base_idem dataset_id w r w0 :
  _get_dss_base remote self dataset_id w = (r, w0) →
  _get_dss_base remote self dataset_id w0 = (r, w0).
Proof.
  rewrite !_get_dss_base_run. intros [= <- <-].
  destruct (_dss_base self); [done|]. by rewrite listed_idem.
Qed.

(** It leaves the locals, the tasks and the callback alone, and sends at most
    the request for the dataset listing. *)
Lemma _get_dss_base_world dataset_id w r w0 :
  _get_dss_base remote self dataset_id w = (r, w0) →
  cells w0 = cells w ∧ tasks w0 = tasks w ∧ page_cb_calls w0 = page_cb_calls w
  ∧ (requests w0 = requests w
     ∨ requests w0 = requests w ++ [GET_datasets (_users_base self)]).
Proof.
  rewrite _get_dss_base_run. intros [= <- <-].
  destruct (_dss_base self); [auto|]. unfold listed.
  destruct (_all_meta w); cbn; auto.
Qed.

Lemma prefix_run {A} (k : nat → string → list (gmap string pyval) → M A)
    dataset_id columns bc_id v w b w0 :
  _get_dss_base remote self dataset_id w = (Ok b, w0) →
  (frame ← new_cell v;
   dss_base ← _get_dss_base remote self dataset_id;
   columns_with_scopes ← _add_scopes remote self dataset_id columns bc_id;
   k frame dss_base columns_with_scopes) w
  = (columns_with_scopes ←
       lift (mapM (add_scope (dss_scopes remote (length (requests w0)) b dataset_id bc_id))
               columns);
     k (length (cells w)) b columns_with_scopes)
      (sent (GET_scopes b dataset_id bc_id) (push_cell v w0)).
Proof.
  intros Hrun.
  pose proof (_get_dss_base_push_cell _ v _ _ _ Hrun) as Hframe.
  pose proof (_get_dss_base_idem _ _ _ _ Hframe) as Hidem.
  unfold mbind at 1, M_bind at 1. cbn [new_cell]. fold (push_cell v w).
  unfold mbind at 1, M_bind at 1. rewrite Hframe.
  unfold mbind at 1, M_bind at 1. unfold _add_scopes, get_scopes.
  unfold mbind at 1, M_bind at 1. unfold mbind at 1, M_bind at 1.
  rewrite Hidem.
  unfold DatasetsEndpoint_scopes_index, mbind at 1, M_bind at 1. cbn [send mret M_ret].
  done.
Qed.


(** The nested function, called: it finds the nested function in the local
    [page_cb] and schedules it on the assembled page, unless the assembly
    raises. *)
Lemma call_nested frame scope_keys scope_keys' page nr last w :
  cells w !! frame = Some (Some (nested_page_cb frame scope_keys')) →
  call to_dict (nested_page_cb frame scope_keys) page nr last w
  = match _transactions_to_df to_dict page scope_keys with
    | Ok df =>
        (Ok (),
         set_tasks
           (tasks w ++ [{| callee := nested_page_cb frame scope_keys';
                           arg_page := Frame df; arg_page_nr := nr;
                           arg_last_page := last |}]) w)
    | Raise e => (Raise e, w)
    end.
Proof.
  intros Hcell. cbn [call]. unfold nested_page_cb_body, mbind, M_bind, load_cell.
  rewrite Hcell. cbn. by destruct (_transactions_to_df _ _ _).
Qed.

(** The pages of a query, handed to the nested function one by one: a task
    for each. *)
Lemma notify_pages_run frame scope_keys page_cb pages w :
  page_cb = Some (nested_page_cb frame scope_keys) →
  cells w !! frame = Some (Some (nested_page_cb frame scope_keys)) →
  mapM (λ p, match page_cb with
             | Some f => call to_dict f (Records (page_records p)) (page_nr p) (last_page p)
             | None => mret ()
             end) pages w
  = (Ok (map (λ _, ()) pages),
     set_tasks (tasks w ++ map (page_task to_dict frame scope_keys) pages) w).
Proof.
  intros ->. revert w. induction pages as [|p pages IH]; intros w Hcell.
  - cbn. rewrite app_nil_r. by destruct w.
  - cbn [mapM map]. unfold mbind at 1, M_bind at 1.
    rewrite (call_nested _ _ scope_keys) by done. cbn [_transactions_to_df].
    fold (page_task to_dict frame scope_keys p).
    unfold mbind at 1, M_bind at 1. rewrite IH by done. cbn.
    unfold set_tasks. cbn. by rewrite <- app_assoc.
Qed.

(** Lines 231-248: the transactions are fetched and assembled. *)
Lemma fetch_run frame scope_keys dss_base dataset_id bc_id request_data w :
  (frame < length (cells w))%nat →
  (_ ← store_cell frame (Some (nested_page_cb frame scope_keys));
   page_cb ← load_cell frame;
   transactions ←
     DatasetsEndpoint_transactions_index to_dict remote dss_base dataset_id bc_id
       request_data page_cb;
   lift (_transactions_to_df to_dict (Records transactions) scope_keys)) w
  = let pages := dss_transactions remote (length (requests w)) dss_base dataset_id bc_id
                   request_data in
    (match dss_transactions_failure remote (length (requests w)) dss_base dataset_id
             bc_id request_data with
     | Some e => Raise e
     | None =>
         Ok (from_records
               (map (λ t, to_dict t scope_keys) (concat (page_records <$> pages))))
     end,
     fetched to_dict frame scope_keys
       (POST_transactions dss_base dataset_id bc_id request_data) pages w).
Proof.
  intros Hframe.
  unfold mbind at 1, M_bind at 1. cbn [store_cell].
  unfold mbind at 1, M_bind at 1. cbn [load_cell cells].
  rewrite list_lookup_insert_eq by done. cbn [default].
  unfold DatasetsEndpoint_transactions_index.
  unfold mbind at 1, M_bind at 1. unfold mbind at 1, M_bind at 1. cbn [send].
  unfold mbind at 1, M_bind at 1.
  erewrite notify_pages_run; [| reflexivity | cbn; by rewrite list_lookup_insert_eq].
  cbn [requests]. by destruct (dss_transactions_failure _ _ _ _ _ _).
Qed.


(** [get_transactions], run: the base address is looked up, the scopes are
    fetched, the request is prepared, and the transactions are fetched; a
    pagination that fails ends the call with its exception. *)
Lemma get_transactions_run dataset_id aggregate columns start_date_time end_date_time
    bc_id intake_status filter_transaction_ids page_cb w :
  get_transactions to_dict remote self dataset_id aggregate columns start_date_time
    end_date_time bc_id intake_status filter_transaction_ids page_cb w
  = match _get_dss_base remote self dataset_id w with
    | (Raise e, w0) => (Raise e, push_cell page_cb w0)
    | (Ok dss_base, w0) =>
        let all_scopes :=
          dss_scopes remote (length (requests w0)) dss_base dataset_id bc_id in
        let w1 := sent (GET_scopes dss_base dataset_id bc_id) (push_cell page_cb w0) in
        match prepare_request (default_dss_intake_status self) all_scopes dataset_id
                aggregate columns start_date_time end_date_time bc_id intake_status
                filter_transaction_ids with
        | Raise e => (Raise e, w1)
        | Ok (scope_keys, request_data) =>
            let pages :=
              dss_transactions remote (length (requests w1)) dss_base dataset_id bc_id
                request_data in
            (match dss_transactions_failure remote (length (requests w1)) dss_base
                     dataset_id bc_id request_data with
             | Some e => Raise e
             | None =>
                 Ok (from_records
                       (map (λ t, to_dict t scope_keys)
                          (concat (page_records <$> pages))))
             end,
             fetched to_dict (length (cells w)) scope_keys
               (POST_transactions dss_base dataset_id bc_id request_data) pages w1)
        end
    end.
Proof.
  destruct (_get_dss_base remote self dataset_id w) as [[dss_base|e] w0] eqn:Hrun.
  - unfold get_transactions. erewrite prefix_run by exact Hrun.
    destruct (_get_dss_base_world _ _ _ _ Hrun) as (Hcells & _).
    unfold prepare_request.
    rewrite lift_bind. destruct (mapM (add_scope _) columns) as [cws|]; [|done].
    cbn [mbind result_bind].
    rewrite lift_bind. destruct (_find_scope_keys cws) as [scope_keys|]; [|done].
    cbn [mbind result_bind].
    rewrite lift_bind. destruct (mapM _ cws) as [select_scopes|]; [|done].
    cbn [mbind result_bind].
    rewrite lift_bind. destruct (mapM _ (filter _ cws)) as [cwv|]; [|done].
    cbn [mbind result_bind].
    rewrite lift_bind. destruct (_find_scope_value_filters cwv) as [filters|]; [|done].
    cbn [mbind result_bind].
    rewrite lift_bind. destruct (_find_aggregation_methods cws) as [aggs|]; [|done].
    cbn [mbind result_bind]. cbv zeta.
    rewrite lift_bind.
    change (attach_date_time "start_date_time" start_date_time _)
      with (attach_date_time "start_date_time" start_date_time
              (request_data_of (default_dss_intake_status self) aggregate select_scopes
                 intake_status filter_transaction_ids filters aggs)).
    destruct (attach_date_time "start_date_time" _ _) as [rd1|]; [|done].
    cbn [mbind result_bind].
    rewrite lift_bind. destruct (attach_date_time "end_date_time" _ _) as [rd2|]; [|done].
    cbn [mbind result_bind].
    rewrite fetch_run; [done|]. cbn. rewrite length_app, Hcells. cbn. lia.
  - unfold get_transactions. unfold mbind at 1, M_bind at 1. cbn [new_cell].
    fold (push_cell page_cb w). unfold mbind at 1, M_bind at 1.
    by rewrite (_get_dss_base_push_cell _ _ _ _ _ Hrun).
Qed.

End Pipeline.

Section Payload.

Variables (dis : pyval) (all_scopes : list Scope.t) (dataset_id : Z) (aggregate : pyval).
Variables (columns : list (gmap string pyval)) (start_date_time end_date_time : pyval).
Variables (bc_id : string) (intake_status filter_transaction_ids : pyval).

(** What a prepared payload holds under [filter_scope_values] and under
    [aggregation_methods]. *)
Lemma prepare_request_payload scope_keys request_data :
  prepare_request dis all_scopes dataset_id aggregate columns start_date_time
    end_date_time bc_id intake_status filter_transaction_ids
  = Ok (scope_keys, request_data) →
  request_data !! "filter_scope_values" = None
  ∧ ∃ aggs,
      Forall2 (aggregation_pair all_scopes) (filter declares_aggregate columns) aggs
      ∧ request_data !! "aggregation_methods"
        = if aggs is [] then None else Some (PyList aggs).
Proof.
  intros Hrun.
  destruct (prepare_request_Ok _ _ _ _ _ _ _ _ _ _ _ _ Hrun)
    as (Hvalid & Hmatch & Hnofilter).
  destruct (prepare_request_no_filter dis all_scopes dataset_id aggregate columns
              start_date_time end_date_time bc_id intake_status filter_transaction_ids
              Hvalid Hmatch Hnofilter) as (sk & ss & aggs & _ & Hpairs & Heq).
  rewrite Heq in Hrun. clear Heq.
  destruct (attach_date_time "start_date_time" _ _) as [rd1|] eqn:Hstart; [|done].
  cbn [mbind result_bind] in Hrun.
  destruct (attach_date_time "end_date_time" _ _) as [rd2|] eqn:Hend; [|done].
  cbn [mbind result_bind] in Hrun. simplify_eq.
  apply attach_date_time_Ok in Hstart as [_ Hstart].
  apply attach_date_time_Ok in Hend as [_ Hend].
  split.
  - rewrite Hend, Hstart by done. by rewrite request_data_of_filter_scope_values.
  - exists aggs. split; [done|].
    rewrite Hend, Hstart by done. apply request_data_of_aggregation_methods.
Qed.

End Payload.

Section GetTransactions.

Context {Transaction : Type}.
Variable to_dict : Transaction → gmap Z pyval → Row.
Variable remote : Remote (Transaction := Transaction).
Variable self : Self.
Implicit Types (w : World (Transaction := Transaction)).
Implicit Types (column c : gmap string pyval) (columns : list (gmap string pyval)).

Lemma _add_scopes_run dataset_id columns bc_id w dss_base w0 :
  _get_dss_base remote self dataset_id w = (Ok dss_base, w0) →
  _add_scopes remote self dataset_id columns bc_id w
  = (mapM (add_scope (dss_scopes remote (length (requests w0)) dss_base dataset_id bc_id))
       columns,
     sent (GET_scopes dss_base dataset_id bc_id) w0).
Proof.
  intros Hrun. unfold _add_scopes, get_scopes.
  unfold mbind at 1, M_bind at 1. unfold mbind at 1, M_bind at 1. rewrite Hrun.
  unfold DatasetsEndpoint_scopes_index, mbind at 1, M_bind at 1. by cbn.
Qed.

(** *** The caller's page callback *)

Lemma only_nested_tasks_extend w w' :
  only_nested_tasks w →
  (∀ frame f, cells w !! frame = Some f → cells w' !! frame = Some f) →
  (∀ t, t ∈ tasks w' →
     t ∈ tasks w
     ∨ ∃ frame scope_keys scope_keys',
         callee t = nested_page_cb frame scope_keys
         ∧ cells w' !! frame = Some (Some (nested_page_cb frame scope_keys'))) →
  only_nested_tasks w'.
Proof.
  intros Hinv Hcells Htasks t Ht.
  destruct (Htasks t Ht) as [Hold|Hnew]; [|done].
  destruct (Hinv t Hold) as (frame & sk & sk' & Hcallee & Hcell).
  exists frame, sk, sk'. split; [done|]. by apply Hcells.
Qed.

(** A call of [get_transactions] leaves the caller's callback uncalled, and
    queues tasks for the nested function only. *)
Lemma get_transactions_quiet dataset_id aggregate columns start_date_time end_date_time
    bc_id intake_status filter_transaction_ids page_cb w :
  only_nested_tasks w →
  let w' := (get_transactions to_dict remote self dataset_id aggregate columns
               start_date_time end_date_time bc_id intake_status filter_transaction_ids
               page_cb w).2 in
  only_nested_tasks w' ∧ page_cb_calls w' = page_cb_calls w.
Proof.
  intros Hinv. rewrite get_transactions_run.
  destruct (_get_dss_base remote self dataset_id w) as [[dss_base|e] w0] eqn:Hrun;
    destruct (_get_dss_base_world _ _ _ _ _ _ Hrun) as (Hcells & Htasks & Hcalls & _).
  - cbv zeta.
    destruct (prepare_request _ _ _ _ _ _ _ _ _ _) as [[scope_keys request_data]|e].
    + cbn [snd fetched page_cb_calls sent push_cell]. split; [|done].
      apply (only_nested_tasks_extend w); [done| |].
      * intros frame f Hf. cbn [cells fetched sent push_cell]. rewrite Hcells.
        rewrite list_lookup_insert_ne
          by (apply lookup_lt_Some in Hf; lia).
        by apply lookup_app_l_Some.
      * intros t. cbn [tasks cells fetched sent push_cell]. rewrite Htasks, Hcells.
        intros [Hold|Hnew]%elem_of_app; [by left|right].
        apply list_elem_of_fmap in Hnew as (p & -> & _).
        exists (length (cells w)), scope_keys, scope_keys. split; [done|].
        apply list_lookup_insert_eq. rewrite length_app. cbn. lia.
    + cbn [snd page_cb_calls sent push_cell]. split; [|done].
      apply (only_nested_tasks_extend w); [done| |].
      * intros frame f Hf. cbn [cells sent push_cell]. rewrite Hcells.
        by apply lookup_app_l_Some.
      * intros t. cbn [tasks sent push_cell]. rewrite Htasks. by left.
  - cbn [snd page_cb_calls push_cell]. split; [|done].
    apply (only_nested_tasks_extend w); [done| |].
    + intros frame f Hf. cbn [cells push_cell]. rewrite Hcells.
      by apply lookup_app_l_Some.
    + intros t. cbn [tasks push_cell]. rewrite Htasks. by left.
Qed.

(** A task of the nested function schedules the nested function again, or
    ends with an exception; the caller's callback is not reached. *)
Lemma run_task_quiet t rest w :
  only_nested_tasks w →
  tasks w = t :: rest →
  let w' := (call to_dict (callee t) (arg_page t) (arg_page_nr t) (arg_last_page t)
               (set_tasks rest w)).2 in
  only_nested_tasks w' ∧ page_cb_calls w' = page_cb_calls w.
Proof.
  intros Hinv Htasks.
  destruct (Hinv t) as (frame & sk & sk' & Hcallee & Hcell);
    [rewrite Htasks; by left|].
  assert (only_nested_tasks (set_tasks rest w)) as Hrest.
  { apply (only_nested_tasks_extend w); [done..|].
    intros t' Ht'. left. rewrite Htasks. by right. }
  rewrite Hcallee, (call_nested to_dict _ _ sk') by done.
  destruct (_transactions_to_df to_dict (arg_page t) sk) as [df|e]; [|by split].
  cbv zeta. cbn [snd]. split; [|done].
  apply (only_nested_tasks_extend (set_tasks rest w)); [done..|].
  intros t'. cbn [tasks set_tasks]. intros [Hold|Hnew]%elem_of_app; [by left|right].
  apply list_elem_of_singleton in Hnew as ->. by exists frame, sk', sk'.
Qed.

Lemma run_tasks_quiet fuel w :
  only_nested_tasks w →
  page_cb_calls (run_tasks to_dict fuel w) = page_cb_calls w.
Proof.
  revert w. induction fuel as [|fuel IH]; intros w Hinv; [done|].
  cbn [run_tasks]. destruct (tasks w) as [|t rest] eqn:Htasks; [done|].
  destruct (run_task_quiet t rest w Hinv Htasks) as [Hinv' Hcalls].
  by rewrite IH.
Qed.

(** C1, what the code does. Line 231 rebinds the name [page_cb] to the nested
    function, which then schedules itself: whatever the columns, the pages the
    remote source delivers and the callback the caller passed, that callback
    is not invoked by the call, nor by any of the tasks the call created,
    however long the event loop runs them. *)
Theorem page_cb_never_invoked dataset_id aggregate columns start_date_time end_date_time
    bc_id intake_status filter_transaction_ids page_cb w fuel :
  only_nested_tasks w →
  page_cb_calls
    (run_tasks to_dict fuel
       (get_transactions to_dict remote self dataset_id aggregate columns
          start_date_time end_date_time bc_id intake_status filter_transaction_ids
          page_cb w).2)
  = page_cb_calls w.
Proof.
  intros Hinv.
  destruct (get_transactions_quiet dataset_id aggregate columns start_date_time
              end_date_time bc_id intake_status filter_transaction_ids page_cb w Hinv)
    as [Hinv' Hcalls].
  by rewrite run_tasks_quiet.
Qed.

(** *** Failures before the query *)

(** C3, as the code has it. When some column has none or more than one of
    [scope_id], [representation] and [name_dataset], and the base address of
    the dataset service is found, [get_transactions] raises the [ValueError] of
    [add_scope]; by then the scope listing has been requested, and nothing is
    requested after it: no scope values, no transactions. *)
Theorem invalid_selector_raises dataset_id aggregate columns start_date_time
    end_date_time bc_id intake_status filter_transaction_ids page_cb w dss_base w0 :
  _get_dss_base remote self dataset_id w = (Ok dss_base, w0) →
  Exists (λ c, selector_count c ≠ 1) columns →
  get_transactions to_dict remote self dataset_id aggregate columns start_date_time
    end_date_time bc_id intake_status filter_transaction_ids page_cb w
  = (Raise (ValueError
       "Not exactly one of `scope_id`, `representation` or `name_dataset` provided for column"),
     sent (GET_scopes dss_base dataset_id bc_id) (push_cell page_cb w0)).
Proof.
  intros Hrun Hex. rewrite get_transactions_run, Hrun. cbv zeta.
  by rewrite prepare_request_invalid.
Qed.

(** C4, what the code does. A column list in which every column has exactly
    one selector and some column matches no scope makes [_add_scopes] return
    normally, with [None] as the scope of that column; the branch of
    [add_scope] that raises for a column without scope is not reached.
    [get_transactions] then ends with the [AttributeError] of reading [id] on
    [None]. *)
Theorem unmatched_selector_not_reported dataset_id aggregate columns start_date_time
    end_date_time bc_id intake_status filter_transaction_ids page_cb w dss_base w0 :
  _get_dss_base remote self dataset_id w = (Ok dss_base, w0) →
  Forall (λ c, selector_count c = 1) columns →
  Exists (λ c, lookup_scope
                 (dss_scopes remote (length (requests w0)) dss_base dataset_id bc_id) c
               = PyNone) columns →
  let all_scopes := dss_scopes remote (length (requests w0)) dss_base dataset_id bc_id in
  _add_scopes remote self dataset_id columns bc_id w
  = (Ok (map (resolve all_scopes) columns), sent (GET_scopes dss_base dataset_id bc_id) w0)
  ∧ Exists (λ c, c !! "scope" = Some PyNone) (map (resolve all_scopes) columns)
  ∧ get_transactions to_dict remote self dataset_id aggregate columns start_date_time
      end_date_time bc_id intake_status filter_transaction_ids page_cb w
    = (Raise NoneType_has_no_id,
       sent (GET_scopes dss_base dataset_id bc_id) (push_cell page_cb w0)).
Proof.
  intros Hrun Hvalid Hex all_scopes. split_and!.
  - rewrite (_add_scopes_run _ _ _ _ _ _ Hrun). fold all_scopes.
    by rewrite mapM_add_scope_valid.
  - apply Exists_exists in Hex as (c & Hc & Hnone). apply Exists_exists.
    exists (resolve all_scopes c). split; [by apply list_elem_of_fmap_2|].
    unfold resolve. fold all_scopes in Hnone. by rewrite lookup_insert_eq, Hnone.
  - rewrite get_transactions_run, Hrun. cbv zeta.
    by rewrite prepare_request_unmatched.
Qed.

(** C2, what the code does. When every column resolves to a scope and some
    column declares a filter, [get_transactions] ends with an
    [AttributeError]: the scope values of the column are the coroutine object
    of a call that was not awaited. No scope value is requested and no payload
    is sent. *)
Theorem filter_ends_in_AttributeError dataset_id aggregate columns start_date_time
    end_date_time bc_id intake_status filter_transaction_ids page_cb w dss_base w0 :
  _get_dss_base remote self dataset_id w = (Ok dss_base, w0) →
  Forall (λ c, selector_count c = 1) columns →
  Forall (matches_scope
            (dss_scopes remote (length (requests w0)) dss_base dataset_id bc_id)) columns →
  Exists declares_filter columns →
  get_transactions to_dict remote self dataset_id aggregate columns start_date_time
    end_date_time bc_id intake_status filter_transaction_ids page_cb w
  = (Raise coroutine_has_no_where_in,
     sent (GET_scopes dss_base dataset_id bc_id) (push_cell page_cb w0)).
Proof.
  intros Hrun Hvalid Hmatch Hex. rewrite get_transactions_run, Hrun. cbv zeta.
  by rewrite prepare_request_filter.
Qed.

(** C5, as the code has it. When the base address is found, no column with
    exactly one selector misses its scope and no column declares a filter, a
    [start_date_time] or [end_date_time] that was supplied and is not a
    [datetime] makes [get_transactions] raise a [ValueError]: the one that
    names the boundary or, when a column has not exactly one selector, the one
    of [add_scope]. By then the scope listing has been requested; the
    transactions are not. *)
Theorem malformed_date_time_raises dataset_id aggregate columns start_date_time
    end_date_time bc_id intake_status filter_transaction_ids page_cb w dss_base w0 :
  _get_dss_base remote self dataset_id w = (Ok dss_base, w0) →
  Forall (λ c, selector_count c = 1 →
               matches_scope
                 (dss_scopes remote (length (requests w0)) dss_base dataset_id bc_id) c)
    columns →
  Forall (λ c, ¬ declares_filter c) columns →
  malformed_date_time start_date_time || malformed_date_time end_date_time = true →
  ∃ msg,
    get_transactions to_dict remote self dataset_id aggregate columns start_date_time
      end_date_time bc_id intake_status filter_transaction_ids page_cb w
    = (Raise (ValueError msg),
       sent (GET_scopes dss_base dataset_id bc_id) (push_cell page_cb w0))
    ∧ (Forall (λ c, selector_count c = 1) columns →
       msg = (if malformed_date_time start_date_time then "start_date_time"
              else "end_date_time") +:+ " should be an instance of datetime.").
Proof.
  intros Hrun Hmatch' Hnofilter Hbad. rewrite get_transactions_run, Hrun. cbv zeta.
  destruct (decide (Forall (λ c, selector_count c = 1) columns)) as [Hvalid|Hinvalid].
  - assert (Forall (matches_scope
                      (dss_scopes remote (length (requests w0)) dss_base dataset_id bc_id))
              columns) as Hmatch.
    { rewrite Forall_forall in Hmatch', Hvalid. apply Forall_forall. auto. }
    destruct (prepare_request_no_filter (default_dss_intake_status self) _ dataset_id
                aggregate columns start_date_time end_date_time bc_id intake_status
                filter_transaction_ids Hvalid Hmatch Hnofilter)
      as (sk & ss & aggs & _ & _ & ->).
    eexists. split; [|intros _; reflexivity].
    destruct (malformed_date_time start_date_time) eqn:Hstart.
    + by rewrite attach_date_time_malformed.
    + destruct (attach_date_time_wellformed "start_date_time" start_date_time
                  (request_data_of (default_dss_intake_status self) aggregate ss
                     intake_status filter_transaction_ids [] aggs) Hstart) as [rd ->].
      cbn [mbind result_bind]. by rewrite attach_date_time_malformed.
  - apply not_Forall_Exists in Hinvalid; [|apply _].
    eexists. split; [by rewrite prepare_request_invalid|]. intros Hvalid.
    apply Exists_exists in Hinvalid as (c & Hc & Hne). cbn in Hne.
    rewrite Forall_forall in Hvalid. by destruct Hne; apply Hvalid.
Qed.

(** *** The query *)

(** When the base address is found, every column resolves to a scope, none
    declares a filter and the time boundaries are absent or [datetime]s, the
    call sends one query after the scope listing and leaves a task for every
    page that arrives; it returns the table of all the records, unless the
    pagination fails. *)
Lemma get_transactions_sends dataset_id aggregate columns start_date_time end_date_time
    bc_id intake_status filter_transaction_ids page_cb w dss_base w0 :
  _get_dss_base remote self dataset_id w = (Ok dss_base, w0) →
  Forall (λ c, selector_count c = 1) columns →
  Forall (matches_scope
            (dss_scopes remote (length (requests w0)) dss_base dataset_id bc_id)) columns →
  Forall (λ c, ¬ declares_filter c) columns →
  malformed_date_time start_date_time = false →
  malformed_date_time end_date_time = false →
  ∃ scope_keys request_data,
    let w1 := sent (GET_scopes dss_base dataset_id bc_id) (push_cell page_cb w0) in
    let pages :=
      dss_transactions remote (length (requests w1)) dss_base dataset_id bc_id
        request_data in
    get_transactions to_dict remote self dataset_id aggregate columns start_date_time
      end_date_time bc_id intake_status filter_transaction_ids page_cb w
    = (match dss_transactions_failure remote (length (requests w1)) dss_base dataset_id
               bc_id request_data with
       | Some e => Raise e
       | None =>
           Ok (from_records
                 (map (λ t, to_dict t scope_keys) (concat (page_records <$> pages))))
       end,
       fetched to_dict (length (cells w)) scope_keys
         (POST_transactions dss_base dataset_id bc_id request_data) pages w1).
Proof.
  intros Hrun Hvalid Hmatch Hnofilter Hstart Hend.
  rewrite get_transactions_run, Hrun. cbv zeta.
  destruct (prepare_request_no_filter (default_dss_intake_status self) _ dataset_id
              aggregate columns start_date_time end_date_time bc_id intake_status
              filter_transaction_ids Hvalid Hmatch Hnofilter)
    as (sk & ss & aggs & _ & _ & ->).
  destruct (attach_date_time_wellformed "start_date_time" start_date_time
              (request_data_of (default_dss_intake_status self) aggregate ss
                 intake_status filter_transaction_ids [] aggs) Hstart) as [rd1 ->].
  cbn [mbind result_bind].
  destruct (attach_date_time_wellformed "end_date_time" end_date_time rd1 Hend)
    as [rd2 ->].
  cbn [mbind result_bind]. by exists sk, rd2.
Qed.

(** *** The payload that is sent *)

(** A payload the call sends is one the preparation produced. *)
Lemma payload_sent dataset_id aggregate columns start_date_time end_date_time bc_id
    intake_status filter_transaction_ids page_cb w evs dss_base' dataset_id' bc_id'
    request_data :
  requests (get_transactions to_dict remote self dataset_id aggregate columns
              start_date_time end_date_time bc_id intake_status filter_transaction_ids
              page_cb w).2
  = requests w ++ evs →
  POST_transactions dss_base' dataset_id' bc_id' request_data ∈ evs →
  ∃ dss_base w0 scope_keys,
    _get_dss_base remote self dataset_id w = (Ok dss_base, w0)
    ∧ prepare_request (default_dss_intake_status self)
        (dss_scopes remote (length (requests w0)) dss_base dataset_id bc_id)
        dataset_id aggregate columns start_date_time end_date_time bc_id intake_status
        filter_transaction_ids
      = Ok (scope_keys, request_data).
Proof.
  rewrite get_transactions_run.
  destruct (_get_dss_base remote self dataset_id w) as [[dss_base|e] w0] eqn:Hrun;
    destruct (_get_dss_base_world _ _ _ _ _ _ Hrun) as (_ & _ & _ & Hreqs).
  - cbv zeta.
    destruct (prepare_request _ _ _ _ _ _ _ _ _ _) as [[scope_keys rd]|e] eqn:Hprep.
    + cbn [snd requests fetched sent push_cell]. intros Hevs Hin.
      exists dss_base, w0, scope_keys. split; [done|].
      destruct Hreqs as [Hreqs|Hreqs]; rewrite Hreqs, <- ?app_assoc in Hevs;
        apply app_inv_head in Hevs as <-; cbn in Hin;
        repeat (apply elem_of_cons in Hin as [Hin|Hin]; [by simplify_eq|]);
        by apply elem_of_nil in Hin.
    + cbn [snd requests sent push_cell]. intros Hevs Hin.
      destruct Hreqs as [Hreqs|Hreqs]; rewrite Hreqs, <- ?app_assoc in Hevs;
        apply app_inv_head in Hevs as <-; cbn in Hin;
        repeat (apply elem_of_cons in Hin as [Hin|Hin]; [by simplify_eq|]);
        by apply elem_of_nil in Hin.
  - cbn [snd requests push_cell]. intros Hevs Hin.
    destruct Hreqs as [Hreqs|Hreqs]; rewrite Hreqs in Hevs.
    + rewrite <- (app_nil_r (requests w)) in Hevs at 1.
      apply app_inv_head in Hevs as <-. by apply elem_of_nil in Hin.
    + apply app_inv_head in Hevs as <-.
      apply list_elem_of_singleton in Hin. done.
Qed.

(** C8. Whenever a call of [get_transactions] sends a payload, the payload
    has the key [aggregation_methods] if and only if some column declares an
    aggregation method; its value then lists, in the order of the columns, one
    pair for every column that declares an aggregation method: the identifier
    of the scope the column resolves to, and the method the column declares. *)
Theorem aggregation_methods_in_payload dataset_id aggregate columns start_date_time
    end_date_time bc_id intake_status filter_transaction_ids page_cb w evs dss_base'
    dataset_id' bc_id' request_data :
  requests (get_transactions to_dict remote self dataset_id aggregate columns
              start_date_time end_date_time bc_id intake_status filter_transaction_ids
              page_cb w).2
  = requests w ++ evs →
  POST_transactions dss_base' dataset_id' bc_id' request_data ∈ evs →
  (is_Some (request_data !! "aggregation_methods") ↔ Exists declares_aggregate columns)
  ∧ ∃ dss_base w0,
      _get_dss_base remote self dataset_id w = (Ok dss_base, w0)
      ∧ ∀ v, request_data !! "aggregation_methods" = Some v →
          ∃ aggs,
            v = PyList aggs
            ∧ Forall2
                (aggregation_pair
                   (dss_scopes remote (length (requests w0)) dss_base dataset_id bc_id))
                (filter declares_aggregate columns) aggs.
Proof.
  intros Hevs Hin.
  destruct (payload_sent _ _ _ _ _ _ _ _ _ _ _ _ _ _ _ Hevs Hin)
    as (dss_base & w0 & scope_keys & Hrun & Hprep).
  apply prepare_request_payload in Hprep as (_ & aggs & Hpairs & Hlookup).
  split.
  - rewrite Hlookup. split.
    + intros Hsome. destruct aggs as [|a aggs]; [by destruct Hsome|].
      inversion Hpairs as [|c ? rest ? _ _ Hfiltered]; subst.
      apply Exists_exists. exists c.
      assert (c ∈ filter declares_aggregate columns) as Hc
        by (rewrite <- Hfiltered; by left).
      apply list_elem_of_filter in Hc as [? ?]. done.
    + intros (c & Hc & Hagg)%Exists_exists.
      assert (c ∈ filter declares_aggregate columns) as Hin'
        by by apply list_elem_of_filter.
      destruct aggs as [|a aggs]; [|done].
      inversion Hpairs as [Hnil|]. rewrite <- Hnil in Hin'. by apply elem_of_nil in Hin'.
  - exists dss_base, w0. split; [done|]. intros v Hv. rewrite Hlookup in Hv.
    destruct aggs as [|a aggs]; [done|]. simplify_eq. by eexists.
Qed.

(** No payload the call sends has the key [filter_scope_values]. *)
Lemma filter_scope_values_never_sent dataset_id aggregate columns start_date_time
    end_date_time bc_id intake_status filter_transaction_ids page_cb w evs dss_base'
    dataset_id' bc_id' request_data :
  requests (get_transactions to_dict remote self dataset_id aggregate columns
              start_date_time end_date_time bc_id intake_status filter_transaction_ids
              page_cb w).2
  = requests w ++ evs →
  POST_transactions dss_base' dataset_id' bc_id' request_data ∈ evs →
  request_data !! "filter_scope_values" = None.
Proof.
  intros Hevs Hin.
  destruct (payload_sent _ _ _ _ _ _ _ _ _ _ _ _ _ _ _ Hevs Hin)
    as (dss_base & w0 & scope_keys & Hrun & Hprep).
  by apply prepare_request_payload in Hprep as [? _].
Qed.

End GetTransactions.

Section ScopeScriptContract.

Context {R : Type}.
Variable execute_scope_script : option Z → string → pyval → result R.

(** C10, as the code has it. When the key [transaction_ids] is absent from
    [user_input], [execute] raises the exception that names the key, whatever
    [execute_scope_script] does; when the key is present, [execute] is exactly
    [execute_scope_script] applied to the business cell, the bearer token and
    [user_input['transaction_ids']]: it returns what that returns, and raises
    what that raises. So [execute] raises if and only if the key is absent or
    [execute_scope_script] raises on the transaction identifiers. *)
Theorem execute_contract business_cell_id bearer_token (user_input : gmap string pyval) :
  (user_input !! "transaction_ids" = None →
   execute execute_scope_script business_cell_id bearer_token user_input
   = Raise (Exception "Expected input key 'transaction_ids' not present."))
  ∧ (∀ transaction_ids,
       user_input !! "transaction_ids" = Some transaction_ids →
       execute execute_scope_script business_cell_id bearer_token user_input
       = execute_scope_script business_cell_id bearer_token transaction_ids)
  ∧ (is_raise (execute execute_scope_script business_cell_id bearer_token user_input)
     ↔ user_input !! "transaction_ids" = None
       ∨ ∃ transaction_ids,
           user_input !! "transaction_ids" = Some transaction_ids
           ∧ is_raise (execute_scope_script business_cell_id bearer_token
                         transaction_ids)).
Proof.
  unfold execute, contains, getitem.
  destruct (user_input !! "transaction_ids") as [transaction_ids|]; cbn.
  - split_and!; [done | by intros ? [= <-] |]. split.
    + intros Hraise. right. by exists transaction_ids.
    + by intros [|(? & [= <-] & Hraise)].
  - split_and!; [done..|]. split; [by left | done].
Qed.

End ScopeScriptContract.

(** ** More properties: the base address and the listings *)

Section BaseAddress.

Context {Transaction : Type}.
Variable to_dict : Transaction → gmap Z pyval → Row.
Variable remote : Remote (Transaction := Transaction).
Variable self : Self.
Implicit Types (w : World (Transaction := Transaction)).
Implicit Types (column c : gmap string pyval) (columns : list (gmap string pyval)).

Lemma listed_memo w :
  _all_meta (listed remote self w).2 = Some (listed remote self w).1.
Proof. unfold listed. by destruct (_all_meta w) eqn:Hmemo. Qed.

(** Once the base address was looked up, the lookup gives the same answer in
    every later world of the instance, and leaves that world as it is. *)
Lemma _get_dss_base_stable dataset_id w r w0 w0' :
  _get_dss_base remote self dataset_id w = (r, w0) →
  _all_meta w0' = _all_meta w0 →
  _get_dss_base remote self dataset_id w0' = (r, w0').
Proof.
  rewrite !_get_dss_base_run. intros [= <- <-] Hmeta.
  unfold dss_base_in. destruct (_dss_base self) as [base|]; [done|].
  rewrite listed_memo in Hmeta.
  assert (listed remote self w0' = ((listed remote self w).1, w0')) as ->; [|done].
  unfold listed at 1. by rewrite Hmeta.
Qed.

Lemma find_id_None (datasets : list Dataset.t) dataset_id :
  Forall (λ d, Dataset.id d ≠ dataset_id) datasets →
  find (λ d, Dataset.id d =? dataset_id) datasets = None.
Proof.
  induction 1 as [|d ds Hd _ IH]; [done|]. cbn.
  by destruct (Z.eqb_spec (Dataset.id d) dataset_id).
Qed.

(** X1. The lookup of the base address of the dataset service settles with
    the first call: repeated on the world the first call left, it gives the
    same answer (the same address, or the same exception) and changes nothing,
    and a lookup for any other dataset sends nothing either. *)
Theorem _get_dss_base_settles dataset_id dataset_id' w :
  let first := _get_dss_base remote self dataset_id w in
  _get_dss_base remote self dataset_id first.2 = first
  ∧ (_get_dss_base remote self dataset_id' first.2).2 = first.2.
Proof.
  cbv zeta.
  destruct (_get_dss_base remote self dataset_id w) as [r w0] eqn:Hrun. cbn [snd].
  split; [by eapply _get_dss_base_idem|].
  rewrite _get_dss_base_run in Hrun. injection Hrun as _ <-.
  rewrite _get_dss_base_run. cbn [snd].
  destruct (_dss_base self); [done|]. by rewrite listed_idem.
Qed.

(** X2. Without a configured base address, a dataset that is not in the
    dataset listing ends [get_scopes], [get_scope_values],
    [get_transaction_summary] and [get_transactions] alike with the
    [AttributeError] of reading [dss_url] on [None]; the world is the one the
    listing left: nothing is asked of the dataset service. *)
Theorem unknown_dataset_raises {Summary : Type}
    (summary : string → Z → string → pyval → M (Transaction := Transaction) Summary)
    dataset_id scope_id aggregate columns start_date_time end_date_time bc_id
    intake_status filter_transaction_ids page_cb w datasets w0 :
  _dss_base self = None →
  index remote self w = (Ok datasets, w0) →
  Forall (λ d, Dataset.id d ≠ dataset_id) datasets →
  let err := AttributeError "'NoneType' object has no attribute 'dss_url'" in
  get_scopes remote self dataset_id bc_id w = (Raise err, w0)
  ∧ get_scope_values remote self dataset_id scope_id bc_id w = (Raise err, w0)
  ∧ get_transaction_summary remote self summary dataset_id bc_id intake_status w
    = (Raise err, w0)
  ∧ get_transactions to_dict remote self dataset_id aggregate columns start_date_time
      end_date_time bc_id intake_status filter_transaction_ids page_cb w
    = (Raise err, push_cell page_cb w0).
Proof.
  intros Hnone Hindex Hall err.
  assert (_get_dss_base remote self dataset_id w = (Raise err, w0)) as Hrun.
  { unfold _get_dss_base. rewrite Hnone. unfold get_meta, mbind, M_bind.
    rewrite Hindex. cbn. by rewrite find_id_None. }
  split_and!.
  - unfold get_scopes, mbind, M_bind. by rewrite Hrun.
  - unfold get_scope_values, mbind, M_bind. by rewrite Hrun.
  - unfold get_transaction_summary, mbind, M_bind. by rewrite Hrun.
  - by rewrite get_transactions_run, Hrun.
Qed.

(** X3. Unlike the dataset listing, the scope listing is not kept: after a
    call of [get_scopes] that returned, the next call sends the same request
    again and returns what the dataset service answers then. *)
Theorem get_scopes_not_memoized dataset_id bc_id w scopes w1 :
  get_scopes remote self dataset_id bc_id w = (Ok scopes, w1) →
  ∃ dss_base,
    last (requests w1) = Some (GET_scopes dss_base dataset_id bc_id)
    ∧ get_scopes remote self dataset_id bc_id w1
      = (Ok (dss_scopes remote (length (requests w1)) dss_base dataset_id bc_id),
         sent (GET_scopes dss_base dataset_id bc_id) w1).
Proof.
  unfold get_scopes at 1. unfold mbind at 1, M_bind at 1.
  destruct (_get_dss_base remote self dataset_id w) as [[dss_base|e] w0] eqn:Hrun; [|done].
  unfold DatasetsEndpoint_scopes_index, mbind, M_bind. cbn [send mret M_ret].
  intros [= <- <-]. exists dss_base. split; [apply last_snoc|].
  unfold get_scopes, mbind at 1, M_bind at 1.
  erewrite _get_dss_base_stable; [|exact Hrun|done].
  unfold DatasetsEndpoint_scopes_index, mbind, M_bind. by cbn.
Qed.

(** X4. [_add_scopes] sends the request for the scope listing whatever the
    columns are; it raises, and then the [ValueError] on the selectors, exactly
    when some column has not exactly one of the keys [scope_id],
    [representation] and [name_dataset] (a key counts even when its value is
    [None]); otherwise it returns the columns in their order, each with the
    entry [scope] set to what its selector found, be it [None]. *)
Theorem _add_scopes_raises_iff dataset_id columns bc_id w dss_base w0 :
  _get_dss_base remote self dataset_id w = (Ok dss_base, w0) →
  let all_scopes := dss_scopes remote (length (requests w0)) dss_base dataset_id bc_id in
  let r := _add_scopes remote self dataset_id columns bc_id w in
  r.2 = sent (GET_scopes dss_base dataset_id bc_id) w0
  ∧ (r.1 = Raise (ValueError
       "Not exactly one of `scope_id`, `representation` or `name_dataset` provided for column")
     ↔ Exists (λ c, selector_count c ≠ 1) columns)
  ∧ (r.1 = Ok (map (resolve all_scopes) columns)
     ↔ Forall (λ c, selector_count c = 1) columns).
Proof.
  intros Hrun all_scopes r. unfold r.
  rewrite (_add_scopes_run _ _ _ _ _ _ _ _ Hrun). fold all_scopes. cbn [fst snd].
  split; [done|].
  destruct (decide (Forall (λ c, selector_count c = 1) columns)) as [Hvalid|Hinvalid].
  - rewrite mapM_add_scope_valid by done. split; split; try done.
    intros Hex. apply Exists_exists in Hex as (c & Hc & Hne).
    rewrite Forall_forall in Hvalid. by destruct Hne; apply Hvalid.
  - pose proof Hinvalid as Hex. apply not_Forall_Exists in Hex; [|apply _].
    rewrite mapM_add_scope_invalid by done. split; split; done.
Qed.

(** X5. Leaving the intake status out is the same as passing the default of
    the instance, for the transactions and for their summary. *)
Theorem intake_status_None_is_default {Summary : Type}
    (summary : string → Z → string → pyval → M (Transaction := Transaction) Summary)
    dataset_id aggregate columns start_date_time end_date_time bc_id
    filter_transaction_ids page_cb w :
  get_transactions to_dict remote self dataset_id aggregate columns start_date_time
    end_date_time bc_id PyNone filter_transaction_ids page_cb w
  = get_transactions to_dict remote self dataset_id aggregate columns start_date_time
      end_date_time bc_id (default_dss_intake_status self) filter_transaction_ids page_cb w
  ∧ get_transaction_summary remote self summary dataset_id bc_id PyNone w
    = get_transaction_summary remote self summary dataset_id bc_id
        (default_dss_intake_status self) w.
Proof.
  split.
  - rewrite !get_transactions_run.
    destruct (_get_dss_base remote self dataset_id w) as [[dss_base|e] w0]; [|done].
    cbv zeta.
    assert (∀ scopes,
              prepare_request (default_dss_intake_status self) scopes dataset_id aggregate
                columns start_date_time end_date_time bc_id PyNone filter_transaction_ids
              = prepare_request (default_dss_intake_status self) scopes dataset_id
                  aggregate columns start_date_time end_date_time bc_id
                  (default_dss_intake_status self) filter_transaction_ids) as ->; [|done].
    intros scopes. unfold prepare_request, request_data_of.
    by destruct (default_dss_intake_status self).
  - unfold get_transaction_summary. by destruct (default_dss_intake_status self).
Qed.

End BaseAddress.

(** ** More properties: the loops over the columns *)

Section Loops.

Implicit Types (column c : gmap string pyval) (columns : list (gmap string pyval)).
Implicit Types (scope_keys : gmap Z pyval) (scope_id : Z).

Lemma _find_scope_keys_loop_Ok scope_keys columns scope_keys' :
  _find_scope_keys_loop scope_keys columns = Ok scope_keys' →
  Forall (λ c, is_Some (resolved_scope c)) columns.
Proof.
  revert scope_keys. induction columns as [|c rest IH]; intros scope_keys Hrun; [done|].
  cbn [_find_scope_keys_loop] in Hrun. unfold getitem, resolved_scope in *.
  destruct (c !! "scope") as [scope|] eqn:Hscope; [|done]. cbn in Hrun.
  destruct scope as [| | | | | | |s| |]; try done. cbn in Hrun.
  constructor; [|by eapply IH]. rewrite Hscope. by exists s.
Qed.

Lemma resolves_to_dec c scope_id : resolves_to c scope_id ∨ ¬ resolves_to c scope_id.
Proof.
  unfold resolves_to. destruct (resolved_scope c) as [s|]; [|right; by intros (? & ? & _)].
  destruct (decide (Scope.id s = scope_id)) as [Hid|Hne]; [left; eauto|].
  right. intros (s' & [= <-] & Hid). done.
Qed.

Lemma Exists_resolves_to_dec columns scope_id :
  Exists (λ c, resolves_to c scope_id) columns
  ∨ Forall (λ c, ¬ resolves_to c scope_id) columns.
Proof.
  induction columns as [|c rest [IH|IH]]; [by right | left; by right |].
  destruct (resolves_to_dec c scope_id); [left; by left | right; by constructor].
Qed.

(** The last column resolved to a scope, when there is one. *)
Lemma last_resolved columns scope_id :
  Exists (λ c, resolves_to c scope_id) columns →
  ∃ before c after,
    columns = before ++ c :: after ∧ resolves_to c scope_id
    ∧ Forall (λ c', ¬ resolves_to c' scope_id) after.
Proof.
  induction columns as [|c0 rest IH]; intros Hex; [by apply Exists_nil in Hex|].
  destruct (Exists_resolves_to_dec rest scope_id) as [Hrest|Hrest].
  - destruct (IH Hrest) as (before & c & after & -> & Hc & Hafter).
    by exists (c0 :: before), c, after.
  - apply Exists_cons in Hex as [Hc0|Hex].
    + by exists [], c0, rest.
    + apply Exists_exists in Hex as (c & Hc & Hres).
      rewrite Forall_forall in Hrest. by destruct (Hrest c Hc).
Qed.

(** X6. [_find_scope_keys] returns a map exactly when every column carries a
    scope under [scope]: a column without the entry, or with [None] or
    anything else under it, makes it raise. *)
Theorem _find_scope_keys_Ok_iff columns :
  (∃ scope_keys, _find_scope_keys columns = Ok scope_keys)
  ↔ Forall (λ c, is_Some (resolved_scope c)) columns.
Proof.
  split.
  - intros [scope_keys Hrun]. by eapply _find_scope_keys_loop_Ok.
  - apply _find_scope_keys_loop_total.
Qed.

(** X7. The entries of the scope-key map: a scope identifier has an entry
    exactly when some column is resolved to it, and the entry is the key of the
    last such column, its [key] entry or the default name. *)
Theorem _find_scope_keys_entries columns scope_keys scope_id key :
  _find_scope_keys columns = Ok scope_keys →
  scope_keys !! scope_id = Some key
  ↔ ∃ before c after,
      columns = before ++ c :: after
      ∧ resolves_to c scope_id
      ∧ Forall (λ c', ¬ resolves_to c' scope_id) after
      ∧ key = key_of c scope_id.
Proof.
  intros Hrun. pose proof (_find_scope_keys_loop_Ok _ _ _ Hrun) as Hall.
  assert (∀ before c after,
            columns = before ++ c :: after → resolves_to c scope_id →
            Forall (λ c', ¬ resolves_to c' scope_id) after →
            scope_keys !! scope_id = Some (key_of c scope_id)) as Hlast.
  { intros before c after -> (s & Hs & <-) Hafter.
    destruct (_find_scope_keys_last before c after s Hall Hs Hafter) as (m & Hm & Hlookup).
    rewrite Hrun in Hm. by simplify_eq. }
  split.
  - intros Hkey.
    destruct (Exists_resolves_to_dec columns scope_id) as [Hex|Hnone].
    + destruct (last_resolved _ _ Hex) as (before & c & after & Hsplit & Hc & Hafter).
      exists before, c, after. split_and!; [done..|].
      rewrite (Hlast _ _ _ Hsplit Hc Hafter) in Hkey. by simplify_eq.
    + rewrite (_find_scope_keys_loop_other ∅ columns scope_keys scope_id Hrun) in Hkey.
      * by rewrite lookup_empty in Hkey.
      * done.
  - intros (before & c & after & Hsplit & Hc & Hafter & ->). by eapply Hlast.
Qed.

Lemma _find_aggregation_methods_loop_acc acc columns :
  _find_aggregation_methods_loop acc columns
  = aggregation_methods ← _find_aggregation_methods_loop [] columns;
    Ok (acc ++ aggregation_methods).
Proof.
  revert acc. induction columns as [|c rest IH]; intros acc.
  - cbn. by rewrite app_nil_r.
  - cbn [_find_aggregation_methods_loop].
    destruct (negb (truthy (dict_get c "aggregate")) || negb (truthy (dict_get c "scope")));
      [apply IH|].
    destruct (getattr_id (dict_get c "scope")) as [id|e]; [|done]. cbn [mbind result_bind].
    rewrite IH. rewrite (IH ([] ++ _)).
    destruct (_find_aggregation_methods_loop [] rest) as [aggs|]; [|done].
    cbn. by rewrite <- app_assoc.
Qed.

Lemma _find_scope_value_filters_loop_acc acc columns :
  _find_scope_value_filters_loop acc columns
  = filters ← _find_scope_value_filters_loop [] columns; Ok (acc ++ filters).
Proof.
  revert acc. induction columns as [|c rest IH]; intros acc.
  - cbn. by rewrite app_nil_r.
  - cbn [_find_scope_value_filters_loop].
    destruct (negb (truthy (dict_get c "filter"))
              || negb (truthy (dict_get c "scope_values"))); [apply IH|].
    destruct (where_in_pluck_id _ _) as [ids|e]; [|done]. cbn [mbind result_bind].
    rewrite IH. rewrite (IH ([] ++ _)).
    destruct (_find_scope_value_filters_loop [] rest) as [filters|]; [|done].
    cbn. by rewrite <- app_assoc.
Qed.

(** X8. The aggregation methods of a column list are those of its parts, one
    after the other; an exception in the first part ends the whole, and one in
    the second part does when the first part has none. *)
Theorem _find_aggregation_methods_app columns1 columns2 :
  _find_aggregation_methods (columns1 ++ columns2)
  = aggregation_methods1 ← _find_aggregation_methods columns1;
    aggregation_methods2 ← _find_aggregation_methods columns2;
    Ok (aggregation_methods1 ++ aggregation_methods2).
Proof.
  unfold _find_aggregation_methods. generalize (@nil pyval) at 1 3 as acc.
  induction columns1 as [|c rest IH]; intros acc.
  - cbn [app _find_aggregation_methods_loop mbind result_bind].
    apply _find_aggregation_methods_loop_acc.
  - cbn [app _find_aggregation_methods_loop].
    destruct (negb (truthy (dict_get c "aggregate")) || negb (truthy (dict_get c "scope")));
      [apply IH|].
    destruct (getattr_id (dict_get c "scope")) as [id|e]; [|done]. cbn [mbind result_bind].
    apply IH.
Qed.

(** X9. The same for the scope value filters: the identifiers found for a
    column list are those of its parts, one after the other. *)
Theorem _find_scope_value_filters_app columns1 columns2 :
  _find_scope_value_filters (columns1 ++ columns2)
  = filters1 ← _find_scope_value_filters columns1;
    filters2 ← _find_scope_value_filters columns2;
    Ok (filters1 ++ filters2).
Proof.
  unfold _find_scope_value_filters. generalize (@nil pyval) at 1 3 as acc.
  induction columns1 as [|c rest IH]; intros acc.
  - cbn [app _find_scope_value_filters_loop mbind result_bind].
    apply _find_scope_value_filters_loop_acc.
  - cbn [app _find_scope_value_filters_loop].
    destruct (negb (truthy (dict_get c "filter"))
              || negb (truthy (dict_get c "scope_values"))); [apply IH|].
    destruct (where_in_pluck_id _ _) as [ids|e]; [|done]. cbn [mbind result_bind].
    apply IH.
Qed.

End Loops.

(** ** More properties: the payload *)

Section PayloadEntries.

Implicit Types (column c : gmap string pyval) (columns : list (gmap string pyval)).
Implicit Types (request_data : gmap string pyval).

Lemma select_scopes_ids all_scopes columns ids :
  mapM (λ c, scope ← getitem c "scope"; getattr_id scope) (map (resolve all_scopes) columns)
  = Ok ids →
  Forall2 (resolves_id all_scopes) columns ids.
Proof.
  revert ids. induction columns as [|c rest IH]; intros ids Hrun.
  - injection Hrun as <-. constructor.
  - cbn [map mapM] in Hrun.
    assert (getitem (resolve all_scopes c) "scope" = Ok (lookup_scope all_scopes c))
      as Hget by (unfold getitem, resolve; by rewrite lookup_insert_eq).
    rewrite Hget in Hrun. cbn [mbind result_bind] in Hrun.
    destruct (lookup_scope all_scopes c) as [| | | | | | |s| |] eqn:Hs; try done.
    cbn [getattr_id mbind result_bind] in Hrun.
    destruct (mapM _ (map (resolve all_scopes) rest)) as [ids'|] eqn:Hrest; [|done].
    injection Hrun as <-. constructor; [by exists s | by apply IH].
Qed.

Lemma attach_unless_None_lookup_eq name v request_data :
  attach_unless_None name v request_data !! name
  = if v is PyNone then request_data !! name else Some v.
Proof. unfold attach_unless_None. destruct v; by rewrite ?lookup_insert_eq. Qed.

Lemma attach_date_time_lookup name v request_data request_data' :
  attach_date_time name v request_data = Ok request_data' →
  request_data' !! name = (if v is PyNone then request_data !! name else Some v).
Proof.
  unfold attach_date_time. destruct v; cbn; intros; simplify_eq;
    by rewrite ?lookup_insert_eq.
Qed.

Lemma request_data_of_aggregate dis aggregate ids intake ftids filters aggs :
  request_data_of dis aggregate ids intake ftids filters aggs !! "aggregate"
  = Some aggregate.
Proof.
  unfold request_data_of.
  rewrite !attach_unless_empty_lookup, !attach_unless_None_lookup by done.
  by rewrite lookup_insert_ne, lookup_singleton_eq.
Qed.

Lemma request_data_of_select_scopes dis aggregate ids intake ftids filters aggs :
  request_data_of dis aggregate ids intake ftids filters aggs !! "select_scopes"
  = Some (PyList (PyInt <$> ids)).
Proof.
  unfold request_data_of.
  rewrite !attach_unless_empty_lookup, !attach_unless_None_lookup by done.
  by rewrite lookup_insert_eq.
Qed.

Lemma request_data_of_intake_status dis aggregate ids intake ftids filters aggs :
  request_data_of dis aggregate ids intake ftids filters aggs !! "intake_status"
  = unless_None (if intake is PyNone then dis else intake).
Proof.
  unfold request_data_of.
  rewrite !attach_unless_empty_lookup, attach_unless_None_lookup by done.
  rewrite attach_unless_None_lookup_eq, lookup_insert_ne by done.
  rewrite lookup_singleton_ne by done. unfold unless_None. by destruct intake, dis.
Qed.

Lemma request_data_of_filter_transaction_ids dis aggregate ids intake ftids filters aggs :
  request_data_of dis aggregate ids intake ftids filters aggs !! "filter_transaction_ids"
  = unless_None ftids.
Proof.
  unfold request_data_of.
  rewrite !attach_unless_empty_lookup by done.
  rewrite attach_unless_None_lookup_eq, attach_unless_None_lookup by done.
  rewrite lookup_insert_ne, lookup_singleton_ne by done. by destruct ftids.
Qed.

Lemma request_data_of_other dis aggregate ids intake ftids aggs k :
  k ∉ payload_keys →
  request_data_of dis aggregate ids intake ftids [] aggs !! k = None.
Proof.
  unfold payload_keys. intros Hk. repeat apply not_elem_of_cons in Hk as [? Hk].
  unfold request_data_of. cbn [attach_unless_empty].
  rewrite attach_unless_empty_lookup, !attach_unless_None_lookup by done.
  by rewrite lookup_insert_ne, lookup_singleton_ne.
Qed.

(** What a prepared payload is made of. *)
Lemma prepare_request_Ok_payload dis all_scopes dataset_id aggregate columns
    start_date_time end_date_time bc_id intake_status filter_transaction_ids
    scope_keys request_data :
  prepare_request dis all_scopes dataset_id aggregate columns start_date_time
    end_date_time bc_id intake_status filter_transaction_ids
  = Ok (scope_keys, request_data) →
  ∃ ids aggs,
    _find_scope_keys (map (resolve all_scopes) columns) = Ok scope_keys
    ∧ Forall2 (resolves_id all_scopes) columns ids
    ∧ (∀ k, k ≠ "start_date_time" → k ≠ "end_date_time" →
         request_data !! k
         = request_data_of dis aggregate ids intake_status filter_transaction_ids [] aggs
             !! k)
    ∧ request_data !! "start_date_time" = unless_None start_date_time
    ∧ request_data !! "end_date_time" = unless_None end_date_time.
Proof.
  intros Hrun.
  destruct (prepare_request_Ok _ _ _ _ _ _ _ _ _ _ _ _ Hrun)
    as (Hvalid & Hmatch & Hnofilter).
  unfold prepare_request in Hrun. rewrite mapM_add_scope_valid in Hrun by done.
  cbn [mbind result_bind] in Hrun. fold (resolve all_scopes) in Hrun.
  destruct (_find_scope_keys _) as [sk|] eqn:Hsk; [|done].
  cbn [mbind result_bind] in Hrun.
  destruct (mapM _ (map (resolve all_scopes) columns)) as [ids|] eqn:Hids; [|done].
  cbn [mbind result_bind] in Hrun.
  rewrite filter_resolve in Hrun.
  assert (filter declares_filter columns = []) as Hnone.
  { clear -Hnofilter. induction Hnofilter as [|c rest Hc _ IH]; [done|].
    by rewrite filter_cons_False. }
  rewrite Hnone in Hrun.
  cbn [map mapM mret result_ret mbind result_bind _find_scope_value_filters
         _find_scope_value_filters_loop] in Hrun.
  destruct (_find_aggregation_methods _) as [aggs|] eqn:Haggs; [|done].
  cbn [mbind result_bind] in Hrun.
  destruct (attach_date_time "start_date_time" _ _) as [rd1|] eqn:Hstart; [|done].
  cbn [mbind result_bind] in Hrun.
  destruct (attach_date_time "end_date_time" _ _) as [rd2|] eqn:Hend; [|done].
  cbn [mbind result_bind] in Hrun. simplify_eq.
  exists ids, aggs.
  pose proof (attach_date_time_lookup _ _ _ _ Hstart) as Hs.
  pose proof (attach_date_time_lookup _ _ _ _ Hend) as He.
  apply attach_date_time_Ok in Hstart as [_ Hstart'].
  apply attach_date_time_Ok in Hend as [_ Hend'].
  split_and!.
  - done.
  - by apply select_scopes_ids.
  - intros k Hk1 Hk2. by rewrite Hend', Hstart'.
  - rewrite Hend', Hs by done. unfold unless_None.
    destruct start_date_time; try done.
    unfold request_data_of. cbn [attach_unless_empty].
    rewrite attach_unless_empty_lookup, !attach_unless_None_lookup by done.
    by rewrite lookup_insert_ne, lookup_singleton_ne.
  - rewrite He. unfold unless_None. destruct end_date_time; try done.
    rewrite Hstart' by done.
    unfold request_data_of. cbn [attach_unless_empty].
    rewrite attach_unless_empty_lookup, !attach_unless_None_lookup by done.
    by rewrite lookup_insert_ne, lookup_singleton_ne.
Qed.

End PayloadEntries.

(** ** More properties: [get_transactions] as a whole *)

Section Calls.

Context {Transaction : Type}.
Variable to_dict : Transaction → gmap Z pyval → Row.
Variable remote : Remote (Transaction := Transaction).
Variable self : Self.
Implicit Types (w : World (Transaction := Transaction)).
Implicit Types (column c : gmap string pyval) (columns : list (gmap string pyval)).

(** The request is prepared exactly from columns and time boundaries that are
    [queryable]. *)
Lemma prepare_request_Ok_iff dis all_scopes dataset_id aggregate columns start_date_time
    end_date_time bc_id intake_status filter_transaction_ids :
  (∃ scope_keys request_data,
     prepare_request dis all_scopes dataset_id aggregate columns start_date_time
       end_date_time bc_id intake_status filter_transaction_ids
     = Ok (scope_keys, request_data))
  ↔ queryable all_scopes columns start_date_time end_date_time.
Proof.
  split.
  - intros (sk & rd & Hprep).
    destruct (prepare_request_Ok _ _ _ _ _ _ _ _ _ _ _ _ Hprep)
      as (Hvalid & Hmatch & Hnofilter).
    destruct (prepare_request_no_filter dis all_scopes dataset_id aggregate columns
                start_date_time end_date_time bc_id intake_status filter_transaction_ids
                Hvalid Hmatch Hnofilter) as (sk' & ss & aggs & _ & _ & Heq).
    rewrite Heq in Hprep. split_and!; [done..| |].
    + destruct (malformed_date_time start_date_time) eqn:Hbad; [|done].
      by rewrite attach_date_time_malformed in Hprep.
    + destruct (malformed_date_time end_date_time) eqn:Hbad; [|done].
      destruct (attach_date_time "start_date_time" _ _) as [rd1|]; [|done].
      cbn [mbind result_bind] in Hprep.
      by rewrite attach_date_time_malformed in Hprep.
  - intros (Hvalid & Hmatch & Hnofilter & Hstart & Hend).
    destruct (prepare_request_no_filter dis all_scopes dataset_id aggregate columns
                start_date_time end_date_time bc_id intake_status filter_transaction_ids
                Hvalid Hmatch Hnofilter) as (sk & ss & aggs & _ & _ & ->).
    destruct (attach_date_time_wellformed "start_date_time" start_date_time
                (request_data_of dis aggregate ss intake_status filter_transaction_ids []
                   aggs) Hstart) as [rd1 ->].
    cbn [mbind result_bind].
    destruct (attach_date_time_wellformed "end_date_time" end_date_time rd1 Hend)
      as [rd2 ->].
    cbn [mbind result_bind]. by exists sk, rd2.
Qed.

(** X10. When the base address is found, [get_transactions] returns a table
    exactly when every column has exactly one selector, every selector finds a
    scope, no column declares a filter, each time boundary is a [datetime] or
    [None], and the pagination of the query the call then sends does not
    fail. *)
Theorem get_transactions_Ok_iff dataset_id aggregate columns start_date_time
    end_date_time bc_id intake_status filter_transaction_ids page_cb w dss_base w0 :
  _get_dss_base remote self dataset_id w = (Ok dss_base, w0) →
  let all_scopes := dss_scopes remote (length (requests w0)) dss_base dataset_id bc_id in
  let r := get_transactions to_dict remote self dataset_id aggregate columns
             start_date_time end_date_time bc_id intake_status filter_transaction_ids
             page_cb w in
  (∃ df, r.1 = Ok df)
  ↔ queryable all_scopes columns start_date_time end_date_time
    ∧ last_query_answered remote r.2.
Proof.
  intros Hrun all_scopes r. unfold r. rewrite get_transactions_run, Hrun. cbv zeta.
  fold all_scopes.
  pose proof (prepare_request_Ok_iff (default_dss_intake_status self) all_scopes
                dataset_id aggregate columns start_date_time end_date_time bc_id
                intake_status filter_transaction_ids) as Hiff.
  destruct (prepare_request _ _ _ _ _ _ _ _ _ _) as [[sk rd]|e].
  - cbn [fst snd]. split.
    + intros [df Hdf]. split; [apply Hiff; by eexists _, _|].
      intros sent_before b d bc rd'. cbn [requests fetched].
      intros [<- [= <- <- <- <-]]%app_inj_tail.
      by destruct (dss_transactions_failure _ _ _ _ _ _).
    + intros [_ Hanswered].
      rewrite (Hanswered _ _ _ _ _ eq_refl). by eexists.
  - cbn [fst snd]. split; [by intros [df Hdf]|].
    intros [(sk & rd & Hprep)%Hiff _]. done.
Qed.

(** X11. Every payload a call sends has the entry [aggregate], the argument
    as it was given, and the entry [select_scopes]: the identifiers of the
    scopes the columns were resolved to, one for each column, in the order of
    the columns. *)
Theorem select_scopes_in_payload dataset_id aggregate columns start_date_time
    end_date_time bc_id intake_status filter_transaction_ids page_cb w evs dss_base'
    dataset_id' bc_id' request_data :
  requests (get_transactions to_dict remote self dataset_id aggregate columns
              start_date_time end_date_time bc_id intake_status filter_transaction_ids
              page_cb w).2
  = requests w ++ evs →
  POST_transactions dss_base' dataset_id' bc_id' request_data ∈ evs →
  request_data !! "aggregate" = Some aggregate
  ∧ ∃ dss_base w0 ids,
      _get_dss_base remote self dataset_id w = (Ok dss_base, w0)
      ∧ request_data !! "select_scopes" = Some (PyList (PyInt <$> ids))
      ∧ Forall2
          (resolves_id (dss_scopes remote (length (requests w0)) dss_base dataset_id bc_id))
          columns ids.
Proof.
  intros Hevs Hin.
  destruct (payload_sent _ _ _ _ _ _ _ _ _ _ _ _ _ _ _ _ _ _ Hevs Hin)
    as (dss_base & w0 & scope_keys & Hrun & Hprep).
  apply prepare_request_Ok_payload in Hprep as (ids & aggs & _ & Hids & Hrest & _).
  split.
  - rewrite Hrest by done. apply request_data_of_aggregate.
  - exists dss_base, w0, ids. split_and!; [done| |done].
    rewrite Hrest by done. apply request_data_of_select_scopes.
Qed.

(** X12. The optional entries of every payload a call sends: the intake
    status (the argument or, when that is [None], the default of the
    instance), the transaction filter and the two time boundaries are each in
    the payload, unchanged, exactly when they are not [None]; an empty list of
    transactions is sent as it is. *)
Theorem optional_entries_in_payload dataset_id aggregate columns start_date_time
    end_date_time bc_id intake_status filter_transaction_ids page_cb w evs dss_base'
    dataset_id' bc_id' request_data :
  requests (get_transactions to_dict remote self dataset_id aggregate columns
              start_date_time end_date_time bc_id intake_status filter_transaction_ids
              page_cb w).2
  = requests w ++ evs →
  POST_transactions dss_base' dataset_id' bc_id' request_data ∈ evs →
  request_data !! "intake_status"
  = unless_None (if intake_status is PyNone then default_dss_intake_status self
                 else intake_status)
  ∧ request_data !! "filter_transaction_ids" = unless_None filter_transaction_ids
  ∧ request_data !! "start_date_time" = unless_None start_date_time
  ∧ request_data !! "end_date_time" = unless_None end_date_time.
Proof.
  intros Hevs Hin.
  destruct (payload_sent _ _ _ _ _ _ _ _ _ _ _ _ _ _ _ _ _ _ Hevs Hin)
    as (dss_base & w0 & scope_keys & Hrun & Hprep).
  apply prepare_request_Ok_payload in Hprep
    as (ids & aggs & _ & _ & Hrest & Hstart & Hend).
  split_and!; [| |done..].
  - rewrite Hrest by done. apply request_data_of_intake_status.
  - rewrite Hrest by done. apply request_data_of_filter_transaction_ids.
Qed.

(** X13. A payload a call sends has no other keys than [aggregate],
    [select_scopes], [intake_status], [filter_transaction_ids],
    [aggregation_methods], [start_date_time] and [end_date_time]: the
    identifier of the dataset, the business cell and the scope value filters
    are not in it. *)
Theorem payload_keys_only dataset_id aggregate columns start_date_time
    end_date_time bc_id intake_status filter_transaction_ids page_cb w evs dss_base'
    dataset_id' bc_id' request_data k :
  requests (get_transactions to_dict remote self dataset_id aggregate columns
              start_date_time end_date_time bc_id intake_status filter_transaction_ids
              page_cb w).2
  = requests w ++ evs →
  POST_transactions dss_base' dataset_id' bc_id' request_data ∈ evs →
  is_Some (request_data !! k) →
  k ∈ payload_keys.
Proof.
  intros Hevs Hin Hk.
  destruct (payload_sent _ _ _ _ _ _ _ _ _ _ _ _ _ _ _ _ _ _ Hevs Hin)
    as (dss_base & w0 & scope_keys & Hrun & Hprep).
  apply prepare_request_Ok_payload in Hprep as (ids & aggs & _ & _ & Hrest & _).
  destruct (decide (k ∈ payload_keys)) as [|Hout]; [done|].
  rewrite Hrest, request_data_of_other in Hk; [by destruct Hk|done|..];
    intros ->; apply Hout; unfold payload_keys; set_solver.
Qed.

(** X14. The requests of a call, in order. First the dataset listing,
    exactly when no base address is configured and the listing was not
    fetched before. When the base address is not found, that is all, and the
    call raises the exception of the lookup. When it is found, the scope
    listing is requested in every case; the transaction query follows exactly
    when the columns and the time boundaries are in order, to the dataset and
    the business cell of the call at the base address of the scope listing,
    and then the call raises exactly when the pagination fails; otherwise the
    call raises with the scope listing as its last request. Scope values are
    never requested. *)
Theorem get_transactions_requests dataset_id aggregate columns start_date_time
    end_date_time bc_id intake_status filter_transaction_ids page_cb w :
  let r := get_transactions to_dict remote self dataset_id aggregate columns
             start_date_time end_date_time bc_id intake_status filter_transaction_ids
             page_cb w in
  let listing :=
    match _dss_base self, _all_meta w with
    | None, None => [GET_datasets (_users_base self)]
    | _, _ => []
    end in
  match (_get_dss_base remote self dataset_id w).1 with
  | Raise e => r.1 = Raise e ∧ requests r.2 = requests w ++ listing
  | Ok dss_base =>
      let asked := length (requests w ++ listing) in
      let all_scopes := dss_scopes remote asked dss_base dataset_id bc_id in
      (¬ queryable all_scopes columns start_date_time end_date_time
       ∧ is_raise r.1
       ∧ requests r.2 = requests w ++ listing ++ [GET_scopes dss_base dataset_id bc_id])
      ∨ (queryable all_scopes columns start_date_time end_date_time
         ∧ ∃ request_data,
             requests r.2
             = requests w ++ listing
               ++ [GET_scopes dss_base dataset_id bc_id;
                   POST_transactions dss_base dataset_id bc_id request_data]
             ∧ (is_raise r.1
                ↔ is_Some (dss_transactions_failure remote (S asked) dss_base dataset_id
                             bc_id request_data)))
  end.
Proof.
  intros r listing. unfold r. rewrite get_transactions_run.
  assert (requests (_get_dss_base remote self dataset_id w).2 = requests w ++ listing)
    as Hreqs.
  { rewrite _get_dss_base_run. cbn [snd]. unfold listing, listed.
    destruct (_dss_base self) as [base|]; [by rewrite app_nil_r|].
    destruct (_all_meta w); cbn [snd]; [by rewrite app_nil_r | done]. }
  destruct (_get_dss_base remote self dataset_id w) as [[dss_base|e] w0];
    cbn [fst snd] in Hreqs |- *; [|by rewrite <- Hreqs].
  cbv zeta.
  pose proof (prepare_request_Ok_iff (default_dss_intake_status self)
                (dss_scopes remote (length (requests w0)) dss_base dataset_id bc_id)
                dataset_id aggregate columns start_date_time end_date_time bc_id
                intake_status filter_transaction_ids) as Hiff.
  destruct (prepare_request _ _ _ _ _ _ _ _ _ _) as [[sk rd]|e].
  - right. cbn [fst snd requests fetched sent push_cell].
    rewrite (length_app (requests w0)), Nat.add_1_r. rewrite Hreqs in *.
    split; [apply Hiff; by eexists _, _|]. exists rd.
    split; [by rewrite <- !app_assoc|].
    by destruct (dss_transactions_failure _ _ _ _ _ _) as [e|]; cbn; split.
  - left. cbn [fst snd requests sent push_cell]. rewrite Hreqs in *.
    split_and!; [|done|by rewrite <- !app_assoc].
    intros (sk & rd & Hprep)%Hiff. done.
Qed.

(** X15. What a call that returns has done: the scope listing and the query
    were requested; the table is the data frame built from the rows that
    [to_dict] gives, with the scope keys of the resolved columns, for the
    records of all the pages the dataset service answered the query with, in
    their order; one task for the nested function is queued for every page,
    after the tasks there were; the caller's callback has not been called. *)
Theorem get_transactions_Ok dataset_id aggregate columns start_date_time
    end_date_time bc_id intake_status filter_transaction_ids page_cb w df w' :
  get_transactions to_dict remote self dataset_id aggregate columns start_date_time
    end_date_time bc_id intake_status filter_transaction_ids page_cb w
  = (Ok df, w') →
  ∃ dss_base w0 scope_keys request_data,
    _get_dss_base remote self dataset_id w = (Ok dss_base, w0)
    ∧ _find_scope_keys
        (map (resolve (dss_scopes remote (length (requests w0)) dss_base dataset_id bc_id))
           columns)
      = Ok scope_keys
    ∧ requests w'
      = requests w0 ++ [GET_scopes dss_base dataset_id bc_id;
                        POST_transactions dss_base dataset_id bc_id request_data]
    ∧ let pages :=
        dss_transactions remote (S (length (requests w0))) dss_base dataset_id bc_id
          request_data in
      df = from_records
             (map (λ t, to_dict t scope_keys) (concat (page_records <$> pages)))
      ∧ tasks w' = tasks w ++ map (page_task to_dict (length (cells w)) scope_keys) pages
      ∧ page_cb_calls w' = page_cb_calls w.
Proof.
  rewrite get_transactions_run.
  destruct (_get_dss_base remote self dataset_id w) as [[dss_base|e] w0] eqn:Hrun;
    [|done].
  destruct (_get_dss_base_world _ _ _ _ _ _ Hrun) as (Hcells & Htasks & Hcalls & _).
  cbv zeta.
  destruct (prepare_request _ _ _ _ _ _ _ _ _ _) as [[scope_keys rd]|e] eqn:Hprep;
    [|done].
  destruct (dss_transactions_failure _ _ _ _ _ _) as [e|]; [done|].
  intros [= <- <-]. exists dss_base, w0, scope_keys, rd.
  apply prepare_request_Ok_payload in Hprep as (ids & aggs & Hsk & _).
  cbn [requests tasks page_cb_calls fetched sent push_cell].
  rewrite length_app, Nat.add_1_r, <- app_assoc, Htasks, Hcalls. cbn [app].
  by split_and!.
Qed.

Lemma insert_length_snoc {A} (l : list A) (x y : A) :
  <[length l := x]> (l ++ [y]) = l ++ [x].
Proof. induction l as [|a l IH]; [done|]. cbn. f_equal. exact IH. Qed.

(** X16. The argument [page_cb] changes nothing of a call: the result, the
    requests, the queued tasks and the calls of the caller's callback are the
    same with any two values of it, [None] included; when the call returns,
    the two worlds are the same altogether. *)
Theorem page_cb_ignored dataset_id aggregate columns start_date_time end_date_time
    bc_id intake_status filter_transaction_ids page_cb page_cb' w :
  let r := get_transactions to_dict remote self dataset_id aggregate columns
             start_date_time end_date_time bc_id intake_status filter_transaction_ids
             page_cb w in
  let r' := get_transactions to_dict remote self dataset_id aggregate columns
              start_date_time end_date_time bc_id intake_status filter_transaction_ids
              page_cb' w in
  r.1 = r'.1
  ∧ requests r.2 = requests r'.2
  ∧ tasks r.2 = tasks r'.2
  ∧ page_cb_calls r.2 = page_cb_calls r'.2
  ∧ _all_meta r.2 = _all_meta r'.2
  ∧ (¬ is_raise r.1 → r.2 = r'.2).
Proof.
  cbv zeta. rewrite !get_transactions_run.
  destruct (_get_dss_base remote self dataset_id w) as [[dss_base|e] w0] eqn:Hrun.
  - destruct (_get_dss_base_world _ _ _ _ _ _ Hrun) as (Hcells & _). cbv zeta.
    cbn [requests sent push_cell length].
    destruct (prepare_request _ _ _ _ _ _ _ _ _ _) as [[scope_keys rd]|e].
    + cbn [fst snd]. split_and!; try done. intros _.
      unfold fetched. cbn [_all_meta requests cells tasks page_cb_calls sent push_cell].
      by rewrite <- Hcells, !insert_length_snoc.
    + cbn [fst snd]. by split_and!.
  - cbn [fst snd]. by split_and!.
Qed.

Lemma _get_dss_base_memoized dataset_id w :
  is_Some (_dss_base self) ∨ is_Some (_all_meta w) →
  (_get_dss_base remote self dataset_id w).2 = w.
Proof.
  rewrite _get_dss_base_run. cbn [snd]. intros [[base ->]|[memo Hmemo]]; [done|].
  destruct (_dss_base self); [done|]. unfold listed. by rewrite Hmemo.
Qed.

Lemma get_transactions_all_meta dataset_id aggregate columns start_date_time
    end_date_time bc_id intake_status filter_transaction_ids page_cb w :
  is_Some (_dss_base self)
  ∨ is_Some (_all_meta
               (get_transactions to_dict remote self dataset_id aggregate columns
                  start_date_time end_date_time bc_id intake_status
                  filter_transaction_ids page_cb w).2).
Proof.
  destruct (_dss_base self) as [base|] eqn:Hbase; [left; by eexists|right].
  assert (is_Some (_all_meta (_get_dss_base remote self dataset_id w).2)) as Hmemo.
  { rewrite _get_dss_base_run, Hbase. cbn [snd]. rewrite listed_memo. by eexists. }
  rewrite get_transactions_run.
  destruct (_get_dss_base remote self dataset_id w) as [[dss_base|e] w0]; [|done].
  cbv zeta. by destruct (prepare_request _ _ _ _ _ _ _ _ _ _) as [[scope_keys rd]|e].
Qed.

(** X17. The dataset listing is not requested again by a later call: after
    any call of [get_transactions] on the instance, the requests of a second
    call, whatever its arguments, are at most the scope listing and the
    transaction query. *)
Theorem dataset_listing_not_repeated dataset_id aggregate columns start_date_time
    end_date_time bc_id intake_status filter_transaction_ids page_cb dataset_id'
    aggregate' columns' start_date_time' end_date_time' bc_id' intake_status'
    filter_transaction_ids' page_cb' w :
  let w1 := (get_transactions to_dict remote self dataset_id aggregate columns
               start_date_time end_date_time bc_id intake_status filter_transaction_ids
               page_cb w).2 in
  let w2 := (get_transactions to_dict remote self dataset_id' aggregate' columns'
               start_date_time' end_date_time' bc_id' intake_status'
               filter_transaction_ids' page_cb' w1).2 in
  ∃ queries,
    requests w2 = requests w1 ++ queries
    ∧ ∀ users_base, GET_datasets users_base ∉ queries.
Proof.
  intros w1 w2.
  pose proof (get_transactions_all_meta dataset_id aggregate columns start_date_time
                end_date_time bc_id intake_status filter_transaction_ids page_cb w)
    as Hmemo.
  fold w1 in Hmemo. apply (_get_dss_base_memoized dataset_id') in Hmemo.
  unfold w2. rewrite get_transactions_run.
  destruct (_get_dss_base remote self dataset_id' w1) as [[dss_base|e] w0].
  - cbn [snd] in Hmemo. subst w0. cbv zeta.
    destruct (prepare_request _ _ _ _ _ _ _ _ _ _) as [[scope_keys rd]|e].
    + eexists [_; _]. cbn [snd requests fetched sent push_cell].
      split; [by rewrite <- app_assoc|]. intros users_base Hin.
      repeat (apply elem_of_cons in Hin as [Hin|Hin]; [done|]).
      by apply elem_of_nil in Hin.
    + eexists [_]. cbn [snd requests sent push_cell]. split; [done|].
      intros users_base Hin.
      repeat (apply elem_of_cons in Hin as [Hin|Hin]; [done|]).
      by apply elem_of_nil in Hin.
  - cbn [snd] in Hmemo. subst w0. exists []. cbn [snd requests push_cell].
    split; [by rewrite app_nil_r|]. intros users_base Hin. by apply elem_of_nil in Hin.
Qed.

End Calls.

(** ** More properties: the tasks a call leaves *)

Section PageTasks.

Context {Transaction : Type}.
Variable to_dict : Transaction → gmap Z pyval → Row.
Variable remote : Remote (Transaction := Transaction).
Variable self : Self.
Implicit Types (w : World (Transaction := Transaction)).
Implicit Types (t : Task (Transaction := Transaction)).

(** Running a callable leaves the locals alone and takes no task away. *)
Lemma call_keeps f page nr last w :
  let w' := (call to_dict f page nr last w).2 in
  cells w' = cells w ∧ ∃ new, tasks w' = tasks w ++ new.
Proof.
  destruct f as [|frame scope_keys]; cbn [call].
  - cbn. split; [done|]. exists []. by rewrite app_nil_r.
  - unfold nested_page_cb_body, mbind, M_bind, load_cell.
    destruct (default None (cells w !! frame)) as [f|].
    + unfold lift. destruct (_transactions_to_df to_dict page scope_keys) as [df|e].
      * cbn. split; [done|]. by eexists [_].
      * cbn. split; [done|]. exists []. by rewrite app_nil_r.
    + cbn. split; [done|]. exists []. by rewrite app_nil_r.
Qed.

(** A task on a frame without columns leaves a task on a frame without
    columns. *)
Lemma respawning_step t rest w :
  tasks w = t :: rest →
  Exists (respawning w) (tasks w) →
  let w' := (call to_dict (callee t) (arg_page t) (arg_page_nr t) (arg_last_page t)
               (set_tasks rest w)).2 in
  Exists (respawning w') (tasks w').
Proof.
  intros Htasks Hex. rewrite Htasks in Hex. apply Exists_cons in Hex as [Ht|Hrest].
  - destruct Ht as (frame & sk & sk' & df & Hcallee & Hpage & Hcols & Hcell).
    rewrite Hcallee, Hpage, (call_nested to_dict frame sk sk') by done.
    cbn [_transactions_to_df]. rewrite Hcols. cbv zeta. cbn [snd tasks set_tasks].
    apply Exists_app. right. apply Exists_cons_hd.
    by exists frame, sk', sk', (from_records []).
  - destruct (call_keeps (callee t) (arg_page t) (arg_page_nr t) (arg_last_page t)
                (set_tasks rest w)) as [Hcells [new Hnew]].
    cbv zeta. rewrite Hnew. cbn [tasks set_tasks]. apply Exists_app. left.
    eapply Exists_impl; [exact Hrest|].
    intros t' (frame & sk & sk' & df & Hcallee & Hpage & Hcols & Hcell).
    exists frame, sk, sk', df. by rewrite Hcells.
Qed.

Lemma run_tasks_respawning fuel w :
  Exists (respawning w) (tasks w) →
  Exists (respawning (run_tasks to_dict fuel w)) (tasks (run_tasks to_dict fuel w)).
Proof.
  revert w. induction fuel as [|fuel IH]; intros w Hex; [done|].
  cbn [run_tasks]. destruct (tasks w) as [|t rest] eqn:Htasks; [by rewrite Htasks|].
  apply IH. apply respawning_step; [done|]. by rewrite Htasks.
Qed.

Lemma run_tasks_never_empty fuel w :
  Exists (respawning w) (tasks w) → tasks (run_tasks to_dict fuel w) ≠ [].
Proof.
  intros Hinv%(run_tasks_respawning fuel) Hnil. rewrite Hnil in Hinv.
  by apply Exists_nil in Hinv.
Qed.

(** Tasks of nested functions on frames with columns end one after the
    other, each with the exception of [_transactions_to_df], and leave
    nothing. *)
Lemma run_tasks_frames_end ts w :
  tasks w = ts →
  Forall (λ t, ∃ frame scope_keys scope_keys' df,
                 callee t = nested_page_cb frame scope_keys
                 ∧ arg_page t = Frame df
                 ∧ has_columns df = true
                 ∧ cells w !! frame = Some (Some (nested_page_cb frame scope_keys'))) ts →
  run_tasks to_dict (length ts) w = set_tasks [] w.
Proof.
  revert w. induction ts as [|t rest IH]; intros w Htasks Hall.
  - cbn. unfold set_tasks. rewrite <- Htasks. by destruct w.
  - cbn [length run_tasks]. rewrite Htasks.
    apply Forall_cons in Hall
      as [(frame & sk & sk' & df & Hcallee & Hpage & Hcols & Hcell) Hrest].
    rewrite Hcallee, Hpage, (call_nested to_dict frame sk sk') by done.
    cbn [_transactions_to_df]. rewrite Hcols. cbn [snd].
    by rewrite IH.
Qed.

(** X18. When the dataset service answers the query of a call with a page
    without records, the task queued for that page never ends the queue: the
    nested function finds nothing to assemble, and schedules itself again on
    the empty table. However long the event loop runs, a task is left. *)
Theorem empty_page_respawns dataset_id aggregate columns start_date_time end_date_time
    bc_id intake_status filter_transaction_ids page_cb w df w' sent_before dss_base'
    dataset_id' bc_id' request_data fuel :
  get_transactions to_dict remote self dataset_id aggregate columns start_date_time
    end_date_time bc_id intake_status filter_transaction_ids page_cb w
  = (Ok df, w') →
  requests w'
  = sent_before ++ [POST_transactions dss_base' dataset_id' bc_id' request_data] →
  Exists (λ p, page_records p = [])
    (dss_transactions remote (length sent_before) dss_base' dataset_id' bc_id'
       request_data) →
  tasks (run_tasks to_dict fuel w') ≠ [].
Proof.
  rewrite get_transactions_run.
  destruct (_get_dss_base remote self dataset_id w) as [[dss_base|e] w0] eqn:Hrun;
    [|done].
  destruct (_get_dss_base_world _ _ _ _ _ _ Hrun) as (Hcells & _).
  cbv zeta.
  destruct (prepare_request _ _ _ _ _ _ _ _ _ _) as [[scope_keys rd]|e]; [|done].
  destruct (dss_transactions_failure _ _ _ _ _ _) as [e|]; [done|].
  intros [= <- <-]. cbn [requests fetched].
  intros [<- [= <- <- <- <-]]%app_inj_tail Hex.
  apply run_tasks_never_empty.
  cbn [tasks fetched]. apply Exists_app. right.
  apply Exists_exists in Hex as (p & Hp & Hempty). apply Exists_exists.
  exists (page_task to_dict (length (cells w)) scope_keys p).
  split; [by apply list_elem_of_fmap_2|].
  exists (length (cells w)), scope_keys, scope_keys, (from_records []).
  unfold page_task. rewrite Hempty. cbn [callee arg_page map cells fetched sent push_cell].
  split_and!; [done..|].
  apply list_lookup_insert_eq. rewrite length_app, Hcells. cbn. lia.
Qed.

(** X19. When no task was pending and every task a call has queued was
    given a data frame with a column, running as many tasks as were queued
    ends them all: each task ends with the exception of [_transactions_to_df]
    on a data frame, which nobody sees, and the world is as the call left it,
    without tasks. *)
Theorem page_tasks_end dataset_id aggregate columns start_date_time end_date_time
    bc_id intake_status filter_transaction_ids page_cb w df w' :
  tasks w = [] →
  get_transactions to_dict remote self dataset_id aggregate columns start_date_time
    end_date_time bc_id intake_status filter_transaction_ids page_cb w
  = (Ok df, w') →
  Forall on_frame_with_columns (tasks w') →
  run_tasks to_dict (length (tasks w')) w' = set_tasks [] w'.
Proof.
  intros Hnone. rewrite get_transactions_run.
  destruct (_get_dss_base remote self dataset_id w) as [[dss_base|e] w0] eqn:Hrun;
    [|done].
  destruct (_get_dss_base_world _ _ _ _ _ _ Hrun) as (Hcells & Htasks & _).
  cbv zeta.
  destruct (prepare_request _ _ _ _ _ _ _ _ _ _) as [[scope_keys rd]|e]; [|done].
  destruct (dss_transactions_failure _ _ _ _ _ _) as [e|]; [done|].
  intros [= <- <-] Hall. apply run_tasks_frames_end; [done|].
  revert Hall. cbn [tasks cells fetched sent push_cell]. rewrite Htasks, Hnone.
  cbn [app]. rewrite !Forall_forall. intros Hall t Ht.
  destruct (Hall t Ht) as (page & Hpage & Hcols).
  apply list_elem_of_fmap in Ht as (p & -> & _).
  exists (length (cells w)), scope_keys, scope_keys, page. split_and!; [done..|].
  apply list_lookup_insert_eq. rewrite length_app, Hcells. cbn. lia.
Qed.

End PageTasks.

(** ** The properties on the small dataset service *)

(** Two pages, a callback supplied: the call returns the table, two tasks are
    queued, both for the nested function, and the callback was not invoked,
    neither by the call nor by the tasks. *)
Example page_cb_two_pages :
  let r := demo_run [demo_col_rev; demo_col_cost] PyNone (Some caller_page_cb) in
  r.1 = Ok (from_records
              [[(PyStr "rev", PyInt 100); (PyStr "scope_2", PyStr "A")];
               [(PyStr "rev", PyInt 250); (PyStr "scope_2", PyStr "B")]])
  ∧ map callee (tasks r.2)
    = [nested_page_cb 0 {[1 := PyStr "rev"; 2 := PyStr "scope_2"]};
       nested_page_cb 0 {[1 := PyStr "rev"; 2 := PyStr "scope_2"]}]
  ∧ page_cb_calls r.2 = []
  ∧ tasks (run_tasks demo_to_dict 2 r.2) = []
  ∧ page_cb_calls (run_tasks demo_to_dict 2 r.2) = [].
Proof. vm_compute. by split_and!. Qed.

Lemma page_cb_never_invoked_witness :
  only_nested_tasks demo_world
  ∧ page_cb_calls
      (run_tasks demo_to_dict 5
         (demo_run [demo_col_rev; demo_col_cost] PyNone (Some caller_page_cb)).2)
    = page_cb_calls demo_world.
Proof.
  assert (only_nested_tasks demo_world) as Hinv.
  { intros t Ht. vm_compute in Ht. by apply elem_of_nil in Ht. }
  split; [exact Hinv|]. unfold demo_run.
  pose proof (page_cb_never_invoked demo_to_dict demo_remote demo_self 7 (PyBool true)
                [demo_col_rev; demo_col_cost] PyNone PyNone "all" PyNone PyNone
                (Some caller_page_cb) demo_world 5 Hinv) as H.
  exact H.
Defined.

(** What [_find_scope_value_filters] gives on a column that carries a scope
    value collection instead of the coroutine object. *)
Example filters_of_a_collection :
  _find_scope_value_filters
    [<["scope_values" := PyScopeValues demo_cost_values]>
       (resolve [demo_revenue; demo_cost] demo_col_cost_filtered)]
  = Ok [PyInt 10; PyInt 11].
Proof. vm_compute. reflexivity. Qed.

Lemma filter_ends_in_AttributeError_witness :
  Exists declares_filter [demo_col_rev; demo_col_cost_filtered]
  ∧ demo_run [demo_col_rev; demo_col_cost_filtered] PyNone None
    = (Raise coroutine_has_no_where_in,
       sent (GET_scopes "https://dss.example" 7 "all") (push_cell None demo_world)).
Proof.
  assert (Exists declares_filter [demo_col_rev; demo_col_cost_filtered]) as Hex.
  { apply Exists_cons_tl, Exists_cons_hd. vm_compute. reflexivity. }
  assert (_get_dss_base demo_remote demo_self 7 demo_world
          = (Ok "https://dss.example", demo_world)) as Hbase
    by (vm_compute; reflexivity).
  assert (Forall (λ c, selector_count c = 1) [demo_col_rev; demo_col_cost_filtered])
    as Hvalid by each_column ltac:(vm_compute; reflexivity).
  assert (Forall (matches_scope
                    (dss_scopes demo_remote (length (requests demo_world))
                       "https://dss.example" 7 "all"))
            [demo_col_rev; demo_col_cost_filtered]) as Hmatch
    by each_column ltac:(eexists; vm_compute; reflexivity).
  split; [exact Hex|]. unfold demo_run.
  pose proof (filter_ends_in_AttributeError demo_to_dict demo_remote demo_self 7
                (PyBool true) [demo_col_rev; demo_col_cost_filtered] PyNone PyNone "all"
                PyNone PyNone None demo_world "https://dss.example" demo_world
                Hbase Hvalid Hmatch Hex) as H.
  exact H.
Defined.

Lemma invalid_selector_raises_witness :
  Exists (λ c, selector_count c ≠ 1) [demo_col_rev; demo_col_no_selector]
  ∧ demo_run [demo_col_rev; demo_col_no_selector] PyNone None
    = (Raise (ValueError
         "Not exactly one of `scope_id`, `representation` or `name_dataset` provided for column"),
       sent (GET_scopes "https://dss.example" 7 "all") (push_cell None demo_world)).
Proof.
  assert (Exists (λ c, selector_count c ≠ 1) [demo_col_rev; demo_col_no_selector])
    as Hex.
  { apply Exists_cons_tl, Exists_cons_hd. vm_compute. discriminate. }
  assert (_get_dss_base demo_remote demo_self 7 demo_world
          = (Ok "https://dss.example", demo_world)) as Hbase
    by (vm_compute; reflexivity).
  split; [exact Hex|]. unfold demo_run.
  pose proof (invalid_selector_raises demo_to_dict demo_remote demo_self 7 (PyBool true)
                [demo_col_rev; demo_col_no_selector] PyNone PyNone "all" PyNone PyNone
                None demo_world "https://dss.example" demo_world Hbase Hex) as H.
  exact H.
Defined.

(** C3 as stated fails: with a column without selector the call raises the
    [ValueError], but the scope listing has been requested by then; and when
    the dataset is not listed, the call ends with an [AttributeError] before
    the columns are looked at. *)
Lemma invalid_selector_after_requests :
  Exists (λ c, selector_count c ≠ 1) [demo_col_no_selector]
  ∧ (let r := demo_run [demo_col_no_selector] PyNone None in
     ¬ (is_ValueError r.1 ∧ requests r.2 = requests demo_world))
  ∧ (let r := get_transactions demo_to_dict demo_remote demo_self_no_base 8 (PyBool true)
                [demo_col_no_selector] PyNone PyNone "all" PyNone PyNone None demo_world in
     ¬ (is_ValueError r.1 ∧ requests r.2 = requests demo_world)).
Proof.
  split_and!.
  - apply Exists_cons_hd. vm_compute. discriminate.
  - cbv zeta. intros [_ Hreq]. vm_compute in Hreq. discriminate.
  - cbv zeta. intros [Herr _]. vm_compute in Herr. exact Herr.
Qed.

Lemma unmatched_selector_not_reported_witness :
  Exists (λ c, lookup_scope [demo_revenue; demo_cost] c = PyNone)
    [demo_col_rev; demo_col_unknown]
  ∧ _add_scopes demo_remote demo_self 7 [demo_col_rev; demo_col_unknown] "all" demo_world
    = (Ok (map (resolve [demo_revenue; demo_cost]) [demo_col_rev; demo_col_unknown]),
       sent (GET_scopes "https://dss.example" 7 "all") demo_world)
  ∧ demo_run [demo_col_rev; demo_col_unknown] PyNone None
    = (Raise NoneType_has_no_id,
       sent (GET_scopes "https://dss.example" 7 "all") (push_cell None demo_world)).
Proof.
  assert (Exists (λ c, lookup_scope
                         (dss_scopes demo_remote (length (requests demo_world))
                            "https://dss.example" 7 "all") c = PyNone)
            [demo_col_rev; demo_col_unknown]) as Hex.
  { apply Exists_cons_tl, Exists_cons_hd. vm_compute. reflexivity. }
  assert (_get_dss_base demo_remote demo_self 7 demo_world
          = (Ok "https://dss.example", demo_world)) as Hbase
    by (vm_compute; reflexivity).
  assert (Forall (λ c, selector_count c = 1) [demo_col_rev; demo_col_unknown])
    as Hvalid by each_column ltac:(vm_compute; reflexivity).
  pose proof (unmatched_selector_not_reported demo_to_dict demo_remote demo_self 7
                (PyBool true) [demo_col_rev; demo_col_unknown] PyNone PyNone "all" PyNone
                PyNone None demo_world "https://dss.example" demo_world
                Hbase Hvalid Hex) as H.
  cbv zeta in H. destruct H as (Hadd & _ & Hrun).
  split; [exact Hex|]. split; [exact Hadd | exact Hrun].
Defined.

Lemma malformed_date_time_raises_witness :
  malformed_date_time (PyStr "2024-01-01") || malformed_date_time PyNone = true
  ∧ ∃ msg,
      demo_run [demo_col_rev; demo_col_cost] (PyStr "2024-01-01") None
      = (Raise (ValueError msg),
         sent (GET_scopes "https://dss.example" 7 "all") (push_cell None demo_world))
      ∧ (Forall (λ c, selector_count c = 1) [demo_col_rev; demo_col_cost] →
         msg = (if malformed_date_time (PyStr "2024-01-01") then "start_date_time"
                else "end_date_time") +:+ " should be an instance of datetime.").
Proof.
  assert (malformed_date_time (PyStr "2024-01-01") || malformed_date_time PyNone = true)
    as Hbad by reflexivity.
  assert (_get_dss_base demo_remote demo_self 7 demo_world
          = (Ok "https://dss.example", demo_world)) as Hbase
    by (vm_compute; reflexivity).
  assert (Forall (λ c, selector_count c = 1 →
                       matches_scope
                         (dss_scopes demo_remote (length (requests demo_world))
                            "https://dss.example" 7 "all") c)
            [demo_col_rev; demo_col_cost]) as Hmatch
    by each_column ltac:(intros _; eexists; vm_compute; reflexivity).
  assert (Forall (λ c, ¬ declares_filter c) [demo_col_rev; demo_col_cost]) as Hnofilter
    by each_column ltac:(vm_compute; discriminate).
  split; [exact Hbad|]. unfold demo_run.
  pose proof (malformed_date_time_raises demo_to_dict demo_remote demo_self 7
                (PyBool true) [demo_col_rev; demo_col_cost] (PyStr "2024-01-01") PyNone
                "all" PyNone PyNone None demo_world "https://dss.example" demo_world
                Hbase Hmatch Hnofilter Hbad) as H.
  exact H.
Defined.

(** C5 as stated fails: with a start that is not a [datetime] the call raises
    the [ValueError], but the scope listing has been requested by then; with
    a column that declares a filter, or one whose selector matches no scope,
    or a dataset that is not listed, the call ends with an [AttributeError]
    before the time boundaries are looked at. *)
Lemma malformed_date_time_after_requests :
  malformed_date_time (PyStr "2024-01-01") = true
  ∧ (let r := demo_run [demo_col_rev; demo_col_cost] (PyStr "2024-01-01") None in
     ¬ (is_ValueError r.1 ∧ requests r.2 = requests demo_world))
  ∧ (let r := demo_run [demo_col_rev; demo_col_cost_filtered] (PyStr "2024-01-01") None in
     ¬ (is_ValueError r.1 ∧ requests r.2 = requests demo_world))
  ∧ (let r := demo_run [demo_col_rev; demo_col_unknown] (PyStr "2024-01-01") None in
     ¬ (is_ValueError r.1 ∧ requests r.2 = requests demo_world))
  ∧ (let r := get_transactions demo_to_dict demo_remote demo_self_no_base 8 (PyBool true)
                [demo_col_rev] (PyStr "2024-01-01") PyNone "all" PyNone PyNone None
                demo_world in
     ¬ (is_ValueError r.1 ∧ requests r.2 = requests demo_world)).
Proof.
  split_and!.
  - reflexivity.
  - cbv zeta. intros [_ Hreq]. vm_compute in Hreq. discriminate.
  - cbv zeta. intros [Herr _]. vm_compute in Herr. exact Herr.
  - cbv zeta. intros [Herr _]. vm_compute in Herr. exact Herr.
  - cbv zeta. intros [Herr _]. vm_compute in Herr. exact Herr.
Qed.

(** The payload of the example: [aggregate], [select_scopes] and the one
    aggregation method. *)
Example payload_two_columns :
  requests (demo_run [demo_col_rev; demo_col_cost] PyNone None).2
  = [GET_scopes "https://dss.example" 7 "all";
     POST_transactions "https://dss.example" 7 "all"
       (<["aggregation_methods" :=
            PyList [PyDict [("scope_id", PyInt 2); ("method", PyStr "sum")]]]>
          (<["select_scopes" := PyList [PyInt 1; PyInt 2]]>
             {["aggregate" := PyBool true]}))].
Proof. vm_compute. reflexivity. Qed.

Lemma aggregation_methods_in_payload_witness :
  let request_data : gmap string pyval :=
    <["aggregation_methods" :=
        PyList [PyDict [("scope_id", PyInt 2); ("method", PyStr "sum")]]]>
      (<["select_scopes" := PyList [PyInt 1; PyInt 2]]> {["aggregate" := PyBool true]}) in
  POST_transactions "https://dss.example" 7 "all" request_data
    ∈ requests (demo_run [demo_col_rev; demo_col_cost] PyNone None).2
  ∧ (is_Some (request_data !! "aggregation_methods")
     ↔ Exists declares_aggregate [demo_col_rev; demo_col_cost]).
Proof.
  intros request_data.
  assert (requests (get_transactions demo_to_dict demo_remote demo_self 7 (PyBool true)
                      [demo_col_rev; demo_col_cost] PyNone PyNone "all" PyNone PyNone
                      None demo_world).2
          = requests demo_world
            ++ [GET_scopes "https://dss.example" 7 "all";
                POST_transactions "https://dss.example" 7 "all" request_data]) as Hevs
    by (vm_compute; reflexivity).
  assert (POST_transactions "https://dss.example" 7 "all" request_data
            ∈ [GET_scopes "https://dss.example" 7 "all";
               POST_transactions "https://dss.example" 7 "all" request_data]) as Hin
    by (apply elem_of_cons; right; apply elem_of_cons; by left).
  pose proof (aggregation_methods_in_payload demo_to_dict demo_remote demo_self 7
                (PyBool true) [demo_col_rev; demo_col_cost] PyNone PyNone "all" PyNone
                PyNone None demo_world _ _ _ _ request_data Hevs Hin) as [H _].
  split; [|exact H].
  unfold demo_run. rewrite Hevs. exact Hin.
Defined.

Lemma metadata_fetched_once_witness :
  _all_meta demo_world = None
  ∧ ∃ ans w',
      mapM (do_call demo_remote demo_self_no_base)
        (call_get_meta 7 :: [call_index; call_get_meta 8]) demo_world = (Ok ans, w')
      ∧ requests w' = requests demo_world ++ [GET_datasets (_users_base demo_self_no_base)]
      ∧ Forall2
          (answers (users_datasets demo_remote (length (requests demo_world))
                      (_users_base demo_self_no_base)))
          (call_get_meta 7 :: [call_index; call_get_meta 8]) ans.
Proof.
  assert (_all_meta demo_world = None) as Hfresh by reflexivity.
  split; [exact Hfresh|].
  pose proof (metadata_fetched_once demo_remote demo_self_no_base (call_get_meta 7)
                [call_index; call_get_meta 8] demo_world Hfresh) as H.
  exact H.
Defined.

(** Three calls on a fresh instance: one request, and the answers. *)
Example metadata_three_calls :
  let r := mapM (do_call demo_remote demo_self_no_base)
             [call_get_meta 7; call_index; call_get_meta 8] demo_world in
  r.1 = Ok [answer_get_meta (Some {| Dataset.id := 7; Dataset.dss_url := "https://dss.example" |});
            answer_index [ {| Dataset.id := 7; Dataset.dss_url := "https://dss.example" |} ];
            answer_get_meta None]
  ∧ requests r.2 = [GET_datasets "https://users.pricecypher.com"].
Proof. vm_compute. by split. Qed.

Lemma later_key_wins_witness :
  resolves_to (demo_resolved demo_cost (Some "first")) 2
  ∧ resolves_to (demo_resolved demo_cost (Some "second")) 2
  ∧ ∃ scope_keys,
      _find_scope_keys
        ([] ++ demo_resolved demo_cost (Some "first")
            :: [demo_resolved demo_revenue None]
            ++ demo_resolved demo_cost (Some "second") :: [])
      = Ok scope_keys
      ∧ scope_keys !! 2 = Some (key_of (demo_resolved demo_cost (Some "second")) 2).
Proof.
  assert (∀ k, resolves_to (demo_resolved demo_cost (Some k)) 2) as Hcost.
  { intros k. exists demo_cost. split; reflexivity. }
  assert (Forall (λ c, is_Some (resolved_scope c))
            ([] ++ demo_resolved demo_cost (Some "first")
                :: [demo_resolved demo_revenue None]
                ++ demo_resolved demo_cost (Some "second") :: [])) as Hall
    by (cbn [app]; each_column ltac:(eexists; vm_compute; reflexivity)).
  pose proof (later_key_wins [] (demo_resolved demo_cost (Some "first"))
                [demo_resolved demo_revenue None]
                (demo_resolved demo_cost (Some "second")) [] 2
                Hall (Hcost "first") (Hcost "second") (Forall_nil_2 _)) as H.
  split; [apply Hcost|]. split; [apply Hcost|]. exact H.
Defined.

Lemma default_key_unless_overwritten_witness :
  demo_resolved demo_cost None !! "key" = None
  ∧ ∃ scope_keys,
      _find_scope_keys
        ([demo_resolved demo_revenue (Some "rev")] ++ demo_resolved demo_cost None
           :: [demo_resolved demo_revenue None])
      = Ok scope_keys
      ∧ scope_keys !! Scope.id demo_cost
        = Some (PyStr ("scope_" +:+ pretty (Scope.id demo_cost))).
Proof.
  assert (demo_resolved demo_cost None !! "key" = None) as Hkey
    by (vm_compute; reflexivity).
  assert (resolved_scope (demo_resolved demo_cost None) = Some demo_cost) as Hs
    by (vm_compute; reflexivity).
  assert (Forall (λ c, is_Some (resolved_scope c))
            ([demo_resolved demo_revenue (Some "rev")] ++ demo_resolved demo_cost None
               :: [demo_resolved demo_revenue None])) as Hall
    by (cbn [app]; each_column ltac:(eexists; vm_compute; reflexivity)).
  assert (Forall (λ c', ¬ resolves_to c' (Scope.id demo_cost))
            [demo_resolved demo_revenue None]) as Hafter.
  { each_column idtac. intros (s & Hs' & Hid). vm_compute in Hs'.
    injection Hs' as <-. vm_compute in Hid. discriminate. }
  pose proof (default_key_unless_overwritten [demo_resolved demo_revenue (Some "rev")]
                (demo_resolved demo_cost None) [demo_resolved demo_revenue None]
                demo_cost Hall Hs Hkey Hafter) as H.
  split; [exact Hkey | exact H].
Defined.

(** C9 as stated fails: the first column is resolved to scope 2 and carries no
    key, a later column resolved to the same scope carries one, and the map
    gives scope 2 the later key, not the default name. *)
Lemma default_key_overwritten :
  resolved_scope (demo_resolved demo_cost None) = Some demo_cost
  ∧ demo_resolved demo_cost None !! "key" = None
  ∧ ∃ scope_keys,
      _find_scope_keys
        [demo_resolved demo_cost None; demo_resolved demo_cost (Some "cost")]
      = Ok scope_keys
      ∧ scope_keys !! 2 = Some (PyStr "cost")
      ∧ scope_keys !! 2 ≠ Some (PyStr "scope_2").
Proof.
  split; [vm_compute; reflexivity|]. split; [vm_compute; reflexivity|].
  eexists. split; [vm_compute; reflexivity|].
  split; [vm_compute; reflexivity|]. vm_compute. discriminate.
Qed.

Lemma execute_contract_witness :
  let user_input : gmap string pyval := {["transaction_ids" := PyList [PyInt 4; PyInt 5]]} in
  execute (λ _ _ transaction_ids, Ok transaction_ids) (Some 3) "token" user_input
  = Ok (PyList [PyInt 4; PyInt 5])
  ∧ execute (R := pyval) (λ _ _ transaction_ids, Ok transaction_ids) (Some 3) "token" ∅
    = Raise (Exception "Expected input key 'transaction_ids' not present.")
  ∧ execute (R := pyval) (λ _ _ _, Raise (ValueError "unknown transaction")) (Some 3)
      "token" user_input
    = Raise (ValueError "unknown transaction").
Proof.
  intros user_input.
  assert (user_input !! "transaction_ids" = Some (PyList [PyInt 4; PyInt 5])) as Hpresent
    by (vm_compute; reflexivity).
  assert ((∅ : gmap string pyval) !! "transaction_ids" = None) as Habsent
    by (vm_compute; reflexivity).
  pose proof (execute_contract (λ _ _ transaction_ids, Ok transaction_ids) (Some 3)
                "token" user_input) as (_ & Hsame & _).
  pose proof (execute_contract (R := pyval) (λ _ _ transaction_ids, Ok transaction_ids)
                (Some 3) "token" ∅) as (Hmissing & _).
  pose proof (execute_contract (R := pyval)
                (λ _ _ _, Raise (ValueError "unknown transaction")) (Some 3) "token"
                user_input) as (_ & Hraises & _).
  split; [exact (Hsame _ Hpresent)|]. split; [exact (Hmissing Habsent)|].
  exact (Hraises _ Hpresent).
Defined.

(** C10 as stated fails: the key [transaction_ids] is present, and [execute]
    raises all the same, with the exception of [execute_scope_script]; here
    the one of the abstract method. *)
Lemma execute_raises_with_key :
  let user_input : gmap string pyval := {["transaction_ids" := PyList [PyInt 4; PyInt 5]]} in
  user_input !! "transaction_ids" = Some (PyList [PyInt 4; PyInt 5])
  ∧ execute (R := pyval) abstract_execute_scope_script (Some 3) "token" user_input
    = Raise NotImplementedError
  ∧ ¬ (is_raise (execute (R := pyval) abstract_execute_scope_script (Some 3) "token"
                   user_input)
       ↔ user_input !! "transaction_ids" = None).
Proof.
  intros user_input. split; [vm_compute; reflexivity|]. split; [vm_compute; reflexivity|].
  intros [Hraise _].
  assert (user_input !! "transaction_ids" = None) as Hnone by (apply Hraise; exact I).
  vm_compute in Hnone. discriminate.
Qed.
(** ** The further properties on the small dataset service *)

Lemma unknown_dataset_raises_witness :
  _dss_base demo_self_no_base = None
  ∧ get_scopes demo_remote demo_self_no_base 8 "all" demo_world
    = (Raise (AttributeError "'NoneType' object has no attribute 'dss_url'"),
       after_fetch demo_remote demo_self_no_base demo_world)
  ∧ get_transaction_summary demo_remote demo_self_no_base demo_summary 8 "all" PyNone
      demo_world
    = (Raise (AttributeError "'NoneType' object has no attribute 'dss_url'"),
       after_fetch demo_remote demo_self_no_base demo_world)
  ∧ get_transactions demo_to_dict demo_remote demo_self_no_base 8 (PyBool true)
      [demo_col_rev] PyNone PyNone "all" PyNone PyNone None demo_world
    = (Raise (AttributeError "'NoneType' object has no attribute 'dss_url'"),
       push_cell None (after_fetch demo_remote demo_self_no_base demo_world)).
Proof.
  assert (_dss_base demo_self_no_base = None) as Hnone by reflexivity.
  assert (index demo_remote demo_self_no_base demo_world
          = (Ok [ {| Dataset.id := 7; Dataset.dss_url := "https://dss.example" |} ],
             after_fetch demo_remote demo_self_no_base demo_world)) as Hindex
    by (vm_compute; reflexivity).
  assert (Forall (λ d, Dataset.id d ≠ 8)
            [ {| Dataset.id := 7; Dataset.dss_url := "https://dss.example" |} ]) as Hall
    by (repeat constructor; cbn; discriminate).
  pose proof (unknown_dataset_raises demo_to_dict demo_remote demo_self_no_base
                demo_summary 8 0 (PyBool true) [demo_col_rev] PyNone PyNone "all" PyNone
                PyNone None demo_world _ _ Hnone Hindex Hall) as H.
  cbv zeta in H. destruct H as (Hscopes & _ & Hsummary & Hrun).
  split; [exact Hnone|]. split; [exact Hscopes|]. split; [exact Hsummary | exact Hrun].
Defined.

(** Two calls of [get_scopes] in a row: two requests. *)
Lemma get_scopes_not_memoized_witness :
  get_scopes demo_remote demo_self 7 "all" demo_world
  = (Ok [demo_revenue; demo_cost], sent (GET_scopes "https://dss.example" 7 "all") demo_world)
  ∧ requests
      (get_scopes demo_remote demo_self 7 "all"
         (sent (GET_scopes "https://dss.example" 7 "all") demo_world)).2
    = [GET_scopes "https://dss.example" 7 "all"; GET_scopes "https://dss.example" 7 "all"].
Proof.
  assert (get_scopes demo_remote demo_self 7 "all" demo_world
          = (Ok [demo_revenue; demo_cost],
             sent (GET_scopes "https://dss.example" 7 "all") demo_world)) as Hfirst
    by (vm_compute; reflexivity).
  pose proof (get_scopes_not_memoized demo_remote demo_self 7 "all" demo_world _ _ Hfirst)
    as (dss_base & Hlast & Hsecond).
  split; [exact Hfirst|]. rewrite Hsecond.
  vm_compute in Hlast. injection Hlast as <-. reflexivity.
Defined.

Lemma _add_scopes_raises_iff_witness :
  Exists (λ c, selector_count c ≠ 1) [demo_col_rev; demo_col_no_selector]
  ∧ _add_scopes demo_remote demo_self 7 [demo_col_rev; demo_col_no_selector] "all"
      demo_world
    = (Raise (ValueError
         "Not exactly one of `scope_id`, `representation` or `name_dataset` provided for column"),
       sent (GET_scopes "https://dss.example" 7 "all") demo_world).
Proof.
  assert (Exists (λ c, selector_count c ≠ 1) [demo_col_rev; demo_col_no_selector])
    as Hex.
  { apply Exists_cons_tl, Exists_cons_hd. vm_compute. discriminate. }
  assert (_get_dss_base demo_remote demo_self 7 demo_world
          = (Ok "https://dss.example", demo_world)) as Hbase
    by (vm_compute; reflexivity).
  pose proof (_add_scopes_raises_iff demo_remote demo_self 7
                [demo_col_rev; demo_col_no_selector] "all" demo_world
                "https://dss.example" demo_world Hbase) as H.
  cbv zeta in H. destruct H as (Hworld & [_ Hraise] & _).
  split; [exact Hex|].
  destruct (_add_scopes demo_remote demo_self 7 [demo_col_rev; demo_col_no_selector]
              "all" demo_world) as [r w'].
  cbn [fst snd] in Hworld, Hraise. rewrite Hworld, (Hraise Hex). reflexivity.
Defined.

Lemma _find_scope_keys_entries_witness :
  _find_scope_keys [demo_resolved demo_cost None; demo_resolved demo_cost (Some "cost")]
  = Ok {[2 := PyStr "cost"]}
  ∧ ∃ before c after,
      [demo_resolved demo_cost None; demo_resolved demo_cost (Some "cost")]
      = before ++ c :: after
      ∧ resolves_to c 2
      ∧ Forall (λ c', ¬ resolves_to c' 2) after
      ∧ PyStr "cost" = key_of c 2.
Proof.
  assert (_find_scope_keys
            [demo_resolved demo_cost None; demo_resolved demo_cost (Some "cost")]
          = Ok {[2 := PyStr "cost"]}) as Hrun by (vm_compute; reflexivity).
  assert (({[2 := PyStr "cost"]} : gmap Z pyval) !! 2 = Some (PyStr "cost")) as Hkey
    by (vm_compute; reflexivity).
  pose proof (_find_scope_keys_entries
                [demo_resolved demo_cost None; demo_resolved demo_cost (Some "cost")]
                {[2 := PyStr "cost"]} 2 (PyStr "cost") Hrun) as [H _].
  split; [exact Hrun | exact (H Hkey)].
Defined.

(** The same call on a dataset service that answers, and on one whose
    pagination fails after the first page. *)
Lemma get_transactions_Ok_iff_witness :
  queryable [demo_revenue; demo_cost] [demo_col_rev; demo_col_cost] PyNone PyNone
  ∧ (∃ df, (demo_run [demo_col_rev; demo_col_cost] PyNone None).1 = Ok df)
  ∧ (get_transactions demo_to_dict demo_remote_failing demo_self 7 (PyBool true)
       [demo_col_rev; demo_col_cost] PyNone PyNone "all" PyNone PyNone None
       demo_world).1
    = Raise (Exception "502 Bad Gateway").
Proof.
  assert (_get_dss_base demo_remote demo_self 7 demo_world
          = (Ok "https://dss.example", demo_world)) as Hbase
    by (vm_compute; reflexivity).
  assert (queryable
            (dss_scopes demo_remote (length (requests demo_world))
               "https://dss.example" 7 "all")
            [demo_col_rev; demo_col_cost] PyNone PyNone) as Hqueryable.
  { unfold queryable. split_and!.
    - each_column ltac:(vm_compute; reflexivity).
    - each_column ltac:(eexists; vm_compute; reflexivity).
    - each_column ltac:(vm_compute; discriminate).
    - reflexivity.
    - reflexivity. }
  assert (last_query_answered demo_remote
            (get_transactions demo_to_dict demo_remote demo_self 7 (PyBool true)
               [demo_col_rev; demo_col_cost] PyNone PyNone "all" PyNone PyNone None
               demo_world).2) as Hanswered
    by (intros sent_before dss_base dataset_id bc_id request_data _; reflexivity).
  pose proof (get_transactions_Ok_iff demo_to_dict demo_remote demo_self 7 (PyBool true)
                [demo_col_rev; demo_col_cost] PyNone PyNone "all" PyNone PyNone None
                demo_world "https://dss.example" demo_world Hbase) as [_ Hok].
  split; [exact Hqueryable|]. split; [|vm_compute; reflexivity].
  unfold demo_run. apply Hok. split; [exact Hqueryable | exact Hanswered].
Defined.

(** The requests of the call with every optional argument. *)
Example payload_full :
  requests demo_full_run.2
  = [GET_scopes "https://dss.example" 7 "bc1";
     POST_transactions "https://dss.example" 7 "bc1" demo_full_payload].
Proof. vm_compute. reflexivity. Qed.

Lemma select_scopes_in_payload_witness :
  POST_transactions "https://dss.example" 7 "bc1" demo_full_payload
    ∈ requests demo_full_run.2
  ∧ demo_full_payload !! "aggregate" = Some (PyBool false)
  ∧ ∃ ids,
      demo_full_payload !! "select_scopes" = Some (PyList (PyInt <$> ids))
      ∧ Forall2 (resolves_id [demo_revenue; demo_cost]) [demo_col_rev; demo_col_cost] ids.
Proof.
  assert (requests (get_transactions demo_to_dict demo_remote demo_self 7 (PyBool false)
                      [demo_col_rev; demo_col_cost] (PyDatetime 100) (PyDatetime 200)
                      "bc1" (PyStr "approved") (PyList [PyInt 5; PyInt 6]) None
                      demo_world).2
          = requests demo_world
            ++ [GET_scopes "https://dss.example" 7 "bc1";
                POST_transactions "https://dss.example" 7 "bc1" demo_full_payload])
    as Hevs by (vm_compute; reflexivity).
  assert (POST_transactions "https://dss.example" 7 "bc1" demo_full_payload
            ∈ [GET_scopes "https://dss.example" 7 "bc1";
               POST_transactions "https://dss.example" 7 "bc1" demo_full_payload]) as Hin
    by (apply elem_of_cons; right; apply elem_of_cons; by left).
  assert (_get_dss_base demo_remote demo_self 7 demo_world
          = (Ok "https://dss.example", demo_world)) as Hbase
    by (vm_compute; reflexivity).
  pose proof (select_scopes_in_payload demo_to_dict demo_remote demo_self 7 (PyBool false)
                [demo_col_rev; demo_col_cost] (PyDatetime 100) (PyDatetime 200) "bc1"
                (PyStr "approved") (PyList [PyInt 5; PyInt 6]) None demo_world _ _ _ _
                demo_full_payload Hevs Hin)
    as (Hagg & dss_base & w0 & ids & Hbase' & Hsel & Hids).
  rewrite Hbase in Hbase'. injection Hbase' as <- <-.
  split; [unfold demo_full_run; rewrite Hevs; exact Hin|].
  split; [exact Hagg|]. exists ids. split; [exact Hsel | exact Hids].
Defined.

Lemma optional_entries_in_payload_witness :
  POST_transactions "https://dss.example" 7 "bc1" demo_full_payload
    ∈ requests demo_full_run.2
  ∧ demo_full_payload !! "intake_status" = Some (PyStr "approved")
  ∧ demo_full_payload !! "filter_transaction_ids" = Some (PyList [PyInt 5; PyInt 6])
  ∧ demo_full_payload !! "start_date_time" = Some (PyDatetime 100)
  ∧ demo_full_payload !! "end_date_time" = Some (PyDatetime 200).
Proof.
  assert (requests (get_transactions demo_to_dict demo_remote demo_self 7 (PyBool false)
                      [demo_col_rev; demo_col_cost] (PyDatetime 100) (PyDatetime 200)
                      "bc1" (PyStr "approved") (PyList [PyInt 5; PyInt 6]) None
                      demo_world).2
          = requests demo_world
            ++ [GET_scopes "https://dss.example" 7 "bc1";
                POST_transactions "https://dss.example" 7 "bc1" demo_full_payload])
    as Hevs by (vm_compute; reflexivity).
  assert (POST_transactions "https://dss.example" 7 "bc1" demo_full_payload
            ∈ [GET_scopes "https://dss.example" 7 "bc1";
               POST_transactions "https://dss.example" 7 "bc1" demo_full_payload]) as Hin
    by (apply elem_of_cons; right; apply elem_of_cons; by left).
  pose proof (optional_entries_in_payload demo_to_dict demo_remote demo_self 7
                (PyBool false) [demo_col_rev; demo_col_cost] (PyDatetime 100)
                (PyDatetime 200) "bc1" (PyStr "approved") (PyList [PyInt 5; PyInt 6])
                None demo_world _ _ _ _ demo_full_payload Hevs Hin) as H.
  split; [unfold demo_full_run; rewrite Hevs; exact Hin | exact H].
Defined.

Lemma payload_keys_only_witness :
  POST_transactions "https://dss.example" 7 "bc1" demo_full_payload
    ∈ requests demo_full_run.2
  ∧ is_Some (demo_full_payload !! "intake_status")
  ∧ "intake_status" ∈ payload_keys.
Proof.
  assert (requests (get_transactions demo_to_dict demo_remote demo_self 7 (PyBool false)
                      [demo_col_rev; demo_col_cost] (PyDatetime 100) (PyDatetime 200)
                      "bc1" (PyStr "approved") (PyList [PyInt 5; PyInt 6]) None
                      demo_world).2
          = requests demo_world
            ++ [GET_scopes "https://dss.example" 7 "bc1";
                POST_transactions "https://dss.example" 7 "bc1" demo_full_payload])
    as Hevs by (vm_compute; reflexivity).
  assert (POST_transactions "https://dss.example" 7 "bc1" demo_full_payload
            ∈ [GET_scopes "https://dss.example" 7 "bc1";
               POST_transactions "https://dss.example" 7 "bc1" demo_full_payload]) as Hin
    by (apply elem_of_cons; right; apply elem_of_cons; by left).
  assert (is_Some (demo_full_payload !! "intake_status")) as Hkey
    by (eexists; vm_compute; reflexivity).
  pose proof (payload_keys_only demo_to_dict demo_remote demo_self 7 (PyBool false)
                [demo_col_rev; demo_col_cost] (PyDatetime 100) (PyDatetime 200) "bc1"
                (PyStr "approved") (PyList [PyInt 5; PyInt 6]) None demo_world _ _ _ _
                demo_full_payload "intake_status" Hevs Hin Hkey) as H.
  split; [unfold demo_full_run; rewrite Hevs; exact Hin|]. split; [exact Hkey | exact H].
Defined.

Lemma get_transactions_Ok_witness :
  let r := demo_run [demo_col_rev; demo_col_cost] PyNone None in
  r.1 = Ok (from_records
              [[(PyStr "rev", PyInt 100); (PyStr "scope_2", PyStr "A")];
               [(PyStr "rev", PyInt 250); (PyStr "scope_2", PyStr "B")]])
  ∧ ∃ scope_keys request_data,
      _find_scope_keys (map (resolve [demo_revenue; demo_cost]) [demo_col_rev; demo_col_cost])
      = Ok scope_keys
      ∧ requests r.2
        = requests demo_world
          ++ [GET_scopes "https://dss.example" 7 "all";
              POST_transactions "https://dss.example" 7 "all" request_data]
      ∧ tasks r.2
        = tasks demo_world
          ++ map (page_task demo_to_dict (length (cells demo_world)) scope_keys)
               (dss_transactions demo_remote 1 "https://dss.example" 7 "all" request_data).
Proof.
  intros r.
  assert (get_transactions demo_to_dict demo_remote demo_self 7 (PyBool true)
            [demo_col_rev; demo_col_cost] PyNone PyNone "all" PyNone PyNone None demo_world
          = (Ok (from_records
                   [[(PyStr "rev", PyInt 100); (PyStr "scope_2", PyStr "A")];
                    [(PyStr "rev", PyInt 250); (PyStr "scope_2", PyStr "B")]]),
             r.2)) as Hrun
    by (vm_compute; reflexivity).
  assert (_get_dss_base demo_remote demo_self 7 demo_world
          = (Ok "https://dss.example", demo_world)) as Hbase
    by (vm_compute; reflexivity).
  pose proof (get_transactions_Ok demo_to_dict demo_remote demo_self 7 (PyBool true)
                [demo_col_rev; demo_col_cost] PyNone PyNone "all" PyNone PyNone None
                demo_world _ _ Hrun)
    as (dss_base & w0 & scope_keys & request_data & Hbase' & Hkeys & Hreqs & H).
  rewrite Hbase in Hbase'. injection Hbase' as <- <-.
  cbv zeta in H. destruct H as (_ & Htasks & _).
  split; [unfold r, demo_run; by rewrite Hrun|].
  exists scope_keys, request_data. split; [exact Hkeys|]. split; [exact Hreqs | exact Htasks].
Defined.

(** A page without records: the call returns the row of the other page, and
    a task is left however long the tasks are run. *)
Lemma empty_page_respawns_witness :
  let r := get_transactions demo_to_dict demo_remote_empty_page demo_self 7 (PyBool true)
             [demo_col_rev] PyNone PyNone "all" PyNone PyNone None demo_world in
  r.1 = Ok (from_records [[(PyStr "rev", PyInt 100)]])
  ∧ Exists (λ p, page_records p = [])
      (dss_transactions demo_remote_empty_page 1 "https://dss.example" 7 "all"
         (<["select_scopes" := PyList [PyInt 1]]> {["aggregate" := PyBool true]}))
  ∧ tasks (run_tasks demo_to_dict 1000 r.2) ≠ [].
Proof.
  intros r.
  assert (get_transactions demo_to_dict demo_remote_empty_page demo_self 7 (PyBool true)
            [demo_col_rev] PyNone PyNone "all" PyNone PyNone None demo_world
          = (Ok (from_records [[(PyStr "rev", PyInt 100)]]), r.2)) as Hrun
    by (vm_compute; reflexivity).
  assert (requests r.2
          = [GET_scopes "https://dss.example" 7 "all"]
            ++ [POST_transactions "https://dss.example" 7 "all"
                  (<["select_scopes" := PyList [PyInt 1]]> {["aggregate" := PyBool true]})])
    as Hreqs by (vm_compute; reflexivity).
  assert (Exists (λ p, page_records p = [])
            (dss_transactions demo_remote_empty_page
               (length [GET_scopes "https://dss.example" 7 "all"])
               "https://dss.example" 7 "all"
               (<["select_scopes" := PyList [PyInt 1]]> {["aggregate" := PyBool true]})))
    as Hex by (apply Exists_cons_tl, Exists_cons_hd; reflexivity).
  pose proof (empty_page_respawns demo_to_dict demo_remote_empty_page demo_self 7
                (PyBool true) [demo_col_rev] PyNone PyNone "all" PyNone PyNone None
                demo_world _ _ _ _ _ _ _ 1000%nat Hrun Hreqs Hex) as H.
  split; [unfold r; by rewrite Hrun|]. split; [exact Hex | exact H].
Defined.

(** Two pages of one record each: the two tasks end, and nothing is left. *)
Lemma page_tasks_end_witness :
  let r := demo_run [demo_col_rev] PyNone None in
  r.1 = Ok (from_records [[(PyStr "rev", PyInt 100)]; [(PyStr "rev", PyInt 250)]])
  ∧ Forall on_frame_with_columns (tasks r.2)
  ∧ length (tasks r.2) = 2%nat
  ∧ run_tasks demo_to_dict 2 r.2 = set_tasks [] r.2.
Proof.
  intros r.
  assert (tasks demo_world = []) as Hnone by reflexivity.
  assert (get_transactions demo_to_dict demo_remote demo_self 7 (PyBool true)
            [demo_col_rev] PyNone PyNone "all" PyNone PyNone None demo_world
          = (Ok (from_records [[(PyStr "rev", PyInt 100)]; [(PyStr "rev", PyInt 250)]]),
             r.2)) as Hrun
    by (vm_compute; reflexivity).
  assert (length (tasks r.2) = 2%nat) as Hlength by (vm_compute; reflexivity).
  assert (Forall on_frame_with_columns (tasks r.2)) as Hall.
  { apply Forall_forall. intros t Ht. vm_compute in Ht.
    repeat (apply elem_of_cons in Ht as [->|Ht]);
      [eexists; split; [reflexivity | vm_compute; reflexivity]..|].
    by apply elem_of_nil in Ht. }
  pose proof (page_tasks_end demo_to_dict demo_remote demo_self 7 (PyBool true)
                [demo_col_rev] PyNone PyNone "all" PyNone PyNone None demo_world _ _
                Hnone Hrun Hall) as H.
  rewrite Hlength in H.
  split; [unfold r, demo_run; by rewrite Hrun|]. split; [exact Hall|].
  split; [exact Hlength | exact H].
Defined.
